(** * snap-server: revision chain and access checks of [server.py]

    A shallow embedding of the request handlers of the Snap! project
    server (one Python 2 module, [server.py]) together with the properties
    of its revision store and of its access checks.

    Python 2 [str] values are byte strings; they are modelled by Rocq's
    [string] (a list of 8-bit characters).  The SQL tables behind the
    SQLAlchemy classes are modelled as lists of rows in insertion order, the
    many-to-many association tables as the lists of foreign keys held by
    the owning row. *)

From Stdlib Require Import ZArith List String Ascii Bool Lia.
Import ListNotations.
Local Open Scope string_scope.
Local Open Scope list_scope.
Local Open Scope Z_scope.

(** ** [hashlib.sha1]

    The digest the handlers call is the library function [hashlib.sha1]
    (SHA-1, FIPS 180-4); [sha1.update(a); sha1.update(b)] hashes the
    concatenation [a ++ b], and [hexdigest()] renders the 160-bit digest as
    40 lower-case hexadecimal characters.  32-bit words are [Z] values kept
    below [2^32]. *)
Module SHA1.

Definition w32 (x : Z) : Z := Z.land x 4294967295.

Definition add32 (x y : Z) : Z := w32 (x + y).

Definition rotl (n x : Z) : Z :=
  w32 (Z.lor (Z.shiftl x n) (Z.shiftr x (32 - n))).

Definition bytes_of_string (s : string) : list Z :=
  map (fun c => Z.of_N (N_of_ascii c)) (list_ascii_of_string s).

(** Big-endian bytes of the low [8 * n] bits of [x]. *)
Fixpoint be_bytes (n : nat) (x : Z) : list Z :=
  match n with
  | O => []
  | S n' => Z.land (Z.shiftr x (8 * Z.of_nat n')) 255 :: be_bytes n' x
  end.

(** Message padding: a 1 bit, zero bits up to 56 mod 64 bytes, and the
    bit length on 64 bits. *)
Definition pad (msg : list Z) : list Z :=
  let l := Z.of_nat (List.length msg) in
  msg ++ 128 :: repeat 0 (Z.to_nat ((55 - l) mod 64)) ++ be_bytes 8 (8 * l).

Fixpoint be_words (fuel : nat) (bs : list Z) : list Z :=
  match fuel, bs with
  | S f, b0 :: b1 :: b2 :: b3 :: rest =>
      (Z.shiftl b0 24 + Z.shiftl b1 16 + Z.shiftl b2 8 + b3)
        :: be_words f rest
  | _, _ => []
  end.

(** The message schedule, most recent word first: [W t] is computed from
    [W (t-3)], [W (t-8)], [W (t-14)] and [W (t-16)]. *)
Fixpoint schedule (n : nat) (rev_w : list Z) : list Z :=
  match n with
  | O => rev_w
  | S n' =>
      let x := Z.lxor (Z.lxor (nth 2 rev_w 0) (nth 7 rev_w 0))
                      (Z.lxor (nth 13 rev_w 0) (nth 15 rev_w 0)) in
      schedule n' (rotl 1 x :: rev_w)
  end.

Definition f_k (t : nat) (b c d : Z) : Z * Z :=
  if (t <? 20)%nat then
    (Z.lor (Z.land b c) (Z.land (Z.lxor b 4294967295) d), 1518500249)
  else if (t <? 40)%nat then
    (Z.lxor (Z.lxor b c) d, 1859775393)
  else if (t <? 60)%nat then
    (Z.lor (Z.lor (Z.land b c) (Z.land b d)) (Z.land c d), 2400959708)
  else
    (Z.lxor (Z.lxor b c) d, 3395469782).

Definition state : Type := Z * Z * Z * Z * Z.

Fixpoint rounds (t : nat) (ws : list Z) (s : state) : state :=
  match ws with
  | [] => s
  | w :: ws' =>
      let '(a, b, c, d, e) := s in
      let '(f, k) := f_k t b c d in
      let temp := add32 (add32 (add32 (add32 (rotl 5 a) f) e) k) w in
      rounds (S t) ws' (temp, a, rotl 30 b, c, d)
  end.

Definition compress (h : state) (block : list Z) : state :=
  let ws := rev (schedule 64 (rev (be_words 16 block))) in
  let '(h0, h1, h2, h3, h4) := h in
  let '(a, b, c, d, e) := rounds 0 ws h in
  (add32 h0 a, add32 h1 b, add32 h2 c, add32 h3 d, add32 h4 e).

Fixpoint blocks (fuel : nat) (bs : list Z) (h : state) : state :=
  match fuel, bs with
  | S f, _ :: _ => blocks f (skipn 64 bs) (compress h (firstn 64 bs))
  | _, _ => h
  end.

Definition initial : state :=
  (1732584193, 4023233417, 2562383102, 271733878, 3285377520).

Definition digest (msg : list Z) : state :=
  let p := pad msg in blocks (List.length p) p initial.

Definition hex_digit (d : Z) : ascii :=
  if d <? 10 then ascii_of_N (Z.to_N (48 + d))
  else ascii_of_N (Z.to_N (87 + d)).

(** [n] hexadecimal digits of [x], most significant first. *)
Fixpoint hex (n : nat) (x : Z) : string :=
  match n with
  | O => EmptyString
  | S n' =>
      String (hex_digit (Z.land (Z.shiftr x (4 * Z.of_nat n')) 15))
             (hex n' x)
  end.

Definition hexdigest (data : string) : string :=
  let '(h0, h1, h2, h3, h4) := digest (bytes_of_string data) in
  (hex 8 h0 ++ hex 8 h1 ++ hex 8 h2 ++ hex 8 h3 ++ hex 8 h4)%string.

End SHA1.


(** ** Module constants *)

Definition HASH_ID_LEN : nat := 40.
Definition STORAGE_DIR : string := "storage".

(** ** Python values used by the handlers *)

(** [x in l] on a Python list: a left-to-right scan with [==]. *)
Definition inb (x : string) (l : list string) : bool :=
  existsb (String.eqb x) l.

(** [l.remove(x)]: drops the first element equal to [x]; [None] stands for
    the [ValueError] Python raises when there is none. *)
Fixpoint list_remove (x : string) (l : list string) : option (list string) :=
  match l with
  | [] => None
  | y :: l' =>
      if String.eqb y x then Some l'
      else match list_remove x l' with
           | Some r => Some (y :: r)
           | None => None
           end
  end.

(** [collection.append(x)] on a relationship of a row loaded in this
    session, as the commit leaves the association table: the flush
    inserts a row for every item that was not in the collection when it
    was loaded, so appending an item that is there already writes
    nothing. *)
Definition relationship_append (x : string) (l : list string)
  : list string :=
  if inb x l then l else l ++ [x].

(** Truth value of what a Python function returns when it either returns
    [True] or falls off its end (returning [None]). *)
Definition truthy (v : option bool) : bool :=
  match v with
  | Some b => b
  | None => false
  end.

(** ** Exceptions

    The subclasses of [ServerException], followed by the built-in and
    SQLAlchemy exceptions that reach the generic [handle_exception]. *)
Inductive Exception : Type :=
| NotAuthenticated
| NotAuthorized
| NotPermitted
| NeedAuthentication
| IncorrectPassword
| NoSuchUser
| NoSuchProject
| NoSuchCourse
| NoSuchAssignment
| NoSuchRevision
| MissingParameter (param : string)
| UserLogicError (msg : string)
| UnknownURL
| ValueError
| AttributeError
| IntegrityError.

(** True for the exceptions with a handler of their own (the
    [ServerException] family); the others are unhandled faults, reported
    by [handle_exception] with a traceback. *)
Definition is_ServerException (e : Exception) : bool :=
  match e with
  | ValueError | AttributeError | IntegrityError => false
  | _ => true
  end.

(** A computation that returns or raises. *)
Inductive Exc (A : Type) : Type :=
| Raise (e : Exception)
| Return (a : A).
Arguments Raise {A} e.
Arguments Return {A} a.

Definition bind {A B : Type} (c : Exc A) (k : A -> Exc B) : Exc B :=
  match c with
  | Raise e => Raise e
  | Return a => k a
  end.

Notation "x <- c ;; k" := (bind c (fun x => k))
  (at level 61, c at next level, right associativity).

(** [if cond: raise e] *)
Definition raise_if (cond : bool) (e : Exception) : Exc unit :=
  if cond then Raise e else Return tt.

(** ** Rows of the mapped classes

    A relationship through an association table is the list of the foreign
    keys of the related rows: user names for [members], [owners],
    [teachers] and [students], course ids for the two course shares.  Users
    and courses are never deleted, so every key in such a list resolves.

    The rows of an association table are keyed by the id strings the
    handlers pass.  [course_teachers.course] and [course_students.course]
    are declared [Integer] although [courseId] is a 40-character string;
    what the storage engine makes of an id that reads as a number (its
    column affinity) is outside this model, which follows the object
    graph the ORM hands to the handlers. *)

Record User : Type := {
  userName : string;
  password : string;
  email : option string
}.

Record Revision : Type := {
  revId : string;
  prevId : string
}.

Record Project : Type := {
  projId : string;
  headId : option string;
  sharedName : option string;
  members : list string;
  owners : list string;
  course_shared_with_teachers : list string;
  course_shared_with_students : list string;
  public : option bool
}.

Record Course : Type := {
  courseId : string;
  teachers : list string;
  students : list string;
  name : option string
}.

(** The database ([snap.sqlite]) and the revision files under
    [STORAGE_DIR].  [storage] is the log of the files written, the most
    recent first; [assignments] holds the ids of the assignment rows. *)
Record DB : Type := {
  users : list User;
  projects : list Project;
  courses : list Course;
  revisions : list Revision;
  assignments : list string;
  storage : list (string * string)
}.

Definition set_projects (db : DB) (ps : list Project) : DB :=
  {| users := users db; projects := ps; courses := courses db;
     revisions := revisions db; assignments := assignments db;
     storage := storage db |}.

Definition set_courses (db : DB) (cs : list Course) : DB :=
  {| users := users db; projects := projects db; courses := cs;
     revisions := revisions db; assignments := assignments db;
     storage := storage db |}.

Definition set_revisions (db : DB) (rs : list Revision) : DB :=
  {| users := users db; projects := projects db; courses := courses db;
     revisions := rs; assignments := assignments db;
     storage := storage db |}.

Definition set_storage (db : DB) (fs : list (string * string)) : DB :=
  {| users := users db; projects := projects db; courses := courses db;
     revisions := revisions db; assignments := assignments db;
     storage := fs |}.

Definition set_headId (p : Project) (h : option string) : Project :=
  {| projId := projId p; headId := h; sharedName := sharedName p;
     members := members p; owners := owners p;
     course_shared_with_teachers := course_shared_with_teachers p;
     course_shared_with_students := course_shared_with_students p;
     public := public p |}.

Definition set_sharedName (p : Project) (n : option string) : Project :=
  {| projId := projId p; headId := headId p; sharedName := n;
     members := members p; owners := owners p;
     course_shared_with_teachers := course_shared_with_teachers p;
     course_shared_with_students := course_shared_with_students p;
     public := public p |}.

Definition set_members (p : Project) (l : list string) : Project :=
  {| projId := projId p; headId := headId p; sharedName := sharedName p;
     members := l; owners := owners p;
     course_shared_with_teachers := course_shared_with_teachers p;
     course_shared_with_students := course_shared_with_students p;
     public := public p |}.

Definition set_course_shared_with_teachers (p : Project) (l : list string)
  : Project :=
  {| projId := projId p; headId := headId p; sharedName := sharedName p;
     members := members p; owners := owners p;
     course_shared_with_teachers := l;
     course_shared_with_students := course_shared_with_students p;
     public := public p |}.

Definition set_course_shared_with_students (p : Project) (l : list string)
  : Project :=
  {| projId := projId p; headId := headId p; sharedName := sharedName p;
     members := members p; owners := owners p;
     course_shared_with_teachers := course_shared_with_teachers p;
     course_shared_with_students := l;
     public := public p |}.

Definition set_public (p : Project) (b : option bool) : Project :=
  {| projId := projId p; headId := headId p; sharedName := sharedName p;
     members := members p; owners := owners p;
     course_shared_with_teachers := course_shared_with_teachers p;
     course_shared_with_students := course_shared_with_students p;
     public := b |}.

Definition set_teachers (c : Course) (l : list string) : Course :=
  {| courseId := courseId c; teachers := l; students := students c;
     name := name c |}.

Definition set_students (c : Course) (l : list string) : Course :=
  {| courseId := courseId c; teachers := teachers c; students := l;
     name := name c |}.

(** ** The session

    [session.query(M).filter(M.key == k).first()] is the first row with
    that key.  At commit the row the session loaded is written back in
    place ([replace_row]), a deleted row disappears ([delete_row]). *)

Definition query_User (db : DB) (k : string) : option User :=
  find (fun u => String.eqb (userName u) k) (users db).

Definition query_Project (db : DB) (k : string) : option Project :=
  find (fun p => String.eqb (projId p) k) (projects db).

Definition query_Course (db : DB) (k : string) : option Course :=
  find (fun c => String.eqb (courseId c) k) (courses db).

Definition query_Revision (db : DB) (k : string) : option Revision :=
  find (fun r => String.eqb (revId r) k) (revisions db).

Fixpoint replace_row {A : Type} (same : A -> bool) (new : A) (l : list A)
  : list A :=
  match l with
  | [] => []
  | q :: l' => if same q then new :: l' else q :: replace_row same new l'
  end.

Fixpoint delete_row {A : Type} (same : A -> bool) (l : list A) : list A :=
  match l with
  | [] => []
  | q :: l' => if same q then l' else q :: delete_row same l'
  end.

Definition update_Project (db : DB) (p : Project) : DB :=
  set_projects db
    (replace_row (fun q => String.eqb (projId q) (projId p)) p
                 (projects db)).

Definition update_Course (db : DB) (c : Course) : DB :=
  set_courses db
    (replace_row (fun q => String.eqb (courseId q) (courseId c)) c
                 (courses db)).

Definition delete_Project (db : DB) (p : Project) : DB :=
  set_projects db
    (delete_row (fun q => String.eqb (projId q) (projId p)) (projects db)).

(** [project.head]: the revision row [headId] refers to, if any. *)
Definition Project_head (db : DB) (p : Project) : option Revision :=
  match headId p with
  | Some h => query_Revision db h
  | None => None
  end.

(** The [Course] rows behind a list of course ids. *)
Fixpoint resolve_courses (db : DB) (ids : list string) : list Course :=
  match ids with
  | [] => []
  | k :: ids' =>
      match query_Course db k with
      | Some c => c :: resolve_courses db ids'
      | None => resolve_courses db ids'
      end
  end.

(** ** Requests and responses

    A request as the handlers see it: the user name and password that
    [getUserPass] decodes from the authorization header (absent when there
    is no such header), the query parameters, the body, and the URI of the
    application, used to build links.  A response is a status line and the
    XML element that [formatXML] would print. *)
Record Request : Type := {
  authorization : option (string * string);
  params : list (string * string);
  stream : string;
  application_uri : string
}.

Fixpoint get_param (ps : list (string * string)) (k : string)
  : option string :=
  match ps with
  | [] => None
  | (k', v) :: ps' => if String.eqb k' k then Some v else get_param ps' k
  end.

#[local] Set Warnings "-register-all".
Inductive Elt : Type :=
| mkElt (tag : string) (attrib : list (string * string)) (text : string)
        (children : list Elt).

(** [Elt.__init__]: attributes whose value is [None] are left out. *)
Fixpoint Elt_attrib (attrib : list (string * option string))
  : list (string * string) :=
  match attrib with
  | [] => []
  | (k, Some v) :: rest => (k, v) :: Elt_attrib rest
  | (_, None) :: rest => Elt_attrib rest
  end.

Definition Elt_init (tag : string) (attrib : list (string * option string))
  (text : string) : Elt :=
  mkElt tag (Elt_attrib attrib) text [].

Definition Elt_append (e child : Elt) : Elt :=
  match e with
  | mkElt tag attrib text children =>
      mkElt tag attrib text (children ++ [child])
  end.

Definition Elt_extend (e : Elt) (cs : list Elt) : Elt :=
  fold_left Elt_append cs e.

Inductive Status : Type := HTTP_200.

Record Response : Type := {
  status : Status;
  body : Elt
}.

Definition respondXML (st : Status) (b : Elt) : Response :=
  {| status := st; body := b |}.

Definition xmlSuccess (attrib : list (string * option string)) : Elt :=
  Elt_init "success" attrib "".

Definition forceParam (req : Request) (paramName : string) : Exc string :=
  match get_param (params req) paramName with
  | None => Raise (MissingParameter paramName)
  | Some param => Return param
  end.

(** ** Helpers of the module *)

Definition hash_password (username password : string) : string :=
  SHA1.hexdigest ("SnapServer" ++ username ++ password ++ username)%string.

(** Number of hexadecimal digits [format(hsh, 'x')] prints. *)
Definition hex_width (hsh : N) : nat :=
  N.to_nat (N.log2 hsh / 4 + 1).

(** [format(hsh, '040x')]: lower-case hexadecimal, padded with zeros on
    the left to [HASH_ID_LEN] characters (and longer when the number does
    not fit).  The handlers pass naturals only. *)
Definition formatHash (hsh : N) : string :=
  SHA1.hex (Nat.max HASH_ID_LEN (hex_width hsh)) (Z.of_N hsh).

(** [random.randrange(0, 2**160)] draws a number below [2^160]; [rnd] is
    the entropy the draw consumes. *)
Definition generateHashId (rnd : N) : string :=
  formatHash (rnd mod 2 ^ 160)%N.

Definition generateProjId (rnd : N) : string := generateHashId rnd.
Definition generateCourseId (rnd : N) : string := generateHashId rnd.

Definition auth (db : DB) (req : Request) : Exc User :=
  match authorization req with
  | None => Raise NeedAuthentication
  | Some (username, password') =>
      match filter (fun u => String.eqb (userName u) username) (users db) with
      | [] => Raise NoSuchUser
      | user :: _ =>
          if negb (String.eqb (hash_password username password')
                              (password user))
          then Raise IncorrectPassword
          else Return user
      end
  end.

Definition User_fromRequest (db : DB) (req : Request) : Exc User :=
  userName' <- forceParam req "userName" ;;
  match query_User db userName' with
  | None => Raise NoSuchUser
  | Some user => Return user
  end.

Definition Project_fromRequest (db : DB) (req : Request) : Exc Project :=
  projId' <- forceParam req "projId" ;;
  match query_Project db projId' with
  | None => Raise NoSuchProject
  | Some proj => Return proj
  end.

Definition Course_fromRequest (db : DB) (req : Request) : Exc Course :=
  courseId' <- forceParam req "courseId" ;;
  match query_Course db courseId' with
  | None => Raise NoSuchCourse
  | Some course => Return course
  end.

Definition Assignment_fromRequest (db : DB) (req : Request) : Exc string :=
  assignId <- forceParam req "assignId" ;;
  match find (String.eqb assignId) (assignments db) with
  | None => Raise NoSuchAssignment
  | Some assign => Return assign
  end.

Definition User_toXMLName (userName' : string) : Elt :=
  Elt_init "user" [("userName", Some userName')] "".

Definition Course_toXMLId (self : Course) : Elt :=
  Elt_init "course" [("courseId", Some (courseId self)); ("name", name self)]
           "".

Definition Revision_filename (self : Revision) : string :=
  (STORAGE_DIR ++ "/" ++ revId self ++ ".revision")%string.

(** [Revision.save]: opens the file for writing and writes [contents]. *)
Definition Revision_save (db : DB) (self : Revision) (contents : string)
  : DB :=
  set_storage db ((Revision_filename self, contents) :: storage db).

(** [Project.getURI]: the URI of [/GetRevision] with [revId] set to the
    project's [headId]. *)
Definition Project_getURI (self : Project) (req : Request) : string :=
  (application_uri req ++ "GetRevision?revId="
     ++ match headId self with Some h => h | None => "None" end)%string.

Definition Project_toXML (db : DB) (self : Project) (req : Request) : Elt :=
  let proj := Elt_init "project" [] "" in
  let proj := Elt_append proj (Elt_init "projId" [] (projId self)) in
  let proj :=
    Elt_extend proj
      (map (fun owner => Elt_append (Elt_init "owner" [] "")
                                    (User_toXMLName owner))
           (owners self)) in
  let proj :=
    Elt_extend proj
      (map (fun mem => Elt_append (Elt_init "member" [] "")
                                  (User_toXMLName mem))
           (members self)) in
  let proj :=
    match Project_head db self with
    | Some _ => Elt_append proj (Elt_init "URI" [] (Project_getURI self req))
    | None => proj
    end in
  match sharedName self with
  | Some n => Elt_append proj (Elt_init "sharedName" [] n)
  | None => proj
  end.

(** [for course in courses: if test(course): return True] *)
Fixpoint for_return_True (test : Course -> bool) (cs : list Course)
  : option bool :=
  match cs with
  | [] => None
  | course :: cs' =>
      if test course then Some true else for_return_True test cs'
  end.

(** [Project.canRead]: returns [True], or falls off its end. *)
Definition Project_canRead (db : DB) (self : Project) (user : User)
  : option bool :=
  if inb (userName user) (members self) then Some true
  else if inb (userName user) (owners self) then Some true
  else
    match for_return_True
            (fun course => inb (userName user) (teachers course))
            (resolve_courses db (course_shared_with_teachers self)) with
    | Some r => Some r
    | None =>
        for_return_True
          (fun course => inb (userName user) (students course)
                         || inb (userName user) (teachers course))
          (resolve_courses db (course_shared_with_students self))
    end.

(** [get_or_create(session, Revision, revId=..., prevId=...)]: the first
    row that [filter_by(revId=..., prevId=...)] keeps, or a new instance
    added to the session.  The third component is the session after the
    call. *)
Definition filter_by (revId' prevId' : string) (r : Revision) : bool :=
  String.eqb (revId r) revId' && String.eqb (prevId r) prevId'.

Definition get_or_create (db : DB) (revId' prevId' : string)
  : Revision * bool * DB :=
  match find (filter_by revId' prevId') (revisions db) with
  | Some instance => (instance, false, db)
  | None =>
      let instance := {| revId := revId'; prevId := prevId' |} in
      (instance, true, set_revisions db (revisions db ++ [instance]))
  end.

(** [with session_scope() as session]: commit when the body returns, roll
    back when it raises. *)
Definition session_scope (db : DB) (body : Exc (Response * DB))
  : Exc Response * DB :=
  match body with
  | Raise e => (Raise e, db)
  | Return (resp, db') => (Return resp, db')
  end.

(** ** Handlers

    Every handler runs in one [session_scope]; its result is what the
    request raises or responds, and the database after it. *)

Definition Result : Type := Exc Response * DB.

Definition not_in (user : User) (l : list string) : bool :=
  negb (inb (userName user) l).

Module AddStudent.
Definition on_get (db : DB) (req : Request) : Result :=
  session_scope db
    (user <- auth db req ;;
     course <- Course_fromRequest db req ;;
     _ <- raise_if (not_in user (teachers course)) NotAuthorized ;;
     student <- User_fromRequest db req ;;
     let course :=
       set_students course
         (relationship_append (userName student) (students course)) in
     Return (respondXML HTTP_200 (xmlSuccess []), update_Course db course)).
End AddStudent.

Module AddTeacher.
Definition on_get (db : DB) (req : Request) : Result :=
  session_scope db
    (user <- auth db req ;;
     _ <- forceParam req "userName" ;;
     course <- Course_fromRequest db req ;;
     _ <- raise_if (not_in user (teachers course)) NotAuthorized ;;
     teacher <- User_fromRequest db req ;;
     let course :=
       set_teachers course
         (relationship_append (userName teacher) (teachers course)) in
     Return (respondXML HTTP_200 (xmlSuccess []), update_Course db course)).
End AddTeacher.

Module CreateCourse.
Definition on_get (db : DB) (req : Request) (rnd : N) : Result :=
  session_scope db
    (user <- auth db req ;;
     let name' := get_param (params req) "name" in
     let courseId' := generateCourseId rnd in
     let course := {| courseId := courseId'; teachers := [userName user];
                      students := []; name := name' |} in
     let el := Elt_init "success" [("courseId", Some courseId')] "" in
     (* commit: the primary key must be new *)
     _ <- raise_if (existsb (fun c => String.eqb (courseId c) courseId')
                            (courses db)) IntegrityError ;;
     Return (respondXML HTTP_200 el,
             set_courses db (courses db ++ [course]))).
End CreateCourse.

Module CreateProject.
Definition on_get (db : DB) (req : Request) (rnd : N) : Result :=
  session_scope db
    (user <- auth db req ;;
     let projId' := generateProjId rnd in
     let proj := {| projId := projId'; headId := None; sharedName := None;
                    members := []; owners := [userName user];
                    course_shared_with_teachers := [];
                    course_shared_with_students := [];
                    public := None |} in
     let proj := set_members proj (members proj ++ [userName user]) in
     let el := Elt_init "success" [("projId", Some projId')] "" in
     (* commit: the primary key must be new *)
     _ <- raise_if (existsb (fun p => String.eqb (projId p) projId')
                            (projects db)) IntegrityError ;;
     Return (respondXML HTTP_200 el,
             set_projects db (projects db ++ [proj]))).
End CreateProject.

Module Enroll.
Definition on_get (db : DB) (req : Request) : Result :=
  session_scope db
    (user <- auth db req ;;
     course <- Course_fromRequest db req ;;
     let course :=
       set_students course
         (relationship_append (userName user) (students course)) in
     Return (respondXML HTTP_200 (xmlSuccess []), update_Course db course)).
End Enroll.

Module GetProjectByName.
Definition on_get (db : DB) (req : Request) : Result :=
  session_scope db
    (user <- User_fromRequest db req ;;
     projectName <- forceParam req "projectName" ;;
     let projects' :=
       filter (fun p => inb (userName user) (members p)
                        && match sharedName p with
                           | Some n => String.eqb n projectName
                           | None => false
                           end)
              (projects db) in
     let success :=
       Elt_extend (Elt_init "success" [] "")
                  (map (fun proj => Project_toXML db proj req) projects') in
     Return (respondXML HTTP_200 success, db)).
End GetProjectByName.

Module ListMembers.
Definition on_get (db : DB) (req : Request) : Result :=
  session_scope db
    (user <- auth db req ;;
     project <- Project_fromRequest db req ;;
     _ <- raise_if (not_in user (members project)) NotAuthorized ;;
     let success :=
       Elt_extend (Elt_init "success" [] "")
                  (map User_toXMLName (members project)) in
     Return (respondXML HTTP_200 success, db)).
End ListMembers.

Module ListProjects.
Definition on_get (db : DB) (req : Request) : Result :=
  session_scope db
    (user <- auth db req ;;
     let projects' :=
       filter (fun p => inb (userName user) (members p)) (projects db) in
     let success :=
       Elt_extend (Elt_init "success" [] "")
                  (map (fun proj => Project_toXML db proj req) projects') in
     Return (respondXML HTTP_200 success, db)).
End ListProjects.

Module ListStudents.
(** The element built from the students is dropped: the handler
    responds with a fresh [xmlSuccess()]. *)
Definition on_get (db : DB) (req : Request) : Result :=
  session_scope db
    (user <- auth db req ;;
     course <- Course_fromRequest db req ;;
     _ <- raise_if (not_in user (teachers course)) NotAuthorized ;;
     Return (respondXML HTTP_200 (xmlSuccess []), db)).
End ListStudents.

Module ListTeachers.
Definition on_get (db : DB) (req : Request) : Result :=
  session_scope db
    (course <- Course_fromRequest db req ;;
     let success :=
       Elt_extend (Elt_init "success" [] "")
                  (map User_toXMLName (teachers course)) in
     Return (respondXML HTTP_200 success, db)).
End ListTeachers.

Module LoadProject.
Definition on_get (db : DB) (req : Request) : Result :=
  session_scope db
    (user <- auth db req ;;
     project <- Project_fromRequest db req ;;
     _ <- raise_if (not_in user (members project)) NotAuthorized ;;
     let success :=
       Elt_append (Elt_init "success" [] "") (Project_toXML db project req) in
     Return (respondXML HTTP_200 success, db)).
End LoadProject.

Module MakePublic.
Definition on_get (db : DB) (req : Request) : Result :=
  session_scope db
    (user <- auth db req ;;
     project <- Project_fromRequest db req ;;
     _ <- raise_if (not_in user (members project)) NotAuthorized ;;
     let project := set_public project (Some true) in
     Return (respondXML HTTP_200 (xmlSuccess []),
             update_Project db project)).
End MakePublic.

Module RemoveStudent.
Definition on_get (db : DB) (req : Request) : Result :=
  session_scope db
    (user <- auth db req ;;
     course <- Course_fromRequest db req ;;
     _ <- raise_if (not_in user (teachers course)) NotAuthorized ;;
     student <- User_fromRequest db req ;;
     match list_remove (userName student) (students course) with
     | None => Raise (UserLogicError "User is not taking this course.")
     | Some students' =>
         Return (respondXML HTTP_200 (xmlSuccess []),
                 update_Course db (set_students course students'))
     end).
End RemoveStudent.

Module RemoveTeacher.
Definition on_get (db : DB) (req : Request) : Result :=
  session_scope db
    (user <- auth db req ;;
     course <- Course_fromRequest db req ;;
     teacher <- User_fromRequest db req ;;
     _ <- raise_if (not_in user (teachers course)) NotAuthorized ;;
     _ <- raise_if (Nat.eqb (List.length (teachers course)) 1)
                   NotPermitted ;;
     match list_remove (userName teacher) (teachers course) with
     | None => Raise (UserLogicError "User is not teaching this course.")
     | Some teachers' =>
         Return (respondXML HTTP_200 (xmlSuccess []),
                 update_Course db (set_teachers course teachers'))
     end).
End RemoveTeacher.

Module SaveProject.
(** The revision file is written inside the [with] block, before the
    commit; a commit that fails on the primary key of [revisions]
    (a row with this [revId] and another [prevId]) rolls the tables back
    and leaves the file. *)
Definition on_post (db : DB) (req : Request) : Result :=
  match (user <- auth db req ;;
         project <- Project_fromRequest db req ;;
         _ <- raise_if (not_in user (members project)) NotAuthorized ;;
         Return project) with
  | Raise e => (Raise e, db)
  | Return project =>
      let contents := stream req in
      let prevId' := formatHash 0 in
      let sharedName' := get_param (params req) "sharedName" in
      let project :=
        match sharedName' with
        | Some n => set_sharedName project (Some n)
        | None => project
        end in
      let prevId' :=
        match Project_head db project with
        | Some head => revId head
        | None => prevId'
        end in
      let revId' := SHA1.hexdigest (prevId' ++ contents)%string in
      let '(revision, created, db1) := get_or_create db revId' prevId' in
      let project := set_headId project (Some (revId revision)) in
      let db2 := update_Project db1 project in
      let resp :=
        respondXML HTTP_200 (xmlSuccess [("revId", Some revId')]) in
      let db3 :=
        if created then Revision_save db2 revision contents else db2 in
      if created
         && existsb (fun r => String.eqb (revId r) revId') (revisions db)
      then (Raise IntegrityError, set_storage db (storage db3))
      else (Return resp, db3)
  end.
End SaveProject.

Module ShareProject.
Definition on_get (db : DB) (req : Request) : Result :=
  session_scope db
    (user <- auth db req ;;
     project <- Project_fromRequest db req ;;
     _ <- raise_if (not_in user (members project)) NotAuthorized ;;
     newMember <- User_fromRequest db req ;;
     let project :=
       set_members project
         (relationship_append (userName newMember) (members project)) in
     Return (respondXML HTTP_200 (xmlSuccess []),
             update_Project db project)).
End ShareProject.

Module ShareProjectWithStudents.
Definition on_get (db : DB) (req : Request) : Result :=
  session_scope db
    (user <- auth db req ;;
     project <- Project_fromRequest db req ;;
     _ <- raise_if (not_in user (members project)) NotAuthorized ;;
     course <- Course_fromRequest db req ;;
     _ <- raise_if (not_in user (teachers course)) NotAuthorized ;;
     let project :=
       set_course_shared_with_students project
         (relationship_append (courseId course)
                              (course_shared_with_students project)) in
     Return (respondXML HTTP_200 (xmlSuccess []),
             update_Project db project)).
End ShareProjectWithStudents.

Module ShareProjectWithTeachers.
Definition on_get (db : DB) (req : Request) : Result :=
  session_scope db
    (user <- auth db req ;;
     project <- Project_fromRequest db req ;;
     _ <- raise_if (not_in user (members project)) NotAuthorized ;;
     course <- Course_fromRequest db req ;;
     _ <- raise_if (not_in user (students course)
                    && not_in user (teachers course)) NotAuthorized ;;
     let project :=
       set_course_shared_with_teachers project
         (relationship_append (courseId course)
                              (course_shared_with_teachers project)) in
     Return (respondXML HTTP_200 (xmlSuccess []),
             update_Project db project)).
End ShareProjectWithTeachers.

Module SubmitProject.
(** [assignment.course] is a list of courses (a many-to-many
    relationship), so reading [assignment.course.students] raises
    [AttributeError] once the membership check has passed. *)
Definition on_get (db : DB) (req : Request) : Result :=
  session_scope db
    (user <- auth db req ;;
     assignment <- Assignment_fromRequest db req ;;
     project <- Project_fromRequest db req ;;
     _ <- raise_if (not_in user (members project)) NotAuthorized ;;
     Raise AttributeError).
End SubmitProject.

Module UnCreateProject.
Definition on_get (db : DB) (req : Request) : Result :=
  session_scope db
    (user <- auth db req ;;
     project <- Project_fromRequest db req ;;
     _ <- raise_if (not_in user (owners project)) NotAuthorized ;;
     Return (respondXML HTTP_200 (xmlSuccess []),
             delete_Project db project)).
End UnCreateProject.

Module UnEnroll.
Definition on_get (db : DB) (req : Request) : Result :=
  session_scope db
    (user <- auth db req ;;
     course <- Course_fromRequest db req ;;
     match list_remove (userName user) (students course) with
     | None => Raise (UserLogicError "User is not taking this course.")
     | Some students' =>
         Return (respondXML HTTP_200 (xmlSuccess []),
                 update_Course db (set_students course students'))
     end).
End UnEnroll.

Module UnMakePublic.
Definition on_get (db : DB) (req : Request) : Result :=
  session_scope db
    (user <- auth db req ;;
     project <- Project_fromRequest db req ;;
     _ <- raise_if (not_in user (members project)) NotAuthorized ;;
     let project := set_public project (Some false) in
     Return (respondXML HTTP_200 (xmlSuccess []),
             update_Project db project)).
End UnMakePublic.

Module UnShareProject.
(** [project.members.remove(toRemove)] is not guarded: its
    [ValueError] leaves the handler. *)
Definition on_get (db : DB) (req : Request) : Result :=
  session_scope db
    (user <- auth db req ;;
     project <- Project_fromRequest db req ;;
     _ <- raise_if (not_in user (members project)) NotAuthorized ;;
     toRemove <- User_fromRequest db req ;;
     _ <- raise_if (inb (userName toRemove) (owners project))
                   NotAuthorized ;;
     match list_remove (userName toRemove) (members project) with
     | None => Raise ValueError
     | Some members' =>
         Return (respondXML HTTP_200 (xmlSuccess []),
                 update_Project db (set_members project members'))
     end).
End UnShareProject.

Module UnShareProjectWithStudents.
(** The guard reads [project.teachers], which [Project] does not have:
    for a user outside [project.members] the second operand of [and] is
    evaluated and raises [AttributeError]. *)
Definition on_get (db : DB) (req : Request) : Result :=
  session_scope db
    (user <- auth db req ;;
     project <- Project_fromRequest db req ;;
     _ <- raise_if (not_in user (members project)) AttributeError ;;
     course <- Course_fromRequest db req ;;
     _ <- raise_if (negb (inb (courseId course)
                              (course_shared_with_students project)))
                   (UserLogicError
                      "Project not shared with students in this couse.") ;;
     match list_remove (courseId course)
                       (course_shared_with_students project) with
     | None => Raise ValueError
     | Some shared' =>
         Return (respondXML HTTP_200 (xmlSuccess []),
                 update_Project db
                   (set_course_shared_with_students project shared'))
     end).
End UnShareProjectWithStudents.

Module UnShareProjectWithTeachers.
Definition on_get (db : DB) (req : Request) : Result :=
  session_scope db
    (user <- auth db req ;;
     project <- Project_fromRequest db req ;;
     _ <- raise_if (not_in user (members project)) NotAuthorized ;;
     course <- Course_fromRequest db req ;;
     _ <- raise_if (negb (inb (courseId course)
                              (course_shared_with_teachers project)))
                   (UserLogicError
                      "Project not shared with teachers in this couse.") ;;
     match list_remove (courseId course)
                       (course_shared_with_teachers project) with
     | None => Raise ValueError
     | Some shared' =>
         Return (respondXML HTTP_200 (xmlSuccess []),
                 update_Project db
                   (set_course_shared_with_teachers project shared'))
     end).
End UnShareProjectWithTeachers.

(** ** The route table

    The routes of [app] whose handlers work on projects and courses.  The
    account and assignment routes ([createUser], [changePassword],
    [resetPassword], [createAssignment], [uncreateAssignment], the
    assignment and course listings, [getRevision]) touch neither a project
    nor a course row. *)
Inductive Route : Type :=
| addStudent | addTeacher | createCourse | createProject | enroll
| getProjectByName | listMembers | listProjects | listStudents
| listTeachers | loadProject | makePublic | removeStudent | removeTeacher
| saveProject | shareProject | shareProjectWithStudents
| shareProjectWithTeachers | submitProject | uncreateProject | unenroll
| unmakePublic | unshareProject | unshareProjectWithStudents
| unshareProjectWithTeachers.

Definition handle (r : Route) (db : DB) (req : Request) (rnd : N) : Result :=
  match r with
  | addStudent => AddStudent.on_get db req
  | addTeacher => AddTeacher.on_get db req
  | createCourse => CreateCourse.on_get db req rnd
  | createProject => CreateProject.on_get db req rnd
  | enroll => Enroll.on_get db req
  | getProjectByName => GetProjectByName.on_get db req
  | listMembers => ListMembers.on_get db req
  | listProjects => ListProjects.on_get db req
  | listStudents => ListStudents.on_get db req
  | listTeachers => ListTeachers.on_get db req
  | loadProject => LoadProject.on_get db req
  | makePublic => MakePublic.on_get db req
  | removeStudent => RemoveStudent.on_get db req
  | removeTeacher => RemoveTeacher.on_get db req
  | saveProject => SaveProject.on_post db req
  | shareProject => ShareProject.on_get db req
  | shareProjectWithStudents => ShareProjectWithStudents.on_get db req
  | shareProjectWithTeachers => ShareProjectWithTeachers.on_get db req
  | submitProject => SubmitProject.on_get db req
  | uncreateProject => UnCreateProject.on_get db req
  | unenroll => UnEnroll.on_get db req
  | unmakePublic => UnMakePublic.on_get db req
  | unshareProject => UnShareProject.on_get db req
  | unshareProjectWithStudents => UnShareProjectWithStudents.on_get db req
  | unshareProjectWithTeachers => UnShareProjectWithTeachers.on_get db req
  end.

(** ** Vocabulary of the specification *)

(** The root sentinel: the predecessor id of the first revision of a
    chain. *)
Definition ROOT : string := "0000000000000000000000000000000000000000".

(** [computeId] of the specification: what [SaveProject.on_post] computes
    with [sha1.update(prevId); sha1.update(contents); sha1.hexdigest()]. *)
Definition computeId (prevId' payload : string) : string :=
  SHA1.hexdigest (prevId' ++ payload)%string.

(** The response of a successful save. *)
Definition saved (revId' : string) : Exc Response :=
  Return (respondXML HTTP_200 (xmlSuccess [("revId", Some revId')])).

(** [canWrite] in the words of the specification: the user is an owner or
    a member of the project.  The handlers have no function of this name;
    they test [user not in project.members]. *)
Definition canWrite (user : User) (project : Project) : bool :=
  inb (userName user) (owners project)
  || inb (userName user) (members project).

(** The read grant in the words of the specification. *)
Definition read_granted (db : DB) (user : User) (project : Project) : Prop :=
  (In (userName user) (owners project)
   \/ In (userName user) (members project))
  \/ (exists course,
         In course (resolve_courses db (course_shared_with_teachers project))
         /\ In (userName user) (teachers course))
  \/ (exists course,
         In course (resolve_courses db (course_shared_with_students project))
         /\ (In (userName user) (students course)
             \/ In (userName user) (teachers course))).

(** The two steps by which [SaveProject.on_post] stores a revision,
    [revision, created = get_or_create(...)] and
    [if created: revision.save(contents)], repeated [n] times on the same
    arguments; the results are in call order.  The repetition is meant
    for an id that no row holds under another predecessor: with such a
    row the pending insert fails on the primary key when the next query
    flushes it, which this function does not model. *)
Fixpoint get_or_create_times (n : nat) (db : DB)
  (revId' prevId' contents : string) : list (Revision * bool) * DB :=
  match n with
  | O => ([], db)
  | S n' =>
      let '(revision, created, db1) := get_or_create db revId' prevId' in
      let db2 :=
        if created then Revision_save db1 revision contents else db1 in
      let '(rest, db3) :=
        get_or_create_times n' db2 revId' prevId' contents in
      ((revision, created) :: rest, db3)
  end.

(** Every owner of the project is one of its members. *)
Definition owners_are_members (p : Project) : Prop :=
  forall u, In u (owners p) -> In u (members p).

Definition set_users (db : DB) (us : list User) : DB :=
  {| users := us; projects := projects db; courses := courses db;
     revisions := revisions db; assignments := assignments db;
     storage := storage db |}.

(** One request served.  The account routes ([createUser],
    [changePassword], [resetPassword]) write to the [users] table only and
    are covered by an arbitrary change of that table; the other routes left
    out of [Route] write nothing. *)
Inductive step : DB -> DB -> Prop :=
| step_route (r : Route) (db : DB) (req : Request) (rnd : N) :
    step db (snd (handle r db req rnd))
| step_account (db : DB) (us : list User) :
    step db (set_users db us).

(** The databases the server reaches from one without projects. *)
Inductive reachable : DB -> Prop :=
| reachable_init (db : DB) : projects db = [] -> reachable db
| reachable_step (db db' : DB) :
    reachable db -> step db db' -> reachable db'.

(** Forgetting the [public] column. *)
Definition erase_public_Project (p : Project) : Project :=
  set_public p None.

Definition erase_public (db : DB) : DB :=
  set_projects db (map erase_public_Project (projects db)).

(** Two databases that differ at most in the [public] column. *)
Definition same_but_public (d1 d2 : DB) : Prop :=
  erase_public d1 = erase_public d2.

(** Same answer, and the same database up to the [public] column. *)
Definition Result_sim (r1 r2 : Result) : Prop :=
  fst r1 = fst r2 /\ erase_public (snd r1) = erase_public (snd r2).

(** The same for the body of a [session_scope]. *)
Definition body_sim (b1 b2 : Exc (Response * DB)) : Prop :=
  match b1, b2 with
  | Raise e1, Raise e2 => e1 = e2
  | Return (resp1, d1), Return (resp2, d2) =>
      resp1 = resp2 /\ erase_public d1 = erase_public d2
  | _, _ => False
  end.

(** The removal routes of the sharing graph. *)
Definition removal_routes : list Route :=
  [removeStudent; removeTeacher; unenroll; unshareProject;
   unshareProjectWithStudents; unshareProjectWithTeachers].

(** The caller passes the authorization check of a removal route. *)
Definition removal_authorized (r : Route) (db : DB) (req : Request) : Prop :=
  exists user, auth db req = Return user /\
  match r with
  | removeStudent | removeTeacher =>
      exists course, Course_fromRequest db req = Return course
                     /\ inb (userName user) (teachers course) = true
  | unenroll =>
      exists course, Course_fromRequest db req = Return course
  | unshareProject | unshareProjectWithStudents
  | unshareProjectWithTeachers =>
      exists project, Project_fromRequest db req = Return project
                      /\ inb (userName user) (members project) = true
  | _ => False
  end.

(** The entity named by the request exists and is not in the set the
    route removes from. *)
Definition removal_target_absent (r : Route) (db : DB) (req : Request)
  : Prop :=
  match r with
  | removeStudent =>
      exists course student,
        Course_fromRequest db req = Return course
        /\ User_fromRequest db req = Return student
        /\ inb (userName student) (students course) = false
  | removeTeacher =>
      exists course teacher,
        Course_fromRequest db req = Return course
        /\ User_fromRequest db req = Return teacher
        /\ inb (userName teacher) (teachers course) = false
  | unenroll =>
      exists course user,
        Course_fromRequest db req = Return course
        /\ auth db req = Return user
        /\ inb (userName user) (students course) = false
  | unshareProject =>
      exists project toRemove,
        Project_fromRequest db req = Return project
        /\ User_fromRequest db req = Return toRemove
        /\ inb (userName toRemove) (members project) = false
  | unshareProjectWithStudents =>
      exists project course,
        Project_fromRequest db req = Return project
        /\ Course_fromRequest db req = Return course
        /\ inb (courseId course) (course_shared_with_students project)
           = false
  | unshareProjectWithTeachers =>
      exists project course,
        Project_fromRequest db req = Return project
        /\ Course_fromRequest db req = Return course
        /\ inb (courseId course) (course_shared_with_teachers project)
           = false
  | _ => False
  end.

(** The request is answered by [UserLogicError] and nothing changes. *)
Definition reports_UserLogicError (res : Result) (db : DB) : Prop :=
  (exists msg, fst res = Raise (UserLogicError msg)) /\ snd res = db.

(** ** Sample data *)

Definition mkUser (n pw : string) : User :=
  {| userName := n; password := hash_password n pw; email := None |}.

Definition alice : User := mkUser "alice" "wonderland".
Definition bob : User := mkUser "bob" "builder".
Definition carol : User := mkUser "carol" "singer".

Definition mkRequest (who pw : string) (ps : list (string * string))
  (content : string) : Request :=
  {| authorization := Some (who, pw); params := ps; stream := content;
     application_uri := "http://localhost:5000/" |}.

(** Three users, no project, no course, no revision. *)
Definition db_users : DB :=
  {| users := [alice; bob; carol]; projects := []; courses := [];
     revisions := []; assignments := []; storage := [] |}.

Definition create_by_alice : Request := mkRequest "alice" "wonderland" [] "".

(** The database after alice has created a project (id [...a1]). *)
Definition db_created : DB :=
  snd (CreateProject.on_get db_users create_by_alice 161).

Definition projId_a1 : string := "00000000000000000000000000000000000000a1".

(** alice saves ["v1"] to her project, naming it. *)
Definition save_v1 : Request :=
  mkRequest "alice" "wonderland"
            [("projId", projId_a1); ("sharedName", "demo")] "v1".

(** The same request without [sharedName]. *)
Definition save_v1_again : Request :=
  mkRequest "alice" "wonderland" [("projId", projId_a1)] "v1".

Definition project_a1 : Project :=
  {| projId := projId_a1; headId := None; sharedName := None;
     members := ["alice"]; owners := ["alice"];
     course_shared_with_teachers := [];
     course_shared_with_students := []; public := None |}.

(** bob teaches a course carol takes; alice's project is shared with the
    teachers of that course. *)
Definition course_c1 : Course :=
  {| courseId := "00000000000000000000000000000000000000c1";
     teachers := ["bob"]; students := ["carol"]; name := Some "CS10" |}.

Definition project_shared : Project :=
  {| projId := projId_a1; headId := None; sharedName := None;
     members := ["alice"]; owners := ["alice"];
     course_shared_with_teachers := [courseId course_c1];
     course_shared_with_students := []; public := None |}.

Definition db_shared : DB :=
  {| users := [alice; bob; carol]; projects := [project_shared];
     courses := [course_c1]; revisions := []; assignments := [];
     storage := [] |}.

(** bob tries to save to alice's project. *)
Definition save_by_bob : Request :=
  mkRequest "bob" "builder" [("projId", projId_a1)] "v1".

(** A course with one teacher and a course with two. *)
Definition course_one : Course :=
  {| courseId := "00000000000000000000000000000000000000c1";
     teachers := ["bob"]; students := ["carol"]; name := None |}.

Definition course_two : Course :=
  {| courseId := "00000000000000000000000000000000000000c2";
     teachers := ["bob"; "alice"]; students := []; name := None |}.

Definition db_courses : DB :=
  {| users := [alice; bob; carol]; projects := [project_a1];
     courses := [course_one; course_two]; revisions := [];
     assignments := []; storage := [] |}.

(** bob asks to remove teacher [who] from course [c]. *)
Definition remove_teacher_by_bob (c : Course) (who : string) : Request :=
  mkRequest "bob" "builder" [("courseId", courseId c); ("userName", who)] "".

(** alice asks to remove [who] from the members of her project. *)
Definition unshare_by_alice (who : string) : Request :=
  mkRequest "alice" "wonderland" [("projId", projId_a1); ("userName", who)]
            "".

(** bob asks to remove student [who] from course [c]. *)
Definition remove_student_by_bob (c : Course) (who : string) : Request :=
  mkRequest "bob" "builder" [("courseId", courseId c); ("userName", who)] "".

(** alice makes her project public. *)
Definition make_public_by_alice : Request :=
  mkRequest "alice" "wonderland" [("projId", projId_a1)] "".

Definition db_public : DB :=
  snd (MakePublic.on_get db_created make_public_by_alice).


(** ** Reading a revision back *)

(** The content of file [name]: the most recent write in the log; [None]
    stands for the [IOError] of [open] when the file was never written. *)
Fixpoint read_file (fs : list (string * string)) (name : string)
  : option string :=
  match fs with
  | [] => None
  | (n, c) :: fs' => if String.eqb n name then Some c else read_file fs' name
  end.

(** [Revision.load] *)
Definition Revision_load (db : DB) (self : Revision) : option string :=
  read_file (storage db) (Revision_filename self).

Definition Revision_fromRequest (db : DB) (req : Request) : Exc Revision :=
  revId' <- forceParam req "revId" ;;
  match query_Revision db revId' with
  | None => Raise NoSuchRevision
  | Some rev => Return rev
  end.

(** ** Credentials in the request headers

    [split_auth_token], [getUserPass] and [forceUserPass].  The two library
    functions they use are [str.split] and [base64.b64decode]; the second
    is a parameter of the functions below ([None] for the [TypeError] of a
    token that does not decode). *)

(** [s.split(sep)] for a one-character separator: the fields between the
    separators, at least one. *)
Fixpoint str_split (sep : ascii) (s : string) : list string :=
  match s with
  | EmptyString => [EmptyString]
  | String c s' =>
      if Ascii.eqb c sep then EmptyString :: str_split sep s'
      else match str_split sep s' with
           | [] => [String c EmptyString]
           | f :: fs => String c f :: fs
           end
  end.

(** [sep.join(fields)] *)
Fixpoint str_join (sep : ascii) (fields : list string) : string :=
  match fields with
  | [] => EmptyString
  | [f] => f
  | f :: fs => (f ++ String sep (str_join sep fs))%string
  end.

(** [sep in s] *)
Fixpoint str_contains (sep : ascii) (s : string) : bool :=
  match s with
  | EmptyString => false
  | String c s' => Ascii.eqb c sep || str_contains sep s'
  end.

(** What leaves a function of the credentials: a value, [TypeError] from
    [b64decode], or one of the exceptions of [Exception]. *)
Inductive Fault : Type :=
| Server (e : Exception)
| TypeError
| NameError
| SMTPError.

Section Credentials.

Variable b64decode : string -> option string.

Definition split_auth_token (token : string) : Fault + list string :=
  let token :=
    if str_contains " " token then last (str_split " " token) token
    else token in
  match b64decode token with
  | None => inl TypeError
  | Some decoded => inr (str_split ":" decoded)
  end.

(** [getUserPass]: the split token of [Authorization], else that of
    [Snap-Server-Authorization], else [(None, None)] (here [inr None]).
    An empty header value is falsy and counts as absent. *)
Definition getUserPass (get_header : string -> option string)
  : Fault + option (list string) :=
  let truthy_header (h : option string) :=
    match h with
    | Some EmptyString | None => None
    | Some t => Some t
    end in
  let of_token (t : string) :=
    match split_auth_token t with
    | inl f => inl f
    | inr fields => inr (Some fields)
    end in
  match truthy_header (get_header "Authorization") with
  | Some token => of_token token
  | None =>
      match truthy_header (get_header "Snap-Server-Authorization") with
      | Some token => of_token token
      | None => inr None
      end
  end.

(** [forceUserPass]: [username, password = getUserPass(req)] unpacks a
    sequence of exactly two items and raises [ValueError] on any other
    length. *)
Definition forceUserPass (get_header : string -> option string)
  : Fault + (string * string) :=
  match getUserPass get_header with
  | inl f => inl f
  | inr None => inl (Server NeedAuthentication)
  | inr (Some [username; password']) => inr (username, password')
  | inr (Some _) => inl (Server ValueError)
  end.

End Credentials.

(** ** Accounts *)

(** The character class of [usernameRe], [[A-z0-9_.-]]: the range from
    [A] to [z] (which holds the six characters between [Z] and [a]), the
    digits, and the three characters [_], [.] and [-]. *)
Definition usernameRe_class (c : ascii) : bool :=
  let n := N_of_ascii c in
  ((65 <=? n) && (n <=? 122) || (48 <=? n) && (n <=? 57)
   || (n =? 95) || (n =? 46) || (n =? 45))%N.

(** The longest prefix of [s] made of characters of the class: what
    [usernameRe.match(s)] matches when it matches. *)
Fixpoint match_prefix (cls : ascii -> bool) (s : string) : string :=
  match s with
  | EmptyString => EmptyString
  | String c s' =>
      if cls c then String c (match_prefix cls s') else EmptyString
  end.

(** [usernameRe.match(username)]: the pattern is [[...]+], anchored at the
    start only; there is a match when the prefix is not empty. *)
Definition usernameRe_match (username : string) : option string :=
  match match_prefix usernameRe_class username with
  | EmptyString => None
  | m => Some m
  end.

Definition validUsername (username : string) : bool :=
  match usernameRe_match username with
  | Some _ => true
  | None => false
  end.

Definition userExists (db : DB) (username : string) : bool :=
  negb (Nat.eqb
          (List.length
             (filter (fun u => String.eqb (userName u) username) (users db)))
          0).

(** [string.letters + string.digits] (in the C locale). *)
Definition password_alphabet : string :=
  "abcdefghijklmnopqrstuvwxyzABCDEFGHIJKLMNOPQRSTUVWXYZ0123456789".

(** [random.choice(seq)]: the item at a random index below [len(seq)];
    [rnd] is the entropy of the draw. *)
Definition random_choice (seq : string) (rnd : N) : ascii :=
  match String.get (N.to_nat (rnd mod N.of_nat (String.length seq))) seq with
  | Some c => c
  | None => zero
  end.

(** [generate_password]: six draws; [rnd i] is the entropy of draw [i]. *)
Definition generate_password (rnd : nat -> N) : string :=
  string_of_list_ascii
    (map (fun i => random_choice password_alphabet (rnd i)) (seq 0 6)).

(** A message handed to [smtplib]: recipient and text. *)
Record Mail : Type := {
  mail_to : string;
  mail_text : string
}.

Definition initial_email (user : User) (password' : string) : Mail :=
  {| mail_to := match email user with Some e => e | None => "None" end;
     mail_text := ("Welcome to Snap! " ++ userName user
                   ++ " your password has been set to " ++ password')%string
  |}.

(** What a request to an account route ends in: the error document of
    [sendError] (status 500), a success document together with the mail
    sent, or an exception. *)
Inductive AccountReply : Type :=
| sendError (msg : string)
| success (body : Elt) (mail : option Mail)
| raised (f : Fault).

Module CreateUser.
(** [smtp_ok] tells whether [smtplib] delivers the initial mail; when it
    does not, the exception leaves the [with] block and the session is
    rolled back.  A password that is still [None] when it is hashed makes
    [sha1.update] raise [TypeError]. *)
Definition on_get (db : DB) (req : Request) (rnd : nat -> N)
  (smtp_ok : bool) : AccountReply * DB :=
  let credentials :=
    match get_param (params req) "userName" with
    | Some username =>
        inr (username, get_param (params req) "password")
    | None =>
        match authorization req with
        | None => inl NeedAuthentication
        | Some (username, password') => inr (username, Some password')
        end
    end in
  match credentials with
  | inl e => (raised (Server e), db)
  | inr (username, password') =>
      let email' := get_param (params req) "email" in
      if negb (validUsername username) then
        (sendError (username ++ " is not a valid username."), db)
      else if userExists db username then
        (sendError (username ++ " is already in use."), db)
      else
        let '(password', send_email) :=
          match password', email' with
          | None, Some _ => (Some (generate_password rnd), true)
          | _, _ => (password', false)
          end in
        match password' with
        | None => (raised TypeError, db)
        | Some pw =>
            let user := {| userName := username;
                           password := hash_password username pw;
                           email := email' |} in
            let res :=
              Elt_append (Elt_init "success" [] "")
                (Elt_init "user" [("userName", Some username);
                                  ("password", Some pw);
                                  ("email", email')] "") in
            if send_email then
              if smtp_ok then
                (success res (Some (initial_email user pw)),
                 set_users db (users db ++ [user]))
              else (raised SMTPError, db)
            else (success res None, set_users db (users db ++ [user]))
        end
  end.
End CreateUser.

Module ChangePassword.
(** [auth(session, req)] is called with two of its three arguments:
    [TypeError], whatever the request. *)
Definition on_get (db : DB) (req : Request) : AccountReply * DB :=
  (raised TypeError, db).
End ChangePassword.

Module ResetPassword.
(** The new password is hashed with [hash_password(username, password)],
    and no [username] is in scope: [NameError]. *)
Definition on_get (db : DB) (req : Request) (rnd : nat -> N)
  : AccountReply * DB :=
  match User_fromRequest db req with
  | Raise e => (raised (Server e), db)
  | Return user =>
      match email user with
      | None =>
          (raised (Server (UserLogicError
                             "Cannot reset password without email.")), db)
      | Some _ =>
          let password' := generate_password rnd in
          (raised NameError, db)
      end
  end.
End ResetPassword.

(** ** Invariants of the tables *)

(** Primary keys: no two rows of a table share their key. *)
Definition keys_unique (db : DB) : Prop :=
  NoDup (map projId (projects db))
  /\ NoDup (map courseId (courses db))
  /\ NoDup (map revId (revisions db)).

(** Every head of a project is a stored revision, and every predecessor
    of a revision is the root or a stored revision. *)
Definition chain_closed (db : DB) : Prop :=
  (forall p h, In p (projects db) -> headId p = Some h ->
               exists r, In r (revisions db) /\ revId r = h)
  /\ (forall r, In r (revisions db) ->
                prevId r = ROOT
                \/ exists r', In r' (revisions db) /\ revId r' = prevId r).

(** The store is content-addressed: the name of every file written is the
    hash of a predecessor id and of the content of the file, and every
    revision row has a file whose content hashes, after the row's
    predecessor, to the row's id. *)
Definition content_addressed (db : DB) : Prop :=
  (forall f c, In (f, c) (storage db) ->
               exists p, f = Revision_filename
                               {| revId := computeId p c; prevId := p |})
  /\ (forall r, In r (revisions db) ->
                exists c, In (Revision_filename r, c) (storage db)
                          /\ revId r = computeId (prevId r) c).

(** The character is a lower-case hexadecimal digit. *)
Definition is_hex_digit (c : ascii) : bool :=
  let n := N_of_ascii c in
  ((48 <=? n) && (n <=? 57) || (97 <=? n) && (n <=? 102))%N.

Fixpoint forallb_string (f : ascii -> bool) (s : string) : bool :=
  match s with
  | EmptyString => true
  | String c s' => f c && forallb_string f s'
  end.

(** The character is a letter or a digit. *)
Definition is_alnum (c : ascii) : bool :=
  let n := N_of_ascii c in
  ((48 <=? n) && (n <=? 57) || (65 <=? n) && (n <=? 90)
   || (97 <=? n) && (n <=? 122))%N.

(** A request to [createUser] that names the account in its parameters. *)
Definition create_user_request (ps : list (string * string)) : Request :=
  {| authorization := None; params := ps; stream := "";
     application_uri := "http://localhost:5000/" |}.

Definition create_dave : Request :=
  create_user_request [("userName", "dave the brave"); ("password", "pw")].


(** Entropy for the random draws of the samples. *)
Definition sample_rnd (i : nat) : N := N.of_nat (7 * i + 3).

(** Headers with an [Authorization] value only. *)
Definition only_Authorization (value : string) (h : string)
  : option string :=
  if String.eqb h "Authorization" then Some value else None.

(** The effective token of [split_auth_token]: what follows the last
    space, or the whole value when there is none. *)
Definition effective_token (token : string) : string :=
  if str_contains " " token then last (str_split " " token) token
  else token.

(** The answer of a route that responds [xmlSuccess()]. *)
Definition succeeded : Exc Response :=
  Return (respondXML HTTP_200 (xmlSuccess [])).

(** alice asks for a course by id. *)
Definition enroll_alice (c : Course) : Request :=
  mkRequest "alice" "wonderland" [("courseId", courseId c)] "".

(** A second project, owned by bob, beside alice's. *)
Definition projId_b2 : string := "00000000000000000000000000000000000000b2".

Definition project_b2 : Project :=
  {| projId := projId_b2; headId := None; sharedName := None;
     members := ["bob"]; owners := ["bob"];
     course_shared_with_teachers := [];
     course_shared_with_students := []; public := None |}.

Definition db_two_projects : DB :=
  {| users := [alice; bob; carol]; projects := [project_a1; project_b2];
     courses := []; revisions := []; assignments := []; storage := [] |}.

Definition save_v1_by_bob : Request :=
  mkRequest "bob" "builder" [("projId", projId_b2)] "v1".

(** No association table holds a row twice: in every project and every
    course each list of related keys is duplicate-free. *)
Definition project_lists_are_sets (p : Project) : Prop :=
  NoDup (members p) /\ NoDup (owners p)
  /\ NoDup (course_shared_with_teachers p)
  /\ NoDup (course_shared_with_students p).

Definition course_lists_are_sets (c : Course) : Prop :=
  NoDup (teachers c) /\ NoDup (students c).

Definition no_double_rows (db : DB) : Prop :=
  Forall project_lists_are_sets (projects db)
  /\ Forall course_lists_are_sets (courses db).

(** [l'] holds the names of [l] except [x]. *)
Definition without (x : string) (l l' : list string) : Prop :=
  forall n, inb n l' = inb n l && negb (String.eqb n x).
(** * Properties *)

(** ** The digest on the test vectors of FIPS 180 *)

Example sha1_abc :
  SHA1.hexdigest "abc" = "a9993e364706816aba3e25717850c26c9cd0d89d".
Proof. vm_compute. reflexivity. Qed.

Example sha1_empty :
  SHA1.hexdigest "" = "da39a3ee5e6b4b0d3255bfef95601890afd80709".
Proof. vm_compute. reflexivity. Qed.

Example sha1_two_blocks :
  SHA1.hexdigest "abcdbcdecdefdefgefghfghighijhijkijkljklmklmnlmnomnopnopq"
  = "84983e441c3bd26ebaae4aa1f95129e5e54670f1".
Proof. vm_compute. reflexivity. Qed.

Example formatHash_0 : formatHash 0 = ROOT.
Proof. vm_compute. reflexivity. Qed.

Example formatHash_255 :
  formatHash 255 = "00000000000000000000000000000000000000ff".
Proof. vm_compute. reflexivity. Qed.

#[local] Arguments SHA1.hexdigest : simpl never.
#[local] Arguments computeId : simpl never.
#[local] Arguments hash_password : simpl never.
#[local] Arguments formatHash : simpl never.

(** ** Python lists *)

Lemma inb_In (x : string) (l : list string) : inb x l = true <-> In x l.
Proof.
  unfold inb. rewrite existsb_exists. split.
  - intros [y [Hy E]]. apply String.eqb_eq in E. now subst.
  - intros H. exists x. split; [assumption | apply String.eqb_refl].
Qed.

Lemma inb_false (x : string) (l : list string) :
  inb x l = false <-> ~ In x l.
Proof.
  rewrite <- inb_In. destruct (inb x l); split; congruence.
Qed.

Lemma inb_app (x : string) (l1 l2 : list string) :
  inb x (l1 ++ l2) = inb x l1 || inb x l2.
Proof. unfold inb. apply existsb_app. Qed.

(** ** [relationship_append] *)

Lemma relationship_append_new (x : string) (l : list string) :
  inb x l = false -> relationship_append x l = l ++ [x].
Proof. intros H. unfold relationship_append. now rewrite H. Qed.

Lemma relationship_append_old (x : string) (l : list string) :
  inb x l = true -> relationship_append x l = l.
Proof. intros H. unfold relationship_append. now rewrite H. Qed.

Lemma In_relationship_append (u x : string) (l : list string) :
  In u l -> In u (relationship_append x l).
Proof.
  intros H. unfold relationship_append.
  destruct (inb x l); [exact H|]. apply in_or_app. now left.
Qed.

Lemma inb_relationship_append (n x : string) (l : list string) :
  inb n (relationship_append x l) = inb n l || String.eqb n x.
Proof.
  unfold relationship_append. destruct (inb x l) eqn:E.
  - destruct (String.eqb n x) eqn:En.
    + apply String.eqb_eq in En. subst n. now rewrite E.
    + now rewrite orb_false_r.
  - rewrite inb_app. unfold inb at 2. simpl. now rewrite orb_false_r.
Qed.

Lemma list_remove_None (x : string) (l : list string) :
  list_remove x l = None <-> inb x l = false.
Proof.
  induction l as [|y l IH]; simpl; [tauto|].
  rewrite (String.eqb_sym x y).
  destruct (String.eqb y x); simpl.
  - split; discriminate.
  - destruct (list_remove x l); rewrite <- IH; split; congruence.
Qed.

Lemma list_remove_length (x : string) (l l' : list string) :
  list_remove x l = Some l' -> List.length l = S (List.length l').
Proof.
  revert l'. induction l as [|y l IH]; simpl; intros l' H; [discriminate|].
  destruct (String.eqb y x).
  - now inversion H.
  - destruct (list_remove x l) as [r|]; [|discriminate].
    inversion H; subst. simpl. now rewrite (IH r).
Qed.

Lemma list_remove_In_other (x u : string) (l l' : list string) :
  list_remove x l = Some l' -> u <> x -> In u l -> In u l'.
Proof.
  revert l'. induction l as [|y l IH]; simpl; intros l' H Hne Hin;
    [contradiction|].
  destruct (String.eqb y x) eqn:E.
  - inversion H; subst. destruct Hin as [->|Hin]; [|assumption].
    apply String.eqb_eq in E. contradiction.
  - destruct (list_remove x l) as [r|]; [|discriminate].
    inversion H; subst. destruct Hin as [->|Hin].
    + now left.
    + right. now apply IH.
Qed.

Lemma for_return_True_existsb (test : Course -> bool) (cs : list Course) :
  for_return_True test cs = if existsb test cs then Some true else None.
Proof.
  induction cs as [|c cs IH]; simpl; [reflexivity|].
  destruct (test c); simpl; [reflexivity | exact IH].
Qed.

(** ** Reading *)

Lemma Project_canRead_cases (db : DB) (self : Project) (user : User) :
  Project_canRead db self user = Some true
  \/ Project_canRead db self user = None.
Proof.
  unfold Project_canRead. rewrite !for_return_True_existsb.
  repeat match goal with
         | |- context [if ?b then _ else _] => destruct b
         end; auto.
Qed.

Lemma Project_canRead_truthy (db : DB) (project : Project) (user : User) :
  truthy (Project_canRead db project user) = true
  <-> read_granted db user project.
Proof.
  unfold Project_canRead, read_granted.
  rewrite !for_return_True_existsb.
  destruct (inb (userName user) (members project)) eqn:Em.
  { apply inb_In in Em. simpl. tauto. }
  destruct (inb (userName user) (owners project)) eqn:Eo.
  { apply inb_In in Eo. simpl. tauto. }
  apply inb_false in Em. apply inb_false in Eo.
  destruct (existsb _ (resolve_courses db
                         (course_shared_with_teachers project))) eqn:Et.
  { simpl. apply existsb_exists in Et. destruct Et as [c [Hc Ht]].
    apply inb_In in Ht. split; [intros _|reflexivity].
    right. left. now exists c. }
  destruct (existsb _ (resolve_courses db
                         (course_shared_with_students project))) eqn:Es.
  { simpl. apply existsb_exists in Es. destruct Es as [c [Hc Hs]].
    apply orb_true_iff in Hs. rewrite !inb_In in Hs.
    split; [intros _|reflexivity]. right. right. now exists c. }
  simpl. split; [discriminate|].
  intros [[H|H] | [[c [Hc H]] | [c [Hc H]]]]; try contradiction.
  - assert (X : existsb (fun course => inb (userName user) (teachers course))
                  (resolve_courses db (course_shared_with_teachers project))
                = true).
    { apply existsb_exists. exists c. split; [assumption|].
      now apply inb_In. }
    congruence.
  - assert (X : existsb (fun course => inb (userName user) (students course)
                                       || inb (userName user)
                                              (teachers course))
                  (resolve_courses db (course_shared_with_students project))
                = true).
    { apply existsb_exists. exists c. split; [assumption|].
      apply orb_true_iff. now rewrite !inb_In. }
    congruence.
Qed.

(** C1.  [canRead(user, project)] is true exactly when the user is an
    owner or a member of the project, or teaches a course the project is
    shared with the teachers of, or studies or teaches a course the project
    is shared with the students of; without such a grant the method falls
    off its end and returns [None], which is falsy. *)
Theorem canRead_iff_granted (db : DB) (project : Project) (user : User) :
  (truthy (Project_canRead db project user) = true
   <-> read_granted db user project)
  /\ (~ read_granted db user project ->
      Project_canRead db project user = None
      /\ truthy (Project_canRead db project user) = false).
Proof.
  split; [apply Project_canRead_truthy|].
  intros Hn.
  destruct (Project_canRead_cases db project user) as [H|H].
  - exfalso. apply Hn. apply Project_canRead_truthy. now rewrite H.
  - now rewrite H.
Qed.

(** ** Queries and updates *)

Lemma query_Project_Some (db : DB) (k : string) (p : Project) :
  query_Project db k = Some p -> In p (projects db) /\ projId p = k.
Proof.
  unfold query_Project. intros H. apply find_some in H.
  destruct H as [Hin E]. apply String.eqb_eq in E. now split.
Qed.

Lemma query_Course_Some (db : DB) (k : string) (c : Course) :
  query_Course db k = Some c -> In c (courses db) /\ courseId c = k.
Proof.
  unfold query_Course. intros H. apply find_some in H.
  destruct H as [Hin E]. apply String.eqb_eq in E. now split.
Qed.

Lemma forceParam_Return (req : Request) (k v : string) :
  forceParam req k = Return v -> get_param (params req) k = Some v.
Proof.
  unfold forceParam. destruct (get_param (params req) k); congruence.
Qed.

Lemma Project_fromRequest_Return (db : DB) (req : Request) (p : Project) :
  Project_fromRequest db req = Return p ->
  get_param (params req) "projId" = Some (projId p)
  /\ query_Project db (projId p) = Some p.
Proof.
  unfold Project_fromRequest, forceParam.
  destruct (get_param (params req) "projId") as [k|]; simpl; [|discriminate].
  destruct (query_Project db k) as [q|] eqn:E; [|discriminate].
  intros H. inversion H; subst.
  destruct (query_Project_Some _ _ _ E) as [_ <-]. now split.
Qed.

Lemma Course_fromRequest_Return (db : DB) (req : Request) (c : Course) :
  Course_fromRequest db req = Return c ->
  get_param (params req) "courseId" = Some (courseId c)
  /\ query_Course db (courseId c) = Some c.
Proof.
  unfold Course_fromRequest, forceParam.
  destruct (get_param (params req) "courseId") as [k|]; simpl;
    [|discriminate].
  destruct (query_Course db k) as [q|] eqn:E; [|discriminate].
  intros H. inversion H; subst.
  destruct (query_Course_Some _ _ _ E) as [_ <-]. now split.
Qed.

Lemma find_replace_row {A : Type} (same : A -> bool) (new x : A)
  (l : list A) :
  find same l = Some x -> same new = true ->
  find same (replace_row same new l) = Some new.
Proof.
  intros H Hn. induction l as [|q l IH]; simpl in *; [discriminate|].
  destruct (same q) eqn:E; simpl.
  - now rewrite Hn.
  - rewrite E. now apply IH.
Qed.

Lemma Forall_replace_row {A : Type} (P : A -> Prop) (same : A -> bool)
  (new : A) (l : list A) :
  Forall P l -> P new -> Forall P (replace_row same new l).
Proof.
  intros H Hn. induction H as [|q l Hq Hl IH]; simpl; [constructor|].
  destruct (same q); constructor; assumption.
Qed.

Lemma Forall_delete_row {A : Type} (P : A -> Prop) (same : A -> bool)
  (l : list A) :
  Forall P l -> Forall P (delete_row same l).
Proof.
  intros H. induction H as [|q l Hq Hl IH]; simpl; [constructor|].
  destruct (same q); [assumption|now constructor].
Qed.

Lemma query_update_Project (db : DB) (p p' : Project) :
  query_Project db (projId p) = Some p ->
  projId p' = projId p ->
  query_Project (update_Project db p') (projId p) = Some p'.
Proof.
  unfold query_Project, update_Project. simpl. intros H E.
  rewrite <- E in *.
  apply find_replace_row with (x := p); [exact H|apply String.eqb_refl].
Qed.

Lemma query_update_Course (db : DB) (c c' : Course) :
  query_Course db (courseId c) = Some c ->
  courseId c' = courseId c ->
  query_Course (update_Course db c') (courseId c) = Some c'.
Proof.
  unfold query_Course, update_Course. simpl. intros H E.
  rewrite <- E in *.
  apply find_replace_row with (x := c); [exact H|apply String.eqb_refl].
Qed.

(** ** [get_or_create] *)

Lemma filter_by_eq (revId' prevId' : string) (r : Revision) :
  filter_by revId' prevId' r = true ->
  r = {| revId := revId'; prevId := prevId' |}.
Proof.
  unfold filter_by. intros H. apply andb_true_iff in H.
  destruct H as [H1 H2]. apply String.eqb_eq in H1, H2.
  destruct r; simpl in *. now subst.
Qed.

Lemma get_or_create_found (db : DB) (revId' prevId' : string) :
  existsb (filter_by revId' prevId') (revisions db) = true ->
  get_or_create db revId' prevId'
  = ({| revId := revId'; prevId := prevId' |}, false, db).
Proof.
  intros H. unfold get_or_create.
  destruct (find (filter_by revId' prevId') (revisions db)) as [r|] eqn:E.
  - apply find_some in E. destruct E as [_ E].
    now rewrite (filter_by_eq _ _ _ E).
  - apply existsb_exists in H. destruct H as [r [Hin Hr]].
    pose proof (find_none _ _ E _ Hin) as X. congruence.
Qed.

Lemma get_or_create_new (db : DB) (revId' prevId' : string) :
  existsb (filter_by revId' prevId') (revisions db) = false ->
  get_or_create db revId' prevId'
  = ({| revId := revId'; prevId := prevId' |}, true,
     set_revisions db
       (revisions db ++ [{| revId := revId'; prevId := prevId' |}])).
Proof.
  intros H. unfold get_or_create.
  destruct (find (filter_by revId' prevId') (revisions db)) as [r|] eqn:E.
  - apply find_some in E. destruct E as [Hin E].
    assert (X : existsb (filter_by revId' prevId') (revisions db) = true)
      by (apply existsb_exists; now exists r).
    congruence.
  - reflexivity.
Qed.

(** ** Saving *)

Lemma Project_head_set_sharedName (db : DB) (p : Project) (n : option string) :
  Project_head db (set_sharedName p n) = Project_head db p.
Proof. reflexivity. Qed.

(** What [SaveProject.on_post] does once the three guards have passed. *)
Lemma SaveProject_on_post_authorized
  (db : DB) (req : Request) (user : User) (project : Project) :
  auth db req = Return user ->
  Project_fromRequest db req = Return project ->
  inb (userName user) (members project) = true ->
  let prevId' := match Project_head db project with
                 | Some head => revId head
                 | None => formatHash 0
                 end in
  let revId' := SHA1.hexdigest (prevId' ++ stream req)%string in
  let revision := {| revId := revId'; prevId := prevId' |} in
  let project' :=
    set_headId
      (match get_param (params req) "sharedName" with
       | Some n => set_sharedName project (Some n)
       | None => project
       end) (Some revId') in
  let resp := respondXML HTTP_200 (xmlSuccess [("revId", Some revId')]) in
  SaveProject.on_post db req =
  if existsb (filter_by revId' prevId') (revisions db) then
    (Return resp, update_Project db project')
  else if existsb (fun r => String.eqb (revId r) revId') (revisions db) then
    (Raise IntegrityError,
     set_storage db ((Revision_filename revision, stream req) :: storage db))
  else
    (Return resp,
     Revision_save
       (update_Project (set_revisions db (revisions db ++ [revision]))
                       project')
       revision (stream req)).
Proof.
  intros Ha Hp Hm. unfold SaveProject.on_post.
  rewrite Ha. simpl. rewrite Hp. simpl. unfold not_in. rewrite Hm. simpl.
  assert (Eh : Project_head db
                 match get_param (params req) "sharedName" with
                 | Some n => set_sharedName project (Some n)
                 | None => project
                 end = Project_head db project)
    by (destruct (get_param (params req) "sharedName"); reflexivity).
  rewrite Eh.
  destruct (existsb (filter_by _ _) (revisions db)) eqn:E.
  - rewrite (get_or_create_found _ _ _ E). reflexivity.
  - rewrite (get_or_create_new _ _ _ E). simpl.
    destruct (existsb _ (revisions db)); reflexivity.
Qed.

(** C2.  An authorized save takes as predecessor id the id of the
    project's head revision, or the all-zero root when there is no head;
    the new revision id is the SHA-1 of the predecessor id followed by the
    payload; the save succeeds unless the revisions table holds this id
    under another predecessor, and then the project's head is the new id,
    [sharedName] is the given one (or unchanged when none is given), the
    revision row exists, and the id is in the response both when the
    revision file is written and when it is not. *)
Theorem save_chains_and_returns_id
  (db : DB) (req : Request) (user : User) (project : Project) :
  auth db req = Return user ->
  Project_fromRequest db req = Return project ->
  inb (userName user) (members project) = true ->
  let prevId' := match Project_head db project with
                 | Some head => revId head
                 | None => ROOT
                 end in
  let revId' := SHA1.hexdigest (prevId' ++ stream req)%string in
  let revision := {| revId := revId'; prevId := prevId' |} in
  let stored := existsb (filter_by revId' prevId') (revisions db) in
  (stored = false ->
   existsb (fun r => String.eqb (revId r) revId') (revisions db) = false) ->
  exists db' project',
    SaveProject.on_post db req
    = (Return (respondXML HTTP_200 (xmlSuccess [("revId", Some revId')])),
       db')
    /\ query_Project db' (projId project) = Some project'
    /\ headId project' = Some revId'
    /\ sharedName project'
       = match get_param (params req) "sharedName" with
         | Some n => Some n
         | None => sharedName project
         end
    /\ In revision (revisions db')
    /\ storage db'
       = if stored then storage db
         else (Revision_filename revision, stream req) :: storage db.
Proof.
  intros Ha Hp Hm prevId' revId' revision stored Hfree.
  pose proof (SaveProject_on_post_authorized db req user project Ha Hp Hm)
    as H.
  change (formatHash 0) with ROOT in H. cbv zeta in H.
  fold prevId' in H. fold revId' in H. fold revision in H.
  fold stored in H.
  destruct (Project_fromRequest_Return _ _ _ Hp) as [_ Hq].
  set (project' :=
         set_headId
           match get_param (params req) "sharedName" with
           | Some n => set_sharedName project (Some n)
           | None => project
           end (Some revId')) in *.
  assert (Eid : projId project' = projId project)
    by (unfold project'; destruct (get_param (params req) "sharedName");
        reflexivity).
  assert (Esn : sharedName project'
                = match get_param (params req) "sharedName" with
                  | Some n => Some n
                  | None => sharedName project
                  end)
    by (unfold project'; destruct (get_param (params req) "sharedName");
        reflexivity).
  destruct stored eqn:Es.
  - exists (update_Project db project'), project'.
    split; [exact H|].
    split; [now apply query_update_Project|].
    split; [reflexivity|]. split; [exact Esn|].
    split; [|reflexivity].
    unfold stored in Es. apply existsb_exists in Es.
    destruct Es as [r [Hin Hr]].
    apply filter_by_eq in Hr. subst r. exact Hin.
  - rewrite (Hfree eq_refl) in H.
    eexists; exists project'. split; [exact H|].
    split.
    { exact (query_update_Project
               (set_revisions db (revisions db ++ [revision]))
               project project' Hq Eid). }
    split; [reflexivity|]. split; [exact Esn|].
    split; [|reflexivity].
    simpl. apply in_or_app. right. now left.
Qed.

Lemma save_chains_and_returns_id_witness :
  exists db' project',
    SaveProject.on_post db_created save_v1
    = (Return (respondXML HTTP_200
                 (xmlSuccess
                    [("revId",
                      Some "ad6b73966389106e479f11050198775498a4d002")])),
       db')
    /\ query_Project db' projId_a1 = Some project'
    /\ headId project' = Some "ad6b73966389106e479f11050198775498a4d002"
    /\ sharedName project' = Some "demo"
    /\ In {| revId := "ad6b73966389106e479f11050198775498a4d002";
             prevId := ROOT |} (revisions db')
    /\ storage db'
       = [("storage/ad6b73966389106e479f11050198775498a4d002.revision",
           "v1")].
Proof.
  exact (save_chains_and_returns_id db_created save_v1 alice project_a1
           ltac:(vm_compute; reflexivity) ltac:(vm_compute; reflexivity)
           ltac:(vm_compute; reflexivity) ltac:(vm_compute; reflexivity)).
Defined.

(** ** Inversion of handler bodies *)

Lemma bind_Return_inv {A B : Type} (c : Exc A) (k : A -> Exc B) (b : B) :
  bind c k = Return b -> exists a, c = Return a /\ k a = Return b.
Proof. destruct c as [e|a]; simpl; [discriminate|]. intros H. now exists a. Qed.

Lemma raise_if_Return_inv (cond : bool) (e : Exception) (u : unit) :
  raise_if cond e = Return u -> cond = false.
Proof. destruct cond; simpl; [discriminate|reflexivity]. Qed.

Lemma session_scope_cases (db : DB) (body : Exc (Response * DB)) :
  (exists e, body = Raise e /\ session_scope db body = (Raise e, db))
  \/ (exists resp db', body = Return (resp, db')
                       /\ session_scope db body = (Return resp, db')).
Proof.
  destruct body as [e|[resp db']]; simpl; [left|right]; eauto.
Qed.

Ltac inv_exc H :=
  repeat
    match type of H with
    | bind _ _ = Return _ =>
        let a := fresh "a" in
        let E := fresh "E" in
        apply bind_Return_inv in H; destruct H as [a [E H]];
        try apply raise_if_Return_inv in E
    | raise_if _ _ = Return _ => apply raise_if_Return_inv in H
    | Return _ = Return _ => inversion H; subst; clear H
    | Raise _ = Return _ => discriminate H
    | match ?x with _ => _ end = Return _ =>
        destruct x eqn:?; try discriminate H
    end.

(** ** Owners stay members *)

Lemma Forall_update_Project (P : Project -> Prop) (db : DB) (p : Project) :
  Forall P (projects db) -> P p -> Forall P (projects (update_Project db p)).
Proof. intros H Hp. now apply Forall_replace_row. Qed.

Lemma Forall_delete_Project (P : Project -> Prop) (db : DB) (p : Project) :
  Forall P (projects db) -> Forall P (projects (delete_Project db p)).
Proof. intros H. now apply Forall_delete_row. Qed.

Lemma Project_fromRequest_In (db : DB) (req : Request) (p : Project) :
  Project_fromRequest db req = Return p -> In p (projects db).
Proof.
  intros H. apply Project_fromRequest_Return in H. destruct H as [_ H].
  now apply query_Project_Some in H.
Qed.

Lemma Forall_fromRequest (P : Project -> Prop) (db : DB) (req : Request)
  (p : Project) :
  Forall P (projects db) -> Project_fromRequest db req = Return p -> P p.
Proof.
  intros H Hp. rewrite Forall_forall in H. apply H.
  now apply Project_fromRequest_In with (req := req).
Qed.

Create HintDb handlers.

#[local] Hint Unfold
  AddStudent.on_get AddTeacher.on_get CreateCourse.on_get
  CreateProject.on_get Enroll.on_get GetProjectByName.on_get
  ListMembers.on_get ListProjects.on_get ListStudents.on_get
  ListTeachers.on_get LoadProject.on_get MakePublic.on_get
  RemoveStudent.on_get RemoveTeacher.on_get ShareProject.on_get
  ShareProjectWithStudents.on_get ShareProjectWithTeachers.on_get
  SubmitProject.on_get UnCreateProject.on_get UnEnroll.on_get
  UnMakePublic.on_get UnShareProject.on_get
  UnShareProjectWithStudents.on_get UnShareProjectWithTeachers.on_get
  : handlers.

(** Splits a handler into the run that raises (and rolls back) and the
    run that returns, with the body inverted. *)
Ltac handler_cases db Hb :=
  autounfold with handlers;
  match goal with
  | |- context [session_scope db ?body] =>
      let e := fresh "e" in
      let resp := fresh "resp" in
      let db' := fresh "db'" in
      let E := fresh "E" in
      destruct (session_scope_cases db body)
        as [[e [_ E]] | [resp [db' [Hb E]]]];
      rewrite E; clear E; simpl
  end.

Lemma SaveProject_on_post_cases (db : DB) (req : Request) :
  (exists e, SaveProject.on_post db req = (Raise e, db))
  \/ (exists user project,
         auth db req = Return user
         /\ Project_fromRequest db req = Return project
         /\ inb (userName user) (members project) = true).
Proof.
  unfold SaveProject.on_post.
  destruct (auth db req) as [e|user]; simpl; [left; eauto|].
  destruct (Project_fromRequest db req) as [e|project]; simpl;
    [left; eauto|].
  unfold not_in.
  destruct (inb (userName user) (members project)) eqn:E; simpl;
    [right|left]; eauto.
Qed.

Lemma handle_owners_are_members (r : Route) (db : DB) (req : Request)
  (rnd : N) :
  Forall owners_are_members (projects db) ->
  Forall owners_are_members (projects (snd (handle r db req rnd))).
Proof.
  intros Inv.
  destruct r; simpl;
    try (handler_cases db Hb; [exact Inv|]; inv_exc Hb);
    try exact Inv;
    try (match goal with
         | H : Project_fromRequest db req = Return ?p |- _ =>
             pose proof (Forall_fromRequest _ _ _ _ Inv H) as Hp
         end);
    try (apply Forall_update_Project; [exact Inv|]).
  all: try (intros u Hu; simpl in *; now apply Hp).
  - (* createProject *)
    simpl. apply Forall_app. split; [exact Inv|].
    constructor; [|constructor]. intros u Hu. exact Hu.
  - (* saveProject *)
    destruct (SaveProject_on_post_cases db req)
      as [[e ->] | [user [project [Ha [Hp Hm]]]]]; [exact Inv|].
    rewrite (SaveProject_on_post_authorized db req user project Ha Hp Hm).
    pose proof (Forall_fromRequest _ _ _ _ Inv Hp) as Hpi.
    cbv zeta.
    assert (Hn : forall h, owners_are_members
                   (set_headId
                      match get_param (params req) "sharedName" with
                      | Some n => set_sharedName project (Some n)
                      | None => project
                      end h)).
    { intros h u Hu.
      destruct (get_param (params req) "sharedName"); simpl in *;
        now apply Hpi. }
    destruct (existsb (filter_by _ _) (revisions db));
      [|destruct (existsb _ (revisions db))]; unfold snd.
    + apply Forall_update_Project; [exact Inv | apply Hn].
    + exact Inv.
    + unfold Revision_save.
      apply (Forall_update_Project owners_are_members
               (set_revisions db (revisions db ++ _)) _ Inv (Hn _)).
  - (* shareProject *)
    intros u Hu. simpl in *. apply In_relationship_append. now apply Hp.
  - (* uncreateProject *)
    now apply Forall_delete_Project.
  - (* unshareProject *)
    intros u Hu. simpl in *.
    match goal with
    | H : list_remove ?x _ = Some _ |- _ =>
        apply (list_remove_In_other x u _ _ H); [|now apply Hp]
    end.
    intros ->.
    match goal with
    | H : inb _ (owners _) = false |- _ => apply inb_false in H; now apply H
    end.
Qed.

Lemma step_owners_are_members (db db' : DB) :
  step db db' ->
  Forall owners_are_members (projects db) ->
  Forall owners_are_members (projects db').
Proof.
  intros [r d req rnd | d us] Inv.
  - now apply handle_owners_are_members.
  - exact Inv.
Qed.

(** In every database the server reaches, the owners of a project are
    among its members: [CreateProject] puts the creator in both lists, no
    handler changes [owners], and [UnShareProject] refuses to remove an
    owner from [members]. *)
Lemma reachable_owners_are_members (db : DB) :
  reachable db -> Forall owners_are_members (projects db).
Proof.
  induction 1 as [db E | db db' _ IH Hs].
  - rewrite E. constructor.
  - now apply (step_owners_are_members db db').
Qed.

(** ** Who may save *)

Lemma SaveProject_on_post_rejected
  (db : DB) (req : Request) (user : User) (project : Project) :
  auth db req = Return user ->
  Project_fromRequest db req = Return project ->
  inb (userName user) (members project) = false ->
  SaveProject.on_post db req = (Raise NotAuthorized, db).
Proof.
  intros Ha Hp Hm. unfold SaveProject.on_post.
  rewrite Ha. simpl. rewrite Hp. simpl. unfold not_in. now rewrite Hm.
Qed.

Lemma SaveProject_on_post_member_not_rejected
  (db : DB) (req : Request) (user : User) (project : Project) :
  auth db req = Return user ->
  Project_fromRequest db req = Return project ->
  inb (userName user) (members project) = true ->
  fst (SaveProject.on_post db req) <> Raise NotAuthorized.
Proof.
  intros Ha Hp Hm.
  rewrite (SaveProject_on_post_authorized db req user project Ha Hp Hm).
  cbv zeta.
  destruct (existsb (filter_by _ _) (revisions db));
    [|destruct (existsb _ (revisions db))]; simpl; discriminate.
Qed.

(** C3.  In every database the server reaches, a save by an authenticated
    user on a resolved project is rejected with [NotAuthorized] exactly
    when [canWrite] is false, that is when the user is neither an owner nor
    a member; in particular an owner is never rejected with
    [NotAuthorized].  The handler tests [project.members] only; owners are
    members in every reachable database. *)
Theorem save_rejected_iff_not_canWrite
  (db : DB) (req : Request) (user : User) (project : Project) :
  reachable db ->
  auth db req = Return user ->
  Project_fromRequest db req = Return project ->
  (fst (SaveProject.on_post db req) = Raise NotAuthorized
   <-> canWrite user project = false)
  /\ (In (userName user) (owners project) ->
      fst (SaveProject.on_post db req) <> Raise NotAuthorized).
Proof.
  intros Hr Ha Hp.
  pose proof (Forall_fromRequest _ _ _ _
                (reachable_owners_are_members db Hr) Hp) as Hom.
  unfold canWrite.
  destruct (inb (userName user) (members project)) eqn:Hm.
  - pose proof (SaveProject_on_post_member_not_rejected
                  db req user project Ha Hp Hm) as Hn.
    rewrite orb_true_r. split; [split; [contradiction|discriminate]|].
    intros _. exact Hn.
  - rewrite (SaveProject_on_post_rejected db req user project Ha Hp Hm).
    simpl. rewrite orb_false_r.
    assert (Ho : inb (userName user) (owners project) = false).
    { apply inb_false. intros Hin. apply Hom in Hin.
      apply inb_In in Hin. congruence. }
    split; [now split|].
    intros Hin. apply inb_In in Hin. congruence.
Qed.

Lemma save_rejected_iff_not_canWrite_witness :
  (fst (SaveProject.on_post db_created save_v1) = Raise NotAuthorized
   <-> canWrite alice project_a1 = false)
  /\ (In (userName alice) (owners project_a1) ->
      fst (SaveProject.on_post db_created save_v1) <> Raise NotAuthorized).
Proof.
  refine (save_rejected_iff_not_canWrite db_created save_v1 alice project_a1
            _ _ _).
  - apply (reachable_step db_users db_created).
    + apply reachable_init. reflexivity.
    + exact (step_route createProject db_users create_by_alice 161).
  - vm_compute; reflexivity.
  - vm_compute; reflexivity.
Defined.

(** C7.  A user who teaches a course the project is shared with the
    teachers of, and who is neither an owner nor a member of the project,
    can read it, and a save by that user is rejected with
    [NotAuthorized]. *)
Theorem teacher_share_reads_but_cannot_save
  (db : DB) (req : Request) (user : User) (project : Project)
  (course : Course) :
  auth db req = Return user ->
  Project_fromRequest db req = Return project ->
  In course (resolve_courses db (course_shared_with_teachers project)) ->
  In (userName user) (teachers course) ->
  ~ In (userName user) (owners project) ->
  ~ In (userName user) (members project) ->
  truthy (Project_canRead db project user) = true
  /\ SaveProject.on_post db req = (Raise NotAuthorized, db).
Proof.
  intros Ha Hp Hc Ht Ho Hm. split.
  - apply Project_canRead_truthy.
    right. left. now exists course.
  - apply (SaveProject_on_post_rejected db req user project Ha Hp).
    now apply inb_false.
Qed.

Lemma teacher_share_reads_but_cannot_save_witness :
  truthy (Project_canRead db_shared project_shared bob) = true
  /\ SaveProject.on_post db_shared save_by_bob = (Raise NotAuthorized, db_shared).
Proof.
  refine (teacher_share_reads_but_cannot_save
            db_shared save_by_bob bob project_shared course_c1
            _ _ _ _ _ _).
  - vm_compute; reflexivity.
  - vm_compute; reflexivity.
  - simpl. now left.
  - simpl. now left.
  - simpl. intros [H|[]]. discriminate H.
  - simpl. intros [H|[]]. discriminate H.
Defined.

(** ** Creating a project *)

Lemma find_none_existsb {A : Type} (f : A -> bool) (l : list A) :
  find f l = None -> existsb f l = false.
Proof.
  induction l as [|x l IH]; simpl; [reflexivity|].
  destruct (f x); [discriminate|exact IH].
Qed.

Lemma find_app_new {A : Type} (f : A -> bool) (l : list A) (x : A) :
  find f l = None -> f x = true -> find f (l ++ [x]) = Some x.
Proof.
  induction l as [|y l IH]; simpl; intros Hn Hx.
  - now rewrite Hx.
  - destruct (f y); [discriminate|]. now apply IH.
Qed.

(** C10.  A project created by an authenticated user has that user as its
    only owner and among its members: right after creation the owner list
    is not empty, and the creator passes the read check and the membership
    check that guards writing.  The creation succeeds whenever the drawn
    project id is not taken. *)
Theorem created_project_belongs_to_creator
  (db : DB) (req : Request) (rnd : N) (user : User) :
  auth db req = Return user ->
  query_Project db (generateProjId rnd) = None ->
  exists db' proj,
    CreateProject.on_get db req rnd
    = (Return (respondXML HTTP_200
                 (Elt_init "success"
                    [("projId", Some (generateProjId rnd))] "")),
       db')
    /\ query_Project db' (generateProjId rnd) = Some proj
    /\ owners proj = [userName user]
    /\ In (userName user) (members proj)
    /\ owners proj <> []
    /\ truthy (Project_canRead db' proj user) = true
    /\ not_in user (members proj) = false
    /\ canWrite user proj = true.
Proof.
  intros Ha Hq.
  set (proj := {| projId := generateProjId rnd; headId := None;
                  sharedName := None; members := [userName user];
                  owners := [userName user];
                  course_shared_with_teachers := [];
                  course_shared_with_students := []; public := None |}).
  exists (set_projects db (projects db ++ [proj])), proj.
  assert (Hm : inb (userName user) (members proj) = true)
    by (apply inb_In; now left).
  split.
  { unfold CreateProject.on_get. rewrite Ha. simpl.
    unfold query_Project in Hq.
    now rewrite (find_none_existsb _ _ Hq). }
  split.
  { unfold query_Project. simpl. apply find_app_new; [exact Hq|].
    simpl. apply String.eqb_refl. }
  split; [reflexivity|]. split; [now left|]. split; [discriminate|].
  split.
  { apply Project_canRead_truthy. left. right. now left. }
  split.
  { unfold not_in. now rewrite Hm. }
  unfold canWrite. rewrite Hm. apply orb_true_r.
Qed.

Lemma created_project_belongs_to_creator_witness :
  exists db' proj,
    CreateProject.on_get db_users create_by_alice 161
    = (Return (respondXML HTTP_200
                 (Elt_init "success"
                    [("projId", Some (generateProjId 161))] "")),
       db')
    /\ query_Project db' (generateProjId 161) = Some proj
    /\ owners proj = [userName alice]
    /\ In (userName alice) (members proj)
    /\ owners proj <> []
    /\ truthy (Project_canRead db' proj alice) = true
    /\ not_in alice (members proj) = false
    /\ canWrite alice proj = true.
Proof.
  exact (created_project_belongs_to_creator db_users create_by_alice 161 alice
           ltac:(vm_compute; reflexivity) ltac:(reflexivity)).
Defined.

Example db_created_projects : projects db_created = [project_a1].
Proof. vm_compute. reflexivity. Qed.

(** ** Storing a revision once *)

Lemma get_or_create_times_found
  (n : nat) (db : DB) (revId' prevId' contents : string) :
  existsb (filter_by revId' prevId') (revisions db) = true ->
  get_or_create_times n db revId' prevId' contents
  = (repeat ({| revId := revId'; prevId := prevId' |}, false) n, db).
Proof.
  intros H. induction n as [|n IH]; simpl; [reflexivity|].
  rewrite (get_or_create_found _ _ _ H). now rewrite IH.
Qed.

Lemma filter_by_none (revId' prevId' : string) (rs : list Revision) :
  existsb (fun r => String.eqb (revId r) revId') rs = false ->
  existsb (filter_by revId' prevId') rs = false.
Proof.
  induction rs as [|r rs IH]; simpl; [reflexivity|].
  intros H. apply orb_false_iff in H. destruct H as [H1 H2].
  unfold filter_by at 1. rewrite H1. simpl. now apply IH.
Qed.

(** A successful save leaves the revisions table and the revision files
    as one round of [get_or_create_times] does. *)
Lemma SaveProject_on_post_stores
  (db : DB) (req : Request) (user : User) (project : Project)
  (resp : Response) (db' : DB) :
  auth db req = Return user ->
  Project_fromRequest db req = Return project ->
  inb (userName user) (members project) = true ->
  SaveProject.on_post db req = (Return resp, db') ->
  let prevId' := match Project_head db project with
                 | Some head => revId head
                 | None => formatHash 0
                 end in
  let revId' := SHA1.hexdigest (prevId' ++ stream req)%string in
  let db1 := snd (get_or_create_times 1 db revId' prevId' (stream req)) in
  revisions db' = revisions db1 /\ storage db' = storage db1.
Proof.
  intros Ha Hp Hm H prevId' revId' db1.
  rewrite (SaveProject_on_post_authorized db req user project Ha Hp Hm) in H.
  cbv zeta in H. fold prevId' revId' in H.
  unfold db1. cbn [get_or_create_times].
  destruct (existsb (filter_by revId' prevId') (revisions db)) eqn:E.
  - rewrite (get_or_create_found _ _ _ E). inversion H; subst.
    now split.
  - rewrite (get_or_create_new _ _ _ E).
    destruct (existsb (fun r => String.eqb (revId r) revId') (revisions db));
      inversion H; subst.
    now split.
Qed.

(** C4.  For every predecessor id and payload, with the revision id their
    hash: when no revision with that id exists, [n + 1] calls in sequence
    answer [created = True] on the first call only; every later call
    returns the same revision (same id, same predecessor) with
    [created = False]; one row is added and the revision file is written
    once.  When the revision exists already no call creates or writes. *)
Theorem get_or_create_creates_once
  (db : DB) (prevId' payload : string) (n : nat) :
  let revId' := SHA1.hexdigest (prevId' ++ payload)%string in
  let revision := {| revId := revId'; prevId := prevId' |} in
  (existsb (fun r => String.eqb (revId r) revId') (revisions db) = false ->
   get_or_create_times (S n) db revId' prevId' payload
   = ((revision, true) :: repeat (revision, false) n,
      Revision_save (set_revisions db (revisions db ++ [revision]))
                    revision payload))
  /\ (existsb (filter_by revId' prevId') (revisions db) = true ->
      get_or_create_times (S n) db revId' prevId' payload
      = (repeat (revision, false) (S n), db)).
Proof.
  intros revId' revision. split.
  - intros H. cbn [get_or_create_times].
    rewrite (get_or_create_new _ _ _ (filter_by_none _ prevId' _ H)).
    fold revision.
    rewrite get_or_create_times_found; [reflexivity|].
    simpl. rewrite existsb_app. simpl.
    unfold filter_by at 2. simpl. rewrite !String.eqb_refl. simpl.
    apply orb_true_r.
  - intros H. now apply get_or_create_times_found.
Qed.

Lemma get_or_create_creates_once_witness :
  get_or_create_times 3 db_users
    "ad6b73966389106e479f11050198775498a4d002" ROOT "v1"
  = ([({| revId := "ad6b73966389106e479f11050198775498a4d002";
          prevId := ROOT |}, true);
      ({| revId := "ad6b73966389106e479f11050198775498a4d002";
          prevId := ROOT |}, false);
      ({| revId := "ad6b73966389106e479f11050198775498a4d002";
          prevId := ROOT |}, false)],
     Revision_save
       (set_revisions db_users
          [{| revId := "ad6b73966389106e479f11050198775498a4d002";
              prevId := ROOT |}])
       {| revId := "ad6b73966389106e479f11050198775498a4d002";
          prevId := ROOT |} "v1").
Proof.
  exact (proj1 (get_or_create_creates_once db_users ROOT "v1" 2) eq_refl).
Defined.

(** ** The teacher floor *)

Lemma Forall_update_Course (P : Course -> Prop) (db : DB) (c : Course) :
  Forall P (courses db) -> P c -> Forall P (courses (update_Course db c)).
Proof. intros H Hc. now apply Forall_replace_row. Qed.

Lemma RemoveTeacher_on_get_authorized
  (db : DB) (req : Request) (user : User) (course : Course) (teacher : User) :
  auth db req = Return user ->
  Course_fromRequest db req = Return course ->
  User_fromRequest db req = Return teacher ->
  inb (userName user) (teachers course) = true ->
  RemoveTeacher.on_get db req =
  if Nat.eqb (List.length (teachers course)) 1 then (Raise NotPermitted, db)
  else match list_remove (userName teacher) (teachers course) with
       | None =>
           (Raise (UserLogicError "User is not teaching this course."), db)
       | Some teachers' =>
           (Return (respondXML HTTP_200 (xmlSuccess [])),
            update_Course db (set_teachers course teachers'))
       end.
Proof.
  intros Ha Hc Ht Hm. unfold RemoveTeacher.on_get.
  rewrite Ha. simpl. rewrite Hc. simpl. rewrite Ht. simpl.
  unfold not_in. rewrite Hm. simpl.
  destruct (Nat.eqb (List.length (teachers course)) 1); simpl;
    [reflexivity|].
  destruct (list_remove (userName teacher) (teachers course)); reflexivity.
Qed.

(** C5.  [removeTeacher] keeps at least one teacher in every course.  On
    a course with exactly one teacher the request of a teacher of the
    course fails with [NotPermitted] and nothing changes; on a course with
    two teachers, one of them the named teacher, it succeeds and leaves
    exactly one teacher. *)
Theorem removeTeacher_keeps_a_teacher (db : DB) (req : Request) :
  (Forall (fun c => teachers c <> []) (courses db) ->
   Forall (fun c => teachers c <> [])
          (courses (snd (RemoveTeacher.on_get db req))))
  /\ (forall user course teacher,
         auth db req = Return user ->
         Course_fromRequest db req = Return course ->
         User_fromRequest db req = Return teacher ->
         inb (userName user) (teachers course) = true ->
         (List.length (teachers course) = 1%nat ->
          RemoveTeacher.on_get db req = (Raise NotPermitted, db))
         /\ (List.length (teachers course) = 2%nat ->
             In (userName teacher) (teachers course) ->
             exists db' course',
               RemoveTeacher.on_get db req
               = (Return (respondXML HTTP_200 (xmlSuccess [])), db')
               /\ query_Course db' (courseId course) = Some course'
               /\ List.length (teachers course') = 1%nat
               /\ students course' = students course)).
Proof.
  split.
  - intros Inv. handler_cases db Hb; [exact Inv|]. inv_exc Hb.
    apply Forall_update_Course; [exact Inv|]. simpl.
    match goal with
    | H : list_remove _ _ = Some _ |- _ =>
        apply list_remove_length in H; rename H into Hl
    end.
    match goal with
    | H : Nat.eqb _ 1 = false |- _ => apply Nat.eqb_neq in H; rename H into Hn
    end.
    intros ->. simpl in Hl. congruence.
  - intros user course teacher Ha Hc Ht Hm.
    rewrite (RemoveTeacher_on_get_authorized db req user course teacher
               Ha Hc Ht Hm).
    split.
    + intros ->. reflexivity.
    + intros Hl Hin. rewrite Hl. simpl.
      destruct (list_remove (userName teacher) (teachers course))
        as [teachers'|] eqn:E.
      * exists (update_Course db (set_teachers course teachers')),
               (set_teachers course teachers').
        split; [reflexivity|]. split.
        { destruct (Course_fromRequest_Return _ _ _ Hc) as [_ Hq].
          now apply query_update_Course. }
        split; [|reflexivity].
        simpl. apply list_remove_length in E. lia.
      * apply list_remove_None in E. apply inb_In in Hin. congruence.
Qed.

Lemma removeTeacher_keeps_a_teacher_witness :
  Forall (fun c => teachers c <> [])
    (courses (snd (RemoveTeacher.on_get db_courses
                     (remove_teacher_by_bob course_two "alice"))))
  /\ RemoveTeacher.on_get db_courses (remove_teacher_by_bob course_one "bob")
     = (Raise NotPermitted, db_courses)
  /\ exists db' course',
       RemoveTeacher.on_get db_courses
         (remove_teacher_by_bob course_two "alice")
       = (Return (respondXML HTTP_200 (xmlSuccess [])), db')
       /\ query_Course db' (courseId course_two) = Some course'
       /\ List.length (teachers course') = 1%nat
       /\ students course' = students course_two.
Proof.
  split; [|split].
  - apply (proj1 (removeTeacher_keeps_a_teacher db_courses
                    (remove_teacher_by_bob course_two "alice"))).
    repeat constructor; discriminate.
  - refine (proj1 (proj2 (removeTeacher_keeps_a_teacher db_courses
                            (remove_teacher_by_bob course_one "bob"))
                         bob course_one bob _ _ _ _) _);
      vm_compute; reflexivity.
  - refine (proj2 (proj2 (removeTeacher_keeps_a_teacher db_courses
                            (remove_teacher_by_bob course_two "alice"))
                         bob course_two alice _ _ _ _) _ _);
      try (vm_compute; reflexivity).
    simpl. right. now left.
Defined.

(** ** Removing what is not there *)

(** The claim of C6 fails at [removeTeacher] on a course with one teacher:
    bob, the only teacher, asks to remove carol, who exists and does not
    teach the course; the length test comes first and the request fails
    with [NotPermitted], not with [UserLogicError]. *)
Lemma removeTeacher_absent_on_single_teacher_course :
  In removeTeacher removal_routes
  /\ removal_authorized removeTeacher db_courses
       (remove_teacher_by_bob course_one "carol")
  /\ removal_target_absent removeTeacher db_courses
       (remove_teacher_by_bob course_one "carol")
  /\ handle removeTeacher db_courses
       (remove_teacher_by_bob course_one "carol") 0
     = (Raise NotPermitted, db_courses)
  /\ ~ (exists msg,
           fst (handle removeTeacher db_courses
                  (remove_teacher_by_bob course_one "carol") 0)
           = Raise (UserLogicError msg)).
Proof.
  split; [simpl; tauto|].
  split.
  { exists bob. split; [vm_compute; reflexivity|].
    exists course_one. split; vm_compute; reflexivity. }
  split.
  { exists course_one, carol. repeat split; vm_compute; reflexivity. }
  assert (E : handle removeTeacher db_courses
                (remove_teacher_by_bob course_one "carol") 0
              = (Raise NotPermitted, db_courses))
    by (vm_compute; reflexivity).
  split; [exact E|].
  rewrite E. intros [msg H]. discriminate H.
Qed.

(** [unshareProject] does not catch the [ValueError] of [list.remove]:
    alice, owner and member of her project, asks to remove bob, who exists
    and is not a member; the request ends in the unhandled [ValueError]. *)
Lemma unshareProject_absent_member_ValueError :
  removal_authorized unshareProject db_courses (unshare_by_alice "bob")
  /\ removal_target_absent unshareProject db_courses (unshare_by_alice "bob")
  /\ handle unshareProject db_courses (unshare_by_alice "bob") 0
     = (Raise ValueError, db_courses)
  /\ is_ServerException ValueError = false.
Proof.
  split.
  { exists alice. split; [vm_compute; reflexivity|].
    exists project_a1. split; vm_compute; reflexivity. }
  split.
  { exists project_a1, bob. repeat split; vm_compute; reflexivity. }
  split; vm_compute; reflexivity.
Qed.

(** C6, amended.  For [removeStudent], [unenroll],
    [unshareProjectWithStudents] and [unshareProjectWithTeachers] invoked
    by an authorized user, and for [removeTeacher] invoked by a teacher of
    a course that does not have exactly one teacher, removing an entity
    that is not in the target set is answered by [UserLogicError] and
    changes nothing; [removeTeacher] on a course with exactly one teacher
    is answered by [NotPermitted]. *)
Theorem absent_removal_reports_UserLogicError
  (r : Route) (db : DB) (req : Request) (rnd : N) :
  In r [removeStudent; removeTeacher; unenroll;
        unshareProjectWithStudents; unshareProjectWithTeachers] ->
  removal_authorized r db req ->
  removal_target_absent r db req ->
  match r with
  | removeTeacher =>
      forall course, Course_fromRequest db req = Return course ->
        if Nat.eqb (List.length (teachers course)) 1
        then handle r db req rnd = (Raise NotPermitted, db)
        else reports_UserLogicError (handle r db req rnd) db
  | _ => reports_UserLogicError (handle r db req rnd) db
  end.
Proof.
  intros Hr [user [Ha Hauth]] Habs.
  simpl in Hr.
  destruct Hr as [<-|[<-|[<-|[<-|[<-|[]]]]]]; simpl in *.
  - (* removeStudent *)
    destruct Hauth as [course [Hc Hm]].
    destruct Habs as [course' [student [Hc' [Hs Hn]]]].
    assert (course' = course) by congruence. subst course'.
    unfold RemoveStudent.on_get, reports_UserLogicError.
    rewrite Ha. simpl. rewrite Hc. simpl. unfold not_in. rewrite Hm. simpl.
    rewrite Hs. simpl.
    apply list_remove_None in Hn. rewrite Hn. simpl. eauto.
  - (* removeTeacher *)
    destruct Hauth as [course [Hc Hm]].
    destruct Habs as [course' [teacher [Hc' [Ht Hn]]]].
    assert (course' = course) by congruence. subst course'.
    intros course0 Hc0.
    assert (course0 = course) by congruence. subst course0.
    rewrite (RemoveTeacher_on_get_authorized db req user course teacher
               Ha Hc Ht Hm).
    destruct (Nat.eqb (List.length (teachers course)) 1); [reflexivity|].
    apply list_remove_None in Hn. rewrite Hn.
    unfold reports_UserLogicError. simpl. eauto.
  - (* unenroll *)
    destruct Hauth as [course Hc].
    destruct Habs as [course' [user' [Hc' [Ha' Hn]]]].
    assert (course' = course) by congruence. subst course'.
    assert (user' = user) by congruence. subst user'.
    unfold UnEnroll.on_get, reports_UserLogicError.
    rewrite Ha. simpl. rewrite Hc. simpl.
    apply list_remove_None in Hn. rewrite Hn. simpl. eauto.
  - (* unshareProjectWithStudents *)
    destruct Hauth as [project [Hp Hm]].
    destruct Habs as [project' [course [Hp' [Hc Hn]]]].
    assert (project' = project) by congruence. subst project'.
    unfold UnShareProjectWithStudents.on_get, reports_UserLogicError.
    rewrite Ha. simpl. rewrite Hp. simpl. unfold not_in. rewrite Hm. simpl.
    rewrite Hc. simpl. rewrite Hn. simpl. eauto.
  - (* unshareProjectWithTeachers *)
    destruct Hauth as [project [Hp Hm]].
    destruct Habs as [project' [course [Hp' [Hc Hn]]]].
    assert (project' = project) by congruence. subst project'.
    unfold UnShareProjectWithTeachers.on_get, reports_UserLogicError.
    rewrite Ha. simpl. rewrite Hp. simpl. unfold not_in. rewrite Hm. simpl.
    rewrite Hc. simpl. rewrite Hn. simpl. eauto.
Qed.

Lemma absent_removal_reports_UserLogicError_witness :
  reports_UserLogicError
    (handle removeStudent db_courses
       (remove_student_by_bob course_one "alice") 0)
    db_courses.
Proof.
  refine (absent_removal_reports_UserLogicError
            removeStudent db_courses
            (remove_student_by_bob course_one "alice") 0 _ _ _).
  - simpl. now left.
  - exists bob. split; [vm_compute; reflexivity|].
    exists course_one. split; vm_compute; reflexivity.
  - exists course_one, alice. repeat split; vm_compute; reflexivity.
Defined.

(** ** Ids of a payload saved twice *)

Lemma auth_users (db db' : DB) (req : Request) :
  users db' = users db -> auth db' req = auth db req.
Proof. intros E. unfold auth. now rewrite E. Qed.

Lemma computeId_ROOT_v1 :
  computeId ROOT "v1" = "ad6b73966389106e479f11050198775498a4d002".
Proof. vm_compute. reflexivity. Qed.

Lemma computeId_second_v1 :
  computeId (computeId ROOT "v1") "v1"
  = "745412992b1678c5bdd9e396883918d2a7884630".
Proof. vm_compute. reflexivity. Qed.

Lemma string_app_inv_tail (x y z : string) :
  (x ++ z)%string = (y ++ z)%string -> x = y.
Proof.
  intros H.
  assert (E : list_ascii_of_string (x ++ z)%string
              = list_ascii_of_string (y ++ z)%string) by now rewrite H.
  rewrite <- (string_of_list_ascii_of_string (x ++ z)) in E.
  clear H.
  assert (A : forall a b, list_ascii_of_string (a ++ b)%string
                          = list_ascii_of_string a ++ list_ascii_of_string b).
  { induction a as [|c a IH]; simpl; intros b; [reflexivity|].
    now rewrite IH. }
  rewrite list_ascii_of_string_of_list_ascii in E.
  rewrite !A in E. apply app_inv_tail in E.
  rewrite <- (string_of_list_ascii_of_string x).
  rewrite <- (string_of_list_ascii_of_string y). now rewrite E.
Qed.

Lemma existsb_orb_false {A : Type} (f g : A -> bool) (l : list A) :
  existsb (fun x => f x || g x) l = false ->
  existsb f l = false /\ existsb g l = false.
Proof.
  induction l as [|x l IH]; simpl; [now split|].
  intros H. apply orb_false_iff in H. destruct H as [H1 H2].
  apply orb_false_iff in H1. destruct H1 as [Hf Hg].
  destruct (IH H2) as [If Ig]. now rewrite Hf, Hg, If, Ig.
Qed.

(** ** The [public] column *)

#[local] Arguments update_Project : simpl never.
#[local] Arguments update_Course : simpl never.
#[local] Arguments delete_Project : simpl never.
#[local] Arguments erase_public : simpl never.
#[local] Arguments Project_toXML : simpl never.
#[local] Arguments Revision_save : simpl never.
#[local] Arguments get_or_create : simpl never.

Lemma erase_public_Project_idem (p : Project) :
  erase_public_Project (erase_public_Project p) = erase_public_Project p.
Proof. reflexivity. Qed.

Lemma erase_public_idem (db : DB) :
  erase_public (erase_public db) = erase_public db.
Proof.
  unfold erase_public, set_projects. cbn [projects]. f_equal.
  rewrite List.map_map. reflexivity.
Qed.

Lemma auth_erase_public (db : DB) (req : Request) :
  auth (erase_public db) req = auth db req.
Proof. reflexivity. Qed.

Lemma query_Project_erase_public (db : DB) (k : string) :
  query_Project (erase_public db) k
  = option_map erase_public_Project (query_Project db k).
Proof.
  unfold query_Project, erase_public. simpl.
  induction (projects db) as [|p ps IH]; simpl; [reflexivity|].
  destruct (String.eqb (projId p) k); [reflexivity|exact IH].
Qed.

Lemma Project_fromRequest_erase_public (db : DB) (req : Request) :
  Project_fromRequest (erase_public db) req
  = match Project_fromRequest db req with
    | Raise e => Raise e
    | Return p => Return (erase_public_Project p)
    end.
Proof.
  unfold Project_fromRequest.
  destruct (forceParam req "projId") as [e|k]; simpl; [reflexivity|].
  rewrite query_Project_erase_public.
  destruct (query_Project db k); reflexivity.
Qed.

Lemma erase_public_update_Project (db : DB) (p : Project) :
  erase_public (update_Project db p)
  = update_Project (erase_public db) (erase_public_Project p).
Proof.
  assert (E : forall l,
             map erase_public_Project
               (replace_row (fun q => String.eqb (projId q) (projId p)) p l)
             = replace_row
                 (fun q => String.eqb (projId q)
                             (projId (erase_public_Project p)))
                 (erase_public_Project p) (map erase_public_Project l)).
  { induction l as [|q l IH]; simpl; [reflexivity|].
    destruct (String.eqb (projId q) (projId p)); simpl; [reflexivity|].
    now rewrite IH. }
  unfold erase_public, update_Project, set_projects.
  cbn [projects users courses revisions assignments storage].
  now rewrite E.
Qed.

Lemma erase_public_delete_Project (db : DB) (p : Project) :
  erase_public (delete_Project db p)
  = delete_Project (erase_public db) (erase_public_Project p).
Proof.
  assert (E : forall l,
             map erase_public_Project
               (delete_row (fun q => String.eqb (projId q) (projId p)) l)
             = delete_row
                 (fun q => String.eqb (projId q)
                             (projId (erase_public_Project p)))
                 (map erase_public_Project l)).
  { induction l as [|q l IH]; simpl; [reflexivity|].
    destruct (String.eqb (projId q) (projId p)); simpl; [reflexivity|].
    now rewrite IH. }
  unfold erase_public, delete_Project, set_projects.
  cbn [projects users courses revisions assignments storage].
  now rewrite E.
Qed.

(** Writing back a row that differs from the stored one in [public]
    alone changes nothing else. *)
Lemma erase_public_update_same (db : DB) (p p' : Project) :
  query_Project db (projId p) = Some p ->
  projId p' = projId p ->
  erase_public_Project p' = erase_public_Project p ->
  erase_public (update_Project db p') = erase_public db.
Proof.
  intros Hq Eid Ee.
  unfold erase_public, update_Project, set_projects, query_Project in *.
  cbn [projects users courses revisions assignments storage].
  f_equal. rewrite Eid.
  induction (projects db) as [|q l IH]; simpl in *; [reflexivity|].
  destruct (String.eqb (projId q) (projId p)); simpl.
  - inversion Hq; subst. now rewrite Ee.
  - now rewrite IH.
Qed.

Lemma erase_public_update_Course (db : DB) (c : Course) :
  erase_public (update_Course db c) = update_Course (erase_public db) c.
Proof. reflexivity. Qed.

Lemma Project_toXML_erase_public (db : DB) (p : Project) (req : Request) :
  Project_toXML (erase_public db) (erase_public_Project p) req
  = Project_toXML db p req.
Proof. reflexivity. Qed.

Lemma resolve_courses_erase_public (db : DB) (ids : list string) :
  resolve_courses (erase_public db) ids = resolve_courses db ids.
Proof.
  induction ids as [|k ids IH]; simpl; [reflexivity|].
  change (query_Course (erase_public db) k) with (query_Course db k).
  destruct (query_Course db k); now rewrite IH.
Qed.

Lemma Project_canRead_erase_public (db : DB) (p : Project) (user : User) :
  Project_canRead (erase_public db) (erase_public_Project p) user
  = Project_canRead db p user.
Proof.
  unfold Project_canRead. simpl.
  now rewrite !resolve_courses_erase_public.
Qed.

Lemma filter_toXML_erase_public (db : DB) (req : Request)
  (f : Project -> bool) :
  (forall p, f (erase_public_Project p) = f p) ->
  map (fun proj => Project_toXML (erase_public db) proj req)
      (filter f (projects (erase_public db)))
  = map (fun proj => Project_toXML db proj req) (filter f (projects db)).
Proof.
  intros Hf.
  change (projects (erase_public db))
    with (map erase_public_Project (projects db)).
  generalize (projects db) as l.
  induction l as [|p ps IH]; simpl; [reflexivity|].
  rewrite Hf. destruct (f p); simpl; [|exact IH].
  rewrite IH. now rewrite Project_toXML_erase_public.
Qed.

Lemma existsb_projId_erase_public (db : DB) (k : string) :
  existsb (fun p => String.eqb (projId p) k) (projects (erase_public db))
  = existsb (fun p => String.eqb (projId p) k) (projects db).
Proof.
  change (projects (erase_public db))
    with (map erase_public_Project (projects db)).
  generalize (projects db) as l.
  induction l as [|p ps IH]; simpl; [reflexivity|].
  now rewrite IH.
Qed.

Lemma session_scope_sim (db : DB) (b1 b2 : Exc (Response * DB)) :
  body_sim b1 b2 ->
  Result_sim (session_scope (erase_public db) b1) (session_scope db b2).
Proof.
  unfold Result_sim.
  destruct b1 as [e1|[r1 d1]], b2 as [e2|[r2 d2]]; simpl;
    try contradiction.
  - intros ->. split; [reflexivity|apply erase_public_idem].
  - intros [-> E]. now split.
Qed.

Lemma bind_sim_eq {A : Type} (c1 c2 : Exc A)
  (k1 k2 : A -> Exc (Response * DB)) :
  c1 = c2 -> (forall a, body_sim (k1 a) (k2 a)) ->
  body_sim (bind c1 k1) (bind c2 k2).
Proof.
  intros <- H. destruct c1 as [e|a]; simpl; [reflexivity|apply H].
Qed.

Lemma bind_sim_Project (db : DB) (req : Request)
  (k1 k2 : Project -> Exc (Response * DB)) :
  (forall p, body_sim (k1 (erase_public_Project p)) (k2 p)) ->
  body_sim (bind (Project_fromRequest (erase_public db) req) k1)
           (bind (Project_fromRequest db req) k2).
Proof.
  intros H. rewrite Project_fromRequest_erase_public.
  destruct (Project_fromRequest db req) as [e|p]; simpl;
    [reflexivity|apply H].
Qed.

Lemma body_sim_Return (resp : Response) (d1 d2 : DB) :
  erase_public d1 = erase_public d2 ->
  body_sim (Return (resp, d1)) (Return (resp, d2)).
Proof. intros E. simpl. now split. Qed.

Lemma erase_public_set_courses (db : DB) (cs : list Course) :
  erase_public (set_courses db cs) = set_courses (erase_public db) cs.
Proof. reflexivity. Qed.

Lemma erase_public_add_Project (db : DB) (p : Project) :
  erase_public (set_projects (erase_public db)
                             (projects (erase_public db) ++ [p]))
  = erase_public (set_projects db (projects db ++ [p])).
Proof.
  unfold erase_public, set_projects.
  cbn [projects users courses revisions assignments storage].
  rewrite !List.map_app, List.map_map. reflexivity.
Qed.

Ltac sim_leaf :=
  first
    [ reflexivity
    | apply body_sim_Return;
      rewrite ?erase_public_update_Project, ?erase_public_delete_Project,
        ?erase_public_update_Course, ?erase_public_set_courses,
        ?erase_public_idem;
      reflexivity
    | apply body_sim_Return; apply erase_public_add_Project
    | rewrite filter_toXML_erase_public;
      [apply body_sim_Return; now rewrite erase_public_idem
      | intros ?; reflexivity] ].

Ltac sim_step :=
  first
    [ apply bind_sim_Project; intros ?
    | apply bind_sim_eq; [reflexivity | intros ?]
    | apply bind_sim_eq;
      [now rewrite existsb_projId_erase_public | intros ?]
    | sim_leaf
    | progress cbn [erase_public_Project set_public projId headId sharedName
                      members owners course_shared_with_teachers
                      course_shared_with_students]
    | match goal with
      | |- body_sim (match ?x with _ => _ end) _ => destruct x eqn:?
      end ].

Lemma get_or_create_erase_public (db : DB) (revId' prevId' : string) :
  get_or_create (erase_public db) revId' prevId'
  = let '(instance, created, db1) := get_or_create db revId' prevId' in
    (instance, created, erase_public db1).
Proof.
  unfold get_or_create.
  change (revisions (erase_public db)) with (revisions db).
  destruct (find (filter_by revId' prevId') (revisions db)); reflexivity.
Qed.

Lemma erase_public_Revision_save (db : DB) (r : Revision) (c : string) :
  erase_public (Revision_save db r c) = Revision_save (erase_public db) r c.
Proof. reflexivity. Qed.

Lemma erase_public_set_storage (db : DB) (fs : list (string * string)) :
  erase_public (set_storage db fs) = set_storage (erase_public db) fs.
Proof. reflexivity. Qed.

Lemma SaveProject_on_post_erase_public (db : DB) (req : Request) :
  Result_sim (SaveProject.on_post (erase_public db) req)
             (SaveProject.on_post db req).
Proof.
  unfold Result_sim, SaveProject.on_post.
  rewrite Project_fromRequest_erase_public.
  change (auth (erase_public db) req) with (auth db req).
  destruct (auth db req) as [e|user]; cbn [bind fst snd];
    [split; [reflexivity|apply erase_public_idem]|].
  destruct (Project_fromRequest db req) as [e|p]; cbn [bind fst snd];
    [split; [reflexivity|apply erase_public_idem]|].
  unfold not_in.
  cbn [erase_public_Project set_public members].
  destruct (inb (userName user) (members p)); cbn [negb raise_if bind];
    [|split; [reflexivity|apply erase_public_idem]].
  cbv zeta.
  change (revisions (erase_public db)) with (revisions db).
  set (p1 := match get_param (params req) "sharedName" with
             | Some n => set_sharedName (erase_public_Project p) (Some n)
             | None => erase_public_Project p
             end).
  set (p2 := match get_param (params req) "sharedName" with
             | Some n => set_sharedName p (Some n)
             | None => p
             end).
  assert (Ep : p1 = erase_public_Project p2)
    by (unfold p1, p2; destruct (get_param (params req) "sharedName");
        reflexivity).
  rewrite Ep.
  change (Project_head (erase_public db) (erase_public_Project p2))
    with (Project_head db p2).
  rewrite get_or_create_erase_public.
  destruct (get_or_create db _ _) as [[instance created] db1].
  change (storage (erase_public db)) with (storage db).
  destruct created; cbn [andb];
    [destruct (existsb _ (revisions db))|]; cbn [fst snd];
    (split; [reflexivity|]);
    rewrite ?erase_public_Revision_save, ?erase_public_set_storage,
      ?erase_public_update_Project, ?erase_public_idem;
    reflexivity.
Qed.

Lemma handle_erase_public (r : Route) (db : DB) (req : Request) (rnd : N) :
  Result_sim (handle r (erase_public db) req rnd) (handle r db req rnd).
Proof.
  destruct r; cbn [handle]; autounfold with handlers; unfold not_in;
    try (apply session_scope_sim; repeat sim_step).
  apply SaveProject_on_post_erase_public.
Qed.

Lemma Result_sim_same_but_public (r : Route) (d1 d2 : DB) (req : Request)
  (rnd : N) :
  same_but_public d1 d2 ->
  Result_sim (handle r d1 req rnd) (handle r d2 req rnd).
Proof.
  unfold same_but_public. intros E.
  destruct (handle_erase_public r d1 req rnd) as [F1 S1].
  destruct (handle_erase_public r d2 req rnd) as [F2 S2].
  rewrite E in F1, S1. split; congruence.
Qed.

Lemma set_public_same_but_public (db : DB) (req : Request) (b : option bool)
  (resp : Response) :
  same_but_public
    (snd (session_scope db
            (user <- auth db req ;;
             project <- Project_fromRequest db req ;;
             _ <- raise_if (not_in user (members project)) NotAuthorized ;;
             Return (resp, update_Project db (set_public project b)))))
    db.
Proof.
  unfold same_but_public.
  match goal with
  | |- context [session_scope db ?body] =>
      destruct (session_scope_cases db body)
        as [[e [_ ->]] | [resp' [db' [Hb ->]]]]; [reflexivity|]
  end.
  inv_exc Hb. simpl.
  match goal with
  | H : Project_fromRequest db req = Return ?p |- _ =>
      destruct (Project_fromRequest_Return _ _ _ H) as [_ Hq];
      apply (erase_public_update_same db p); [exact Hq| |]; reflexivity
  end.
Qed.

(** C9.  The [public] column decides nothing.  In two databases that
    differ at most in that column, [canRead] gives the same answer, and
    every route (with its membership or ownership guard) answers the same
    response or the same exception and leaves databases that again differ
    at most in that column.  [makePublic] and [unmakePublic] set the
    column on the project they name and change nothing else. *)
Theorem public_flag_is_inert :
  (forall (d1 d2 : DB) (p1 p2 : Project) (user : User),
      same_but_public d1 d2 ->
      erase_public_Project p1 = erase_public_Project p2 ->
      Project_canRead d1 p1 user = Project_canRead d2 p2 user)
  /\ (forall (r : Route) (d1 d2 : DB) (req : Request) (rnd : N),
         same_but_public d1 d2 ->
         fst (handle r d1 req rnd) = fst (handle r d2 req rnd)
         /\ same_but_public (snd (handle r d1 req rnd))
                            (snd (handle r d2 req rnd)))
  /\ (forall (db : DB) (req : Request) (rnd : N),
         same_but_public (snd (handle makePublic db req rnd)) db
         /\ same_but_public (snd (handle unmakePublic db req rnd)) db)
  /\ (forall (db : DB) (req : Request) (user : User) (project : Project),
         auth db req = Return user ->
         Project_fromRequest db req = Return project ->
         inb (userName user) (members project) = true ->
         query_Project (snd (MakePublic.on_get db req)) (projId project)
         = Some (set_public project (Some true))
         /\ query_Project (snd (UnMakePublic.on_get db req)) (projId project)
            = Some (set_public project (Some false))).
Proof.
  split; [|split; [|split]].
  - intros d1 d2 p1 p2 user Ed Ep.
    rewrite <- (Project_canRead_erase_public d1 p1 user).
    rewrite <- (Project_canRead_erase_public d2 p2 user).
    unfold same_but_public in Ed. now rewrite Ed, Ep.
  - intros r d1 d2 req rnd E.
    exact (Result_sim_same_but_public r d1 d2 req rnd E).
  - intros db req rnd. split; apply set_public_same_but_public.
  - intros db req user project Ha Hp Hm.
    destruct (Project_fromRequest_Return _ _ _ Hp) as [_ Hq].
    unfold MakePublic.on_get, UnMakePublic.on_get, not_in.
    rewrite Ha. cbn [bind]. rewrite Hp. cbn [bind]. rewrite Hm.
    cbn [negb raise_if bind session_scope snd].
    split; now apply query_update_Project.
Qed.

Lemma public_flag_is_inert_witness :
  Project_canRead db_created project_a1 bob
  = Project_canRead db_public (set_public project_a1 (Some true)) bob
  /\ (fst (handle saveProject db_created save_by_bob 0)
      = fst (handle saveProject db_public save_by_bob 0)
      /\ same_but_public (snd (handle saveProject db_created save_by_bob 0))
                         (snd (handle saveProject db_public save_by_bob 0)))
  /\ (query_Project db_public (projId project_a1)
      = Some (set_public project_a1 (Some true))
      /\ query_Project
           (snd (UnMakePublic.on_get db_created make_public_by_alice))
           (projId project_a1)
         = Some (set_public project_a1 (Some false))).
Proof.
  split; [|split].
  - refine (proj1 public_flag_is_inert db_created db_public project_a1
              (set_public project_a1 (Some true)) bob _ _);
      vm_compute; reflexivity.
  - refine (proj1 (proj2 public_flag_is_inert)
              saveProject db_created db_public save_by_bob 0%N _).
    vm_compute; reflexivity.
  - refine (proj2 (proj2 (proj2 public_flag_is_inert))
              db_created make_public_by_alice alice project_a1 _ _ _);
      vm_compute; reflexivity.
Defined.

Example db_public_differs : db_public <> db_created.
Proof. vm_compute. discriminate. Qed.

(** * Further properties *)

(** ** Strings *)

Lemma string_length_app (s t : string) :
  String.length (s ++ t)%string = (String.length s + String.length t)%nat.
Proof. induction s as [|c s IH]; simpl; [reflexivity|now rewrite IH]. Qed.

Lemma string_app_assoc (s t u : string) :
  ((s ++ t) ++ u)%string = (s ++ (t ++ u))%string.
Proof. induction s as [|c s IH]; simpl; [reflexivity|now rewrite IH]. Qed.

Lemma string_app_nil_r (s : string) : (s ++ "")%string = s.
Proof. induction s as [|c s IH]; simpl; [reflexivity|now rewrite IH]. Qed.

Lemma forallb_string_app (f : ascii -> bool) (s t : string) :
  forallb_string f (s ++ t)%string = forallb_string f s && forallb_string f t.
Proof.
  induction s as [|c s IH]; simpl; [reflexivity|].
  now rewrite IH, andb_assoc.
Qed.

(** ** The shape of the ids *)

Lemma land_15_bounds (x : Z) : 0 <= Z.land x 15 < 16.
Proof.
  change 15 with (Z.ones 4). rewrite Z.land_ones by lia.
  apply Z.mod_pos_bound. reflexivity.
Qed.

Lemma hex_digit_is_hex (d : Z) :
  0 <= d < 16 -> is_hex_digit (SHA1.hex_digit d) = true.
Proof.
  intros H.
  assert (C : d = 0 \/ d = 1 \/ d = 2 \/ d = 3 \/ d = 4 \/ d = 5 \/ d = 6
              \/ d = 7 \/ d = 8 \/ d = 9 \/ d = 10 \/ d = 11 \/ d = 12
              \/ d = 13 \/ d = 14 \/ d = 15) by lia.
  repeat (destruct C as [->|C]; [reflexivity|]). subst d. reflexivity.
Qed.

Lemma hex_length (n : nat) (x : Z) : String.length (SHA1.hex n x) = n.
Proof. induction n as [|n IH]; simpl; [reflexivity|now rewrite IH]. Qed.

Lemma hex_is_hex (n : nat) (x : Z) :
  forallb_string is_hex_digit (SHA1.hex n x) = true.
Proof.
  induction n as [|n IH]; [reflexivity|].
  cbn [SHA1.hex forallb_string]. rewrite IH, andb_true_r.
  apply hex_digit_is_hex, land_15_bounds.
Qed.

Lemma hex_width_below_2_160 (hsh : N) :
  (hsh < 2 ^ 160)%N -> (hex_width hsh <= HASH_ID_LEN)%nat.
Proof.
  intros H. unfold hex_width, HASH_ID_LEN.
  assert (L : (N.log2 hsh < 160)%N).
  { destruct (N.eq_dec hsh 0) as [->|Hn]; [reflexivity|].
    apply N.log2_lt_pow2; lia. }
  assert (D : (N.log2 hsh / 4 < 40)%N)
    by (apply N.Div0.div_lt_upper_bound; lia).
  lia.
Qed.

(** X1.  Every id the server makes has exactly [HASH_ID_LEN] = 40
    lower-case hexadecimal characters, the width of the id columns: the
    ids drawn by [generateHashId] (project and course ids) and the SHA-1
    digests that name revisions.  [formatHash] of a number that needs
    more than 40 digits is longer. *)
Theorem ids_are_40_hex_digits :
  (forall rnd : N,
      String.length (generateHashId rnd) = HASH_ID_LEN
      /\ forallb_string is_hex_digit (generateHashId rnd) = true)
  /\ (forall data : string,
         String.length (SHA1.hexdigest data) = HASH_ID_LEN
         /\ forallb_string is_hex_digit (SHA1.hexdigest data) = true)
  /\ (forall hsh : N,
         String.length (formatHash hsh)
         = Nat.max HASH_ID_LEN (hex_width hsh)).
Proof.
  split; [|split].
  - intros rnd. unfold generateHashId, formatHash. split.
    + rewrite hex_length. apply Nat.max_l.
      apply hex_width_below_2_160. apply N.mod_lt. discriminate.
    + apply hex_is_hex.
  - intros data. unfold SHA1.hexdigest.
    destruct (SHA1.digest _) as [[[[h0 h1] h2] h3] h4]. split.
    + rewrite !string_length_app, !hex_length. reflexivity.
    + rewrite !forallb_string_app, !hex_is_hex. reflexivity.
  - intros hsh. unfold formatHash. apply hex_length.
Qed.

Lemma hex_digit_inj (d e : Z) :
  0 <= d < 16 -> 0 <= e < 16 -> SHA1.hex_digit d = SHA1.hex_digit e -> d = e.
Proof.
  intros Hd He H.
  assert (E : N_of_ascii (SHA1.hex_digit d) = N_of_ascii (SHA1.hex_digit e))
    by now rewrite H.
  unfold SHA1.hex_digit in E.
  destruct (d <? 10) eqn:Dd, (e <? 10) eqn:De;
    rewrite !N_ascii_embedding in E by lia;
    try apply Z.ltb_lt in Dd; try apply Z.ltb_lt in De;
    try apply Z.ltb_ge in Dd; try apply Z.ltb_ge in De; lia.
Qed.

Lemma hex_inj_mod (n : nat) (x y : Z) :
  SHA1.hex n x = SHA1.hex n y ->
  x mod 16 ^ Z.of_nat n = y mod 16 ^ Z.of_nat n.
Proof.
  induction n as [|n IH]; intros H.
  - simpl. now rewrite !Z.mod_1_r.
  - cbn [SHA1.hex] in H.
    remember (Z.land (Z.shiftr x (4 * Z.of_nat n)) 15) as dx eqn:Ex.
    remember (Z.land (Z.shiftr y (4 * Z.of_nat n)) 15) as dy eqn:Ey.
    injection H as Hd Ht.
    apply hex_digit_inj in Hd;
      [|subst dx; apply land_15_bounds|subst dy; apply land_15_bounds].
    specialize (IH Ht). subst dx dy.
    change 15 with (Z.ones 4) in Hd.
    rewrite !(Z.land_ones _ 4) in Hd by (clear; lia).
    rewrite !Z.shiftr_div_pow2 in Hd by (clear; lia).
    replace (2 ^ (4 * Z.of_nat n)) with (16 ^ Z.of_nat n) in Hd
      by (change 16 with (2 ^ 4); rewrite <- Z.pow_mul_r by lia;
          reflexivity).
    change (2 ^ 4) with 16 in Hd.
    rewrite Nat2Z.inj_succ, Z.pow_succ_r by lia.
    rewrite (Z.mul_comm 16).
    assert (P : 16 ^ Z.of_nat n <> 0)
      by (apply Z.pow_nonzero; lia).
    rewrite !Z.rem_mul_r by lia. now rewrite IH, Hd.
Qed.

Lemma below_16_pow_hex_width (hsh : N) :
  (hsh < 16 ^ N.of_nat (hex_width hsh))%N.
Proof.
  unfold hex_width. rewrite Nnat.N2Nat.id.
  destruct (N.eq_dec hsh 0) as [->|Hn]; [reflexivity|].
  destruct (N.log2_spec hsh) as [_ Hu]; [lia|].
  eapply N.lt_le_trans; [exact Hu|].
  change 16%N with (2 ^ 4)%N. rewrite <- N.pow_mul_r.
  apply N.pow_le_mono_r; [discriminate|].
  pose proof (N.Div0.mod_le (N.log2 hsh) 4) as M.
  pose proof (N.div_mod (N.log2 hsh) 4 ltac:(discriminate)) as D.
  pose proof (N.mod_lt (N.log2 hsh) 4 ltac:(discriminate)) as L.
  lia.
Qed.

Lemma formatHash_inj (a b : N) : formatHash a = formatHash b -> a = b.
Proof.
  intros H. unfold formatHash in H.
  assert (L : Nat.max HASH_ID_LEN (hex_width a)
              = Nat.max HASH_ID_LEN (hex_width b)).
  { rewrite <- (hex_length (Nat.max HASH_ID_LEN (hex_width a)) (Z.of_N a)).
    rewrite H. apply hex_length. }
  rewrite <- L in H. apply hex_inj_mod in H.
  set (n := Nat.max HASH_ID_LEN (hex_width a)) in *.
  assert (Ba : (a < 16 ^ N.of_nat n)%N).
  { eapply N.lt_le_trans; [apply below_16_pow_hex_width|].
    apply N.pow_le_mono_r; [discriminate|]. unfold n. lia. }
  assert (Bb : (b < 16 ^ N.of_nat n)%N).
  { eapply N.lt_le_trans; [apply below_16_pow_hex_width|].
    apply N.pow_le_mono_r; [discriminate|]. rewrite L. lia. }
  assert (Za : 0 <= Z.of_N a < 16 ^ Z.of_nat n).
  { split; [lia|]. rewrite <- nat_N_Z.
    change 16 with (Z.of_N 16). rewrite <- N2Z.inj_pow. lia. }
  assert (Zb : 0 <= Z.of_N b < 16 ^ Z.of_nat n).
  { split; [lia|]. rewrite <- nat_N_Z.
    change 16 with (Z.of_N 16). rewrite <- N2Z.inj_pow. lia. }
  rewrite !Z.mod_small in H by assumption. lia.
Qed.

(** X2.  [formatHash] loses nothing: different numbers give different
    ids.  Hence two draws of [generateHashId] give the same id exactly
    when the numbers drawn (below [2^160]) are the same, and
    [CreateProject] fails on the primary key exactly when a stored project
    has the number drawn. *)
Theorem generated_ids_collide_only_on_equal_draws :
  (forall a b : N, formatHash a = formatHash b <-> a = b)
  /\ (forall r1 r2 : N,
         generateHashId r1 = generateHashId r2
         <-> (r1 mod 2 ^ 160 = r2 mod 2 ^ 160)%N)
  /\ (forall (db : DB) (req : Request) (rnd : N) (user : User),
         auth db req = Return user ->
         (fst (CreateProject.on_get db req rnd) = Raise IntegrityError
          <-> exists p, In p (projects db)
                        /\ projId p = formatHash (rnd mod 2 ^ 160)%N)).
Proof.
  split; [|split].
  - intros a b. split; [apply formatHash_inj|now intros ->].
  - intros r1 r2. unfold generateHashId.
    split; [apply formatHash_inj|now intros ->].
  - intros db req rnd user Ha. unfold CreateProject.on_get.
    rewrite Ha. cbn [bind]. unfold generateProjId, generateHashId.
    destruct (existsb _ (projects db)) eqn:E; cbn.
    + split; [intros _|reflexivity].
      apply existsb_exists in E. destruct E as [p [Hin Hp]].
      apply String.eqb_eq in Hp. now exists p.
    + split; [discriminate|]. intros [p [Hin Hp]].
      assert (X : existsb
                    (fun p => String.eqb (projId p)
                                (formatHash (rnd mod 2 ^ 160)%N))
                    (projects db) = true).
      { apply existsb_exists. exists p. split; [exact Hin|].
        now apply String.eqb_eq. }
      congruence.
Qed.

Lemma generated_ids_collide_only_on_equal_draws_witness :
  fst (CreateProject.on_get db_created create_by_alice 161)
  = Raise IntegrityError
  <-> exists p, In p (projects db_created)
                /\ projId p = formatHash (161 mod 2 ^ 160)%N.
Proof.
  exact (proj2 (proj2 generated_ids_collide_only_on_equal_draws)
           db_created create_by_alice 161%N alice
           ltac:(vm_compute; reflexivity)).
Defined.

(** ** Passwords *)

(** X3.  The salt of [hash_password] does not keep users apart: the user
    name is written before and after the password without a separator, so
    user [u] with password [u ++ u] and user [u ++ u] with the empty
    password have the same stored digest. *)
Theorem hash_password_mixes_name_and_password (u : string) :
  hash_password u (u ++ u) = hash_password (u ++ u) "".
Proof.
  unfold hash_password. f_equal. f_equal.
  simpl. now rewrite !string_app_assoc.
Qed.

Lemma get_in_range (s : string) (i : nat) :
  (i < String.length s)%nat -> exists c, String.get i s = Some c.
Proof.
  revert i. induction s as [|c s IH]; simpl; intros i Hi; [lia|].
  destruct i; [now exists c|]. apply IH. lia.
Qed.

Lemma random_choice_in (seq : string) (rnd : N) :
  seq <> ""%string ->
  exists i, (i < String.length seq)%nat
            /\ String.get i seq = Some (random_choice seq rnd).
Proof.
  intros Hne. unfold random_choice.
  set (i := N.to_nat (rnd mod N.of_nat (String.length seq))).
  assert (Hi : (i < String.length seq)%nat).
  { unfold i. destruct seq as [|c s]; [contradiction|].
    pose proof (N.mod_lt rnd (N.of_nat (String.length (String c s)))) as L.
    simpl String.length in *. lia. }
  exists i. split; [exact Hi|].
  destruct (get_in_range seq i Hi) as [c ->]. reflexivity.
Qed.

Lemma get_forallb_string (f : ascii -> bool) (s : string) (i : nat)
  (c : ascii) :
  forallb_string f s = true -> String.get i s = Some c -> f c = true.
Proof.
  revert i. induction s as [|d s IH]; simpl; intros i Hf Hg; [discriminate|].
  apply andb_true_iff in Hf. destruct Hf as [Hd Hs].
  destruct i; [now inversion Hg; subst|]. now apply (IH i).
Qed.

(** X4.  [generate_password] yields six characters, each a letter or a
    digit, whatever the random draws. *)
Theorem generate_password_six_alphanumerics (rnd : nat -> N) :
  String.length (generate_password rnd) = 6%nat
  /\ forallb_string is_alnum (generate_password rnd) = true.
Proof.
  assert (A : forall r, is_alnum (random_choice password_alphabet r) = true).
  { intros r.
    destruct (random_choice_in password_alphabet r) as [i [_ Hg]];
      [discriminate|].
    apply (get_forallb_string is_alnum password_alphabet i); [|exact Hg].
    vm_compute. reflexivity. }
  unfold generate_password. cbn [seq map string_of_list_ascii].
  split; [reflexivity|].
  cbn [forallb_string]. now rewrite !A.
Qed.

(** ** Accounts *)

Lemma validUsername_first_char (s : string) :
  validUsername s = true
  <-> exists c rest, s = String c rest /\ usernameRe_class c = true.
Proof.
  unfold validUsername, usernameRe_match.
  destruct s as [|c rest]; simpl.
  - split; [discriminate|]. intros [c [rest [H _]]]. discriminate H.
  - destruct (usernameRe_class c) eqn:E.
    + split; [intros _; now exists c, rest|reflexivity].
    + split; [discriminate|].
      intros [c' [rest' [H Hc]]]. inversion H; subst. congruence.
Qed.

Lemma userExists_false (db : DB) (username : string) :
  userExists db username = false ->
  filter (fun u => String.eqb (userName u) username) (users db) = [].
Proof.
  unfold userExists. intros H. apply negb_false_iff, Nat.eqb_eq in H.
  now apply length_zero_iff_nil.
Qed.

(** What a request to [createUser] stores when it succeeds. *)
Lemma CreateUser_on_get_success
  (db : DB) (req : Request) (rnd : nat -> N) (smtp_ok : bool)
  (body : Elt) (mail : option Mail) (db' : DB) :
  CreateUser.on_get db req rnd smtp_ok = (success body mail, db') ->
  exists username pw,
    let user := {| userName := username;
                   password := hash_password username pw;
                   email := get_param (params req) "email" |} in
    db' = set_users db (users db ++ [user])
    /\ validUsername username = true
    /\ userExists db username = false
    /\ (mail = None \/
        (mail = Some (initial_email user pw) /\ pw = generate_password rnd
         /\ smtp_ok = true
         /\ get_param (params req) "password" = None)).
Proof.
  unfold CreateUser.on_get.
  set (credentials :=
         match get_param (params req) "userName" with
         | Some username => inr (username, get_param (params req) "password")
         | None =>
             match authorization req with
             | Some (username, password') => inr (username, Some password')
             | None => inl NeedAuthentication
             end
         end).
  destruct credentials as [e|[username pw0]] eqn:Ec; [discriminate|].
  destruct (validUsername username) eqn:Ev; cbn [negb]; [|discriminate].
  destruct (userExists db username) eqn:Ex; [discriminate|].
  destruct pw0 as [pw|].
  - intros H. inversion H; subst. exists username, pw.
    repeat split; auto.
  - destruct (get_param (params req) "email") as [em|] eqn:Ee;
      [|discriminate].
    destruct smtp_ok; [|discriminate].
    intros H. inversion H; subst.
    exists username, (generate_password rnd).
    repeat split; auto. right. repeat split; auto.
    unfold credentials in Ec.
    destruct (get_param (params req) "userName").
    + now inversion Ec.
    + destruct (authorization req) as [[u p]|]; inversion Ec.
Qed.






(** X7.  [validUsername] looks at the first character only: a name is
    accepted exactly when it starts with a character of [[A-z0-9_.-]],
    whatever follows; the empty name is refused.  [createUser] answers a
    refused name with the error document and stores nothing. *)
Theorem validUsername_checks_first_character_only :
  (forall c rest, validUsername (String c rest) = usernameRe_class c)
  /\ validUsername "" = false
  /\ (forall (db : DB) (req : Request) (rnd : nat -> N) (smtp_ok : bool)
             (u : string),
         get_param (params req) "userName" = Some u ->
         validUsername u = false ->
         CreateUser.on_get db req rnd smtp_ok
         = (sendError (u ++ " is not a valid username."), db)).
Proof.
  split; [|split].
  - intros c rest. unfold validUsername, usernameRe_match. simpl.
    now destruct (usernameRe_class c).
  - reflexivity.
  - intros db req rnd smtp_ok u Hu Hv. unfold CreateUser.on_get.
    now rewrite Hu, Hv.
Qed.

Lemma validUsername_checks_first_character_only_witness :
  CreateUser.on_get db_users
    (create_user_request [("userName", " dave"); ("password", "pw")])
    sample_rnd true
  = (sendError " dave is not a valid username.", db_users).
Proof.
  exact (proj2 (proj2 validUsername_checks_first_character_only)
           db_users
           (create_user_request [("userName", " dave"); ("password", "pw")])
           sample_rnd true " dave" eq_refl eq_refl).
Defined.

Lemma handle_users (r : Route) (db : DB) (req : Request) (rnd : N) :
  users (snd (handle r db req rnd)) = users db.
Proof.
  destruct r; cbn [handle];
    try (handler_cases db Hb; [reflexivity|]; inv_exc Hb; reflexivity).
  destruct (SaveProject_on_post_cases db req)
    as [[e ->] | [user [project [Ha [Hp Hm]]]]]; [reflexivity|].
  rewrite (SaveProject_on_post_authorized db req user project Ha Hp Hm).
  cbv zeta.
  destruct (existsb (filter_by _ _) (revisions db));
    [|destruct (existsb _ (revisions db))]; reflexivity.
Qed.

Lemma NoDup_app_new {A : Type} (l : list A) (x : A) :
  NoDup l -> ~ In x l -> NoDup (l ++ [x]).
Proof.
  intros Hl Hx. induction Hl as [|y l Hy Hl IH]; simpl.
  - constructor; [intros []|constructor].
  - constructor.
    + intros Hin. apply in_app_or in Hin. destruct Hin as [Hin|[->|[]]].
      * contradiction.
      * apply Hx. now left.
    + apply IH. intros Hin. apply Hx. now right.
Qed.

(** X8.  No request changes or removes a user row: [createUser] only
    appends a row, and only under a name no row has, so user names stay
    unique; [changePassword] and [resetPassword] end in an exception
    without writing; the project and course routes do not write to the
    table.  A stored password is never replaced. *)
Theorem user_rows_are_never_changed :
  (forall (db : DB) (req : Request) (rnd : nat -> N) (smtp_ok : bool),
      let db' := snd (CreateUser.on_get db req rnd smtp_ok) in
      (exists us, db' = set_users db (users db ++ us))
      /\ (NoDup (map userName (users db)) ->
          NoDup (map userName (users db'))))
  /\ (forall (db : DB) (req : Request) (rnd : nat -> N),
         ChangePassword.on_get db req = (raised TypeError, db)
         /\ snd (ResetPassword.on_get db req rnd) = db
         /\ forall body mail,
              fst (ResetPassword.on_get db req rnd) <> success body mail)
  /\ (forall (r : Route) (db : DB) (req : Request) (rnd : N),
         users (snd (handle r db req rnd)) = users db).
Proof.
  split; [|split].
  - intros db req rnd smtp_ok db'.
    assert (U : forall d, d = set_users d (users d ++ []))
      by (intros [? ? ? ? ? ?]; unfold set_users; simpl;
          now rewrite app_nil_r).
    destruct (CreateUser.on_get db req rnd smtp_ok) as [reply d] eqn:E.
    destruct reply as [msg|body mail|f].
    + assert (d = db).
      { revert E. unfold CreateUser.on_get.
        repeat match goal with
               | |- context [match ?x with _ => _ end] => destruct x
               end; intros E; inversion E; reflexivity. }
      subst d db'. cbn [snd]. split; [exists []; apply U|auto].
    + apply CreateUser_on_get_success in E.
      destruct E as [username [pw [-> [_ [Hx _]]]]]. subst db'.
      cbn [snd]. split; [eexists; reflexivity|].
      intros Hn. cbn [users set_users]. rewrite map_app. cbn [map userName].
      apply NoDup_app_new; [exact Hn|].
      intros Hin. apply in_map_iff in Hin. destruct Hin as [v [Ev Hv]].
      pose proof (userExists_false _ _ Hx) as F.
      assert (X : In v (filter (fun u => String.eqb (userName u) username)
                               (users db))).
      { apply filter_In. split; [exact Hv|]. now apply String.eqb_eq. }
      rewrite F in X. exact X.
    + assert (d = db).
      { revert E. unfold CreateUser.on_get.
        repeat match goal with
               | |- context [match ?x with _ => _ end] => destruct x
               end; intros E; inversion E; reflexivity. }
      subst d db'. cbn [snd]. split; [exists []; apply U|auto].
  - intros db req rnd. split; [reflexivity|].
    unfold ResetPassword.on_get.
    destruct (User_fromRequest db req) as [e|user];
      [|destruct (email user)]; repeat split; discriminate.
  - apply handle_users.
Qed.

Lemma user_rows_are_never_changed_witness :
  NoDup (map userName
           (users (snd (CreateUser.on_get db_users create_dave sample_rnd
                          true)))).
Proof.
  apply (proj2 (proj1 user_rows_are_never_changed
                  db_users create_dave sample_rnd true)).
  simpl. repeat constructor; simpl; intuition discriminate.
Defined.

(** ** Credentials *)

Lemma str_split_not_nil (sep : ascii) (s : string) : str_split sep s <> [].
Proof.
  induction s as [|c s IH]; simpl; [discriminate|].
  destruct (Ascii.eqb c sep); [discriminate|].
  destruct (str_split sep s); [contradiction|discriminate].
Qed.

Lemma str_join_cons (sep : ascii) (f : string) (fs : list string) :
  fs <> [] ->
  str_join sep (f :: fs) = (f ++ String sep (str_join sep fs))%string.
Proof. destruct fs; [contradiction|reflexivity]. Qed.

Lemma str_split_join (sep : ascii) (s : string) :
  str_join sep (str_split sep s) = s.
Proof.
  induction s as [|c s IH]; [reflexivity|].
  cbn [str_split]. destruct (Ascii.eqb c sep) eqn:E.
  - apply Ascii.eqb_eq in E. subst c.
    rewrite str_join_cons by apply str_split_not_nil. now rewrite IH.
  - pose proof (str_split_not_nil sep s) as N.
    destruct (str_split sep s) as [|f fs]; [contradiction|].
    destruct fs as [|g fs].
    + simpl in *. now rewrite IH.
    + change (String c (str_join sep (f :: g :: fs)) = String c s).
      now rewrite IH.
Qed.

Lemma str_split_fields (sep : ascii) (s : string) :
  Forall (fun f => str_contains sep f = false) (str_split sep s).
Proof.
  induction s as [|c s IH]; simpl; [repeat constructor|].
  destruct (Ascii.eqb c sep) eqn:E.
  - constructor; [reflexivity|exact IH].
  - destruct (str_split sep s) as [|f fs]; [repeat constructor|].
    + simpl. now rewrite E.
    + inversion IH; subst. constructor; [|assumption].
      simpl. now rewrite E.
Qed.

Lemma str_split_app (sep : ascii) (u p : string) :
  str_contains sep u = false ->
  str_split sep (u ++ String sep p)%string = u :: str_split sep p.
Proof.
  induction u as [|c u IH]; simpl; intros H.
  - now rewrite Ascii.eqb_refl.
  - apply orb_false_iff in H. destruct H as [Hc Hu].
    rewrite Hc. now rewrite (IH Hu).
Qed.

Lemma str_split_no_sep (sep : ascii) (s : string) :
  str_contains sep s = false -> str_split sep s = [s].
Proof.
  induction s as [|c s IH]; simpl; intros H; [reflexivity|].
  apply orb_false_iff in H. destruct H as [Hc Hs].
  rewrite Hc. now rewrite (IH Hs).
Qed.

Lemma forceUserPass_Authorization
  (b64decode : string -> option string)
  (get_header : string -> option string) (token : string) :
  get_header "Authorization" = Some token ->
  token <> ""%string ->
  forceUserPass b64decode get_header
  = match b64decode (effective_token token) with
    | None => inl TypeError
    | Some decoded =>
        match str_split ":" decoded with
        | [username; password'] => inr (username, password')
        | _ => inl (Server ValueError)
        end
    end.
Proof.
  intros Hh Hn. unfold forceUserPass, getUserPass. rewrite Hh.
  destruct token as [|c t]; [contradiction|].
  unfold split_auth_token. fold (effective_token (String c t)).
  destruct (b64decode (effective_token (String c t))); reflexivity.
Qed.

(** X9.  Credentials in a header: when the [Authorization] value decodes
    to [decoded], [forceUserPass] returns the pair [(u, p)] exactly when
    [decoded] is [u], one colon, [p] with no colon in either part; any
    other [decoded] (no colon, or a colon inside the user name or the
    password) ends in [ValueError].  Without both headers it raises
    [NeedAuthentication]. *)
Theorem forceUserPass_wants_one_colon
  (b64decode : string -> option string) :
  (forall (get_header : string -> option string) (token decoded : string),
      get_header "Authorization" = Some token ->
      token <> ""%string ->
      b64decode (effective_token token) = Some decoded ->
      (forall u p,
          forceUserPass b64decode get_header = inr (u, p)
          <-> (decoded = (u ++ String ":" p)%string
               /\ str_contains ":" u = false
               /\ str_contains ":" p = false))
      /\ ((forall u p, forceUserPass b64decode get_header <> inr (u, p)) ->
          forceUserPass b64decode get_header = inl (Server ValueError)))
  /\ (forall get_header : string -> option string,
         get_header "Authorization" = None ->
         get_header "Snap-Server-Authorization" = None ->
         forceUserPass b64decode get_header
         = inl (Server NeedAuthentication)).
Proof.
  split.
  - intros get_header token decoded Hh Hn Hd.
    rewrite (forceUserPass_Authorization b64decode get_header token Hh Hn).
    rewrite Hd. split.
    + intros u p. split.
      * intros H.
        pose proof (str_split_join ":" decoded) as J.
        pose proof (str_split_fields ":" decoded) as F.
        destruct (str_split ":" decoded) as [|a [|b [|c l]]];
          try discriminate H.
        inversion H; subst a b. simpl in J.
        inversion F as [|? ? Fu F']; subst. inversion F' as [|? ? Fp _]; subst.
        now repeat split.
      * intros [-> [Hu Hp]].
        now rewrite (str_split_app ":" u p Hu), (str_split_no_sep ":" p Hp).
    + intros H.
      destruct (str_split ":" decoded) as [|a [|b [|c l]]]; try reflexivity.
      exfalso. now apply (H a b).
  - intros get_header H1 H2. unfold forceUserPass, getUserPass.
    now rewrite H1, H2.
Qed.

Lemma forceUserPass_wants_one_colon_witness :
  (forceUserPass Some (only_Authorization "Basic alice:wonder:land")
   = inl (Server ValueError))
  /\ (forceUserPass Some (only_Authorization "Basic alice:wonderland")
      = inr ("alice", "wonderland"))
  /\ forceUserPass Some (fun _ => None) = inl (Server NeedAuthentication).
Proof.
  split; [|split].
  - refine (proj2 (proj1 (forceUserPass_wants_one_colon Some)
                     (only_Authorization "Basic alice:wonder:land")
                     "Basic alice:wonder:land" "alice:wonder:land"
                     eq_refl _ eq_refl) _).
    + discriminate.
    + intros u p H. vm_compute in H. discriminate H.
  - refine (proj2 (proj1 (proj1 (forceUserPass_wants_one_colon Some)
                            (only_Authorization "Basic alice:wonderland")
                            "Basic alice:wonderland" "alice:wonderland"
                            eq_refl _ eq_refl) "alice" "wonderland") _).
    + discriminate.
    + repeat split.
  - exact (proj2 (forceUserPass_wants_one_colon Some)
             (fun _ => None) eq_refl eq_refl).
Defined.

(** ** Who can change what *)

(** X10.  A request whose credentials fail changes nothing: on every
    route the database is left as it was, and every route except the two
    that ask for no credentials ([getProjectByName], [listTeachers])
    raises the exception of [auth]. *)
Theorem failed_auth_changes_nothing
  (r : Route) (db : DB) (req : Request) (rnd : N) (e : Exception) :
  auth db req = Raise e ->
  snd (handle r db req rnd) = db
  /\ (r <> getProjectByName -> r <> listTeachers ->
      fst (handle r db req rnd) = Raise e).
Proof.
  intros Ha.
  destruct r; cbn [handle]; autounfold with handlers;
    try unfold SaveProject.on_post;
    try (rewrite Ha; cbn [bind session_scope fst snd]; now split).
  - (* getProjectByName *)
    split; [|congruence].
    match goal with
    | |- context [session_scope db ?body] =>
        destruct (session_scope_cases db body)
          as [[e' [_ ->]] | [resp [db' [Hb ->]]]]; [reflexivity|]
    end.
    inv_exc Hb. reflexivity.
  - (* listTeachers *)
    split; [|congruence].
    match goal with
    | |- context [session_scope db ?body] =>
        destruct (session_scope_cases db body)
          as [[e' [_ ->]] | [resp [db' [Hb ->]]]]; [reflexivity|]
    end.
    inv_exc Hb. reflexivity.
Qed.

Lemma failed_auth_changes_nothing_witness :
  snd (handle saveProject db_created
         (mkRequest "alice" "wrong" [("projId", projId_a1)] "v1") 0)
  = db_created
  /\ (saveProject <> getProjectByName -> saveProject <> listTeachers ->
      fst (handle saveProject db_created
             (mkRequest "alice" "wrong" [("projId", projId_a1)] "v1") 0)
      = Raise IncorrectPassword).
Proof.
  exact (failed_auth_changes_nothing saveProject db_created
           (mkRequest "alice" "wrong" [("projId", projId_a1)] "v1") 0%N
           IncorrectPassword ltac:(vm_compute; reflexivity)).
Defined.

Lemma find_replace_row_other {A : Type} (same other : A -> bool) (new : A)
  (l : list A) :
  (forall q, same q = true -> other q = false) ->
  other new = false ->
  find other (replace_row same new l) = find other l.
Proof.
  intros Hs Hn. induction l as [|q l IH]; simpl; [reflexivity|].
  destruct (same q) eqn:E; simpl.
  - now rewrite Hn, (Hs q E).
  - now rewrite IH.
Qed.

Lemma find_delete_row_other {A : Type} (same other : A -> bool)
  (l : list A) :
  (forall q, same q = true -> other q = false) ->
  find other (delete_row same l) = find other l.
Proof.
  intros Hs. induction l as [|q l IH]; simpl; [reflexivity|].
  destruct (same q) eqn:E; simpl.
  - now rewrite (Hs q E).
  - now rewrite IH.
Qed.

Lemma query_update_Project_other (db : DB) (p' : Project) (k : string) :
  projId p' <> k ->
  query_Project (update_Project db p') k = query_Project db k.
Proof.
  intros Hne. unfold query_Project, update_Project. cbn [projects set_projects].
  apply find_replace_row_other.
  - intros q E. apply String.eqb_eq in E. apply String.eqb_neq. congruence.
  - now apply String.eqb_neq.
Qed.

Lemma query_delete_Project_other (db : DB) (p' : Project) (k : string) :
  projId p' <> k ->
  query_Project (delete_Project db p') k = query_Project db k.
Proof.
  intros Hne. unfold query_Project, delete_Project. cbn [projects set_projects].
  apply find_delete_row_other.
  intros q E. apply String.eqb_eq in E. apply String.eqb_neq. congruence.
Qed.

Lemma query_update_Course_other (db : DB) (c' : Course) (k : string) :
  courseId c' <> k ->
  query_Course (update_Course db c') k = query_Course db k.
Proof.
  intros Hne. unfold query_Course, update_Course. cbn [courses set_courses].
  apply find_replace_row_other.
  - intros q E. apply String.eqb_eq in E. apply String.eqb_neq. congruence.
  - now apply String.eqb_neq.
Qed.

Lemma find_app_found {A : Type} (f : A -> bool) (l l' : list A) (x : A) :
  find f l = Some x -> find f (l ++ l') = Some x.
Proof.
  induction l as [|y l IH]; simpl; [discriminate|].
  destruct (f y); [trivial|exact IH].
Qed.

(** The row the request names is the row stored under [k], or the update
    does not reach [k]. *)
Lemma untouched_by_update (db : DB) (req : Request) (k : string)
  (p p0 p' : Project) :
  query_Project db k = Some p ->
  Project_fromRequest db req = Return p0 ->
  projId p' = projId p0 ->
  (p0 = p -> False) ->
  query_Project (update_Project db p') k = Some p.
Proof.
  intros Hq Hp Eid Hne.
  destruct (Project_fromRequest_Return _ _ _ Hp) as [_ Hq0].
  destruct (String.eqb (projId p0) k) eqn:E.
  - apply String.eqb_eq in E. subst k. exfalso. apply Hne. congruence.
  - apply String.eqb_neq in E.
    rewrite query_update_Project_other; [exact Hq|congruence].
Qed.

Lemma untouched_by_delete (db : DB) (req : Request) (k : string)
  (p p0 : Project) :
  query_Project db k = Some p ->
  Project_fromRequest db req = Return p0 ->
  (p0 = p -> False) ->
  query_Project (delete_Project db p0) k = Some p.
Proof.
  intros Hq Hp Hne.
  destruct (Project_fromRequest_Return _ _ _ Hp) as [_ Hq0].
  destruct (String.eqb (projId p0) k) eqn:E.
  - apply String.eqb_eq in E. subst k. exfalso. apply Hne. congruence.
  - apply String.eqb_neq in E.
    rewrite query_delete_Project_other; [exact Hq|congruence].
Qed.

Ltac same_user :=
  match goal with
  | H1 : auth ?db ?req = Return ?a, H2 : auth ?db ?req = Return ?b |- _ =>
      assert (a = b) by congruence; subst a; clear H1
  end.

(** X11.  A user who is neither a member nor an owner of a project cannot
    change it: after any request of that user, on any route, the project
    row is exactly as it was (not modified, not deleted, not shadowed). *)
Theorem outsiders_cannot_change_a_project
  (r : Route) (db : DB) (req : Request) (rnd : N) (user : User)
  (k : string) (p : Project) :
  auth db req = Return user ->
  query_Project db k = Some p ->
  inb (userName user) (members p) = false ->
  inb (userName user) (owners p) = false ->
  query_Project (snd (handle r db req rnd)) k = Some p.
Proof.
  intros Ha Hq Hm Ho.
  destruct r; cbn [handle];
    try (handler_cases db Hb; [exact Hq|]; inv_exc Hb; try same_user;
         try exact Hq;
         try (eapply untouched_by_update; eauto;
              intros ->; unfold not_in in *;
              repeat match goal with
                     | H : negb _ = false |- _ =>
                         apply negb_false_iff in H
                     end; congruence)).
  - (* createProject *)
    unfold query_Project. cbn [projects set_projects].
    now apply find_app_found.
  - (* saveProject *)
    destruct (SaveProject_on_post_cases db req)
      as [[e ->] | [user' [project [Ha' [Hp Hm']]]]]; [exact Hq|].
    assert (user' = user) by congruence. subst user'.
    rewrite (SaveProject_on_post_authorized db req user project Ha Hp Hm').
    cbv zeta.
    assert (Hne : project = p -> False) by (intros ->; congruence).
    destruct (existsb (filter_by _ _) (revisions db));
      [|destruct (existsb _ (revisions db))]; cbn [snd].
    + eapply untouched_by_update; eauto.
      destruct (get_param (params req) "sharedName"); reflexivity.
    + exact Hq.
    + unfold Revision_save.
      eapply (untouched_by_update (set_revisions db _)); eauto.
      destruct (get_param (params req) "sharedName"); reflexivity.
  - (* uncreateProject *)
    eapply untouched_by_delete; eauto.
    intros ->. unfold not_in in *.
    repeat match goal with
           | H : negb _ = false |- _ => apply negb_false_iff in H
           end; congruence.
Qed.

Lemma outsiders_cannot_change_a_project_witness :
  query_Project (snd (handle makePublic db_created
                        (mkRequest "bob" "builder" [("projId", projId_a1)] "")
                        0))
                projId_a1
  = Some project_a1.
Proof.
  exact (outsiders_cannot_change_a_project makePublic db_created
           (mkRequest "bob" "builder" [("projId", projId_a1)] "") 0%N
           bob projId_a1 project_a1
           ltac:(vm_compute; reflexivity) ltac:(vm_compute; reflexivity)
           eq_refl eq_refl).
Defined.

Lemma kept_by_update (db : DB) (req : Request) (k : string)
  (p p0 p' : Project) :
  query_Project db k = Some p ->
  Project_fromRequest db req = Return p0 ->
  projId p' = projId p0 ->
  owners p' = owners p0 ->
  exists p'', query_Project (update_Project db p') k = Some p''
              /\ owners p'' = owners p /\ projId p'' = projId p.
Proof.
  intros Hq Hp Eid Eo.
  destruct (Project_fromRequest_Return _ _ _ Hp) as [_ Hq0].
  destruct (String.eqb (projId p0) k) eqn:E.
  - apply String.eqb_eq in E. subst k.
    assert (p0 = p) by congruence. subst p0.
    exists p'. split; [now apply query_update_Project|]. now split.
  - apply String.eqb_neq in E. exists p.
    rewrite query_update_Project_other; [now repeat split|congruence].
Qed.

(** X12.  No route changes the owners of a project, and no route other
    than [uncreateProject] makes a project disappear: after any request
    the row stored under an id is still there with the same owners,
    unless the request is an [uncreateProject] of that project by one of
    its owners. *)
Theorem owners_never_change
  (r : Route) (db : DB) (req : Request) (rnd : N) (k : string)
  (p : Project) :
  query_Project db k = Some p ->
  (exists p', query_Project (snd (handle r db req rnd)) k = Some p'
              /\ owners p' = owners p /\ projId p' = projId p)
  \/ (r = uncreateProject
      /\ snd (handle r db req rnd) = delete_Project db p
      /\ exists user, auth db req = Return user
                      /\ inb (userName user) (owners p) = true).
Proof.
  intros Hq.
  assert (Same : exists p', query_Project db k = Some p'
                            /\ owners p' = owners p /\ projId p' = projId p)
    by (exists p; now repeat split).
  destruct r; cbn [handle];
    try (left; handler_cases db Hb; [exact Same|]; inv_exc Hb;
         try exact Same;
         eapply kept_by_update; eauto; reflexivity).
  - (* createProject *)
    left. handler_cases db Hb; [exact Same|]. inv_exc Hb.
    exists p. split; [|now split].
    unfold query_Project. cbn [projects set_projects].
    now apply find_app_found.
  - (* saveProject *)
    left.
    destruct (SaveProject_on_post_cases db req)
      as [[e ->] | [user [project [Ha [Hp Hm]]]]]; [exact Same|].
    rewrite (SaveProject_on_post_authorized db req user project Ha Hp Hm).
    cbv zeta.
    destruct (existsb (filter_by _ _) (revisions db));
      [|destruct (existsb _ (revisions db))]; cbn [snd].
    + eapply kept_by_update; eauto;
        destruct (get_param (params req) "sharedName"); reflexivity.
    + exact Same.
    + unfold Revision_save.
      eapply (kept_by_update (set_revisions db _)); eauto;
        destruct (get_param (params req) "sharedName"); reflexivity.
  - (* uncreateProject *)
    handler_cases db Hb; [left; exact Same|]. inv_exc Hb.
    match goal with
    | H : Project_fromRequest db req = Return ?p0 |- _ =>
        rename H into Hp;
        destruct (Project_fromRequest_Return _ _ _ Hp) as [_ Hq0];
        destruct (String.eqb (projId p0) k) eqn:Ek
    end.
    + apply String.eqb_eq in Ek. subst k. right.
      match goal with
      | H : query_Project db (projId ?p0) = Some ?p0 |- _ =>
          assert (p0 = p) by congruence; subst p0
      end.
      split; [reflexivity|]. split; [reflexivity|].
      eexists. split; [eassumption|].
      unfold not_in in *.
      match goal with
      | H : negb _ = false |- _ => now apply negb_false_iff in H
      end.
    + apply String.eqb_neq in Ek. left. exists p.
      rewrite query_delete_Project_other; [now repeat split|congruence].
Qed.

Lemma owners_never_change_witness :
  (exists p',
      query_Project (snd (handle shareProject db_created
                            (unshare_by_alice "bob") 0)) projId_a1
      = Some p'
      /\ owners p' = owners project_a1 /\ projId p' = projId project_a1)
  \/ (shareProject = uncreateProject
      /\ snd (handle shareProject db_created (unshare_by_alice "bob") 0)
         = delete_Project db_created project_a1
      /\ exists user, auth db_created (unshare_by_alice "bob") = Return user
                      /\ inb (userName user) (owners project_a1) = true).
Proof.
  exact (owners_never_change shareProject db_created
           (unshare_by_alice "bob") 0%N projId_a1 project_a1
           ltac:(vm_compute; reflexivity)).
Defined.

Lemma Course_fromRequest_same (db : DB) (req : Request) (k : string)
  (c c0 : Course) :
  query_Course db k = Some c ->
  Course_fromRequest db req = Return c0 ->
  courseId c0 = k -> c0 = c.
Proof.
  intros Hq Hc E.
  destruct (Course_fromRequest_Return _ _ _ Hc) as [_ Hq0]. congruence.
Qed.

Lemma inb_list_remove_other (x n : string) (l l' : list string) :
  list_remove x l = Some l' -> n <> x -> inb n l' = inb n l.
Proof.
  revert l'. induction l as [|y l IH]; simpl; intros l' H Hne;
    [discriminate|].
  destruct (String.eqb y x) eqn:E.
  - inversion H; subst. apply String.eqb_eq in E. subst y.
    apply String.eqb_neq in Hne. now rewrite Hne.
  - destruct (list_remove x l) as [r|]; [|discriminate].
    inversion H; subst. simpl. now rewrite (IH r eq_refl Hne).
Qed.

(** The course stored under [k] after an update of the course the
    request names. *)
Lemma course_after_update (db : DB) (req : Request) (k : string)
  (c c0 c' : Course) (P : Course -> Prop) :
  query_Course db k = Some c ->
  Course_fromRequest db req = Return c0 ->
  courseId c' = courseId c0 ->
  P c ->
  (c0 = c -> P c') ->
  exists c'', query_Course (update_Course db c') k = Some c'' /\ P c''.
Proof.
  intros Hq Hc Eid Pc Pc'.
  destruct (Course_fromRequest_Return _ _ _ Hc) as [_ Hq0].
  destruct (String.eqb (courseId c0) k) eqn:E.
  - apply String.eqb_eq in E. subst k.
    assert (c0 = c) by congruence. subst c0.
    exists c'. split; [now apply query_update_Course|auto].
  - apply String.eqb_neq in E. exists c.
    rewrite query_update_Course_other; [now split|congruence].
Qed.

(** X13.  Only a teacher of a course changes its teachers, and a user who
    does not teach the course changes nothing in it but the own
    enrolment: after any request of such a user the course is still
    there, its teacher list is as it was, and every other user is a
    student of it exactly when that user was before. *)
Theorem only_teachers_change_a_course
  (r : Route) (db : DB) (req : Request) (rnd : N) (user : User)
  (k : string) (c : Course) :
  auth db req = Return user ->
  query_Course db k = Some c ->
  inb (userName user) (teachers c) = false ->
  exists c', query_Course (snd (handle r db req rnd)) k = Some c'
             /\ teachers c' = teachers c
             /\ forall n, n <> userName user ->
                          inb n (students c') = inb n (students c).
Proof.
  intros Ha Hq Ht.
  set (P := fun c' : Course =>
              teachers c' = teachers c
              /\ forall n, n <> userName user ->
                           inb n (students c') = inb n (students c)).
  assert (Pc : P c) by (split; auto).
  assert (Same : exists c', query_Course db k = Some c' /\ P c')
    by (exists c; now split).
  change (exists c', query_Course (snd (handle r db req rnd)) k = Some c'
                     /\ P c').
  assert (G : forall (a : User) (c0 : Course),
             auth db req = Return a ->
             not_in a (teachers c0) = false -> c0 = c -> False).
  { intros a c0 Ha' Hn ->. unfold not_in in Hn.
    apply negb_false_iff in Hn. congruence. }
  destruct r; cbn [handle];
    try (handler_cases db Hb; [exact Same|]; inv_exc Hb; try exact Same;
         try (match goal with
              | H : Course_fromRequest db req = Return ?c0 |- _ =>
                  eapply (course_after_update db req k c c0 _ P Hq H);
                  [reflexivity | exact Pc
                  | solve [intros E0'; exfalso; eapply G; eauto]]
              end)).
  - (* createCourse *)
    exists c. split; [|exact Pc].
    unfold query_Course. cbn [courses set_courses].
    now apply find_app_found.
  - (* enroll *)
    match goal with
    | H : Course_fromRequest db req = Return ?c0 |- _ =>
        eapply (course_after_update db req k c c0 _ P Hq H);
          [reflexivity | exact Pc |]
    end.
    intros ->. split; [reflexivity|]. intros n Hn. cbn [students set_students].
    rewrite inb_relationship_append.
    assert (a = user) by congruence. subst a.
    apply String.eqb_neq in Hn. rewrite Hn. now rewrite orb_false_r.
  - (* saveProject *)
    destruct (SaveProject_on_post_cases db req)
      as [[e ->] | [user' [project [Ha' [Hp Hm]]]]]; [exact Same|].
    rewrite (SaveProject_on_post_authorized db req user' project Ha' Hp Hm).
    cbv zeta.
    destruct (existsb (filter_by _ _) (revisions db));
      [|destruct (existsb _ (revisions db))]; exact Same.
  - (* unenroll *)
    match goal with
    | H : Course_fromRequest db req = Return ?c0 |- _ =>
        eapply (course_after_update db req k c c0 _ P Hq H);
          [reflexivity | exact Pc |]
    end.
    intros ->. split; [reflexivity|]. intros n Hn. cbn [students set_students].
    assert (a = user) by congruence. subst a.
    eapply inb_list_remove_other; eauto.
Qed.

Lemma only_teachers_change_a_course_witness :
  exists c',
    query_Course
      (snd (handle enroll db_courses
              (mkRequest "alice" "wonderland"
                 [("courseId", courseId course_one)] "") 0))
      (courseId course_one) = Some c'
    /\ teachers c' = teachers course_one
    /\ forall n, n <> userName alice ->
                 inb n (students c') = inb n (students course_one).
Proof.
  exact (only_teachers_change_a_course enroll db_courses
           (mkRequest "alice" "wonderland"
              [("courseId", courseId course_one)] "") 0%N
           alice (courseId course_one) course_one
           ltac:(vm_compute; reflexivity) ltac:(vm_compute; reflexivity)
           eq_refl).
Defined.

(** ** Invariants of the tables *)

Lemma map_replace_row {A B : Type} (key : A -> B) (same : A -> bool)
  (new : A) (l : list A) :
  (forall q, same q = true -> key q = key new) ->
  map key (replace_row same new l) = map key l.
Proof.
  intros H. induction l as [|q l IH]; simpl; [reflexivity|].
  destruct (same q) eqn:E; simpl; [now rewrite (H q E)|now rewrite IH].
Qed.

Lemma In_delete_row {A : Type} (same : A -> bool) (l : list A) (x : A) :
  In x (delete_row same l) -> In x l.
Proof.
  induction l as [|q l IH]; simpl; [trivial|].
  destruct (same q); [now right|].
  intros [->|H]; [now left|right; now apply IH].
Qed.

Lemma NoDup_map_delete_row {A B : Type} (key : A -> B) (same : A -> bool)
  (l : list A) :
  NoDup (map key l) -> NoDup (map key (delete_row same l)).
Proof.
  induction l as [|q l IH]; simpl; intros H; [constructor|].
  inversion H as [|? ? Hn Hl]; subst.
  destruct (same q); [exact Hl|]. simpl. constructor; [|now apply IH].
  intros Hin. apply Hn. apply in_map_iff in Hin.
  destruct Hin as [x [E Hx]]. apply in_map_iff. exists x.
  split; [exact E|]. now apply In_delete_row in Hx.
Qed.

Lemma projIds_update_Project (db : DB) (p : Project) :
  map projId (projects (update_Project db p)) = map projId (projects db).
Proof.
  unfold update_Project. cbn [projects set_projects].
  apply map_replace_row. intros q E. now apply String.eqb_eq in E.
Qed.

Lemma courseIds_update_Course (db : DB) (c : Course) :
  map courseId (courses (update_Course db c)) = map courseId (courses db).
Proof.
  unfold update_Course. cbn [courses set_courses].
  apply map_replace_row. intros q E. now apply String.eqb_eq in E.
Qed.

Lemma existsb_key_false {A : Type} (key : A -> string) (k : string)
  (l : list A) :
  existsb (fun x => String.eqb (key x) k) l = false -> ~ In k (map key l).
Proof.
  intros H Hin. apply in_map_iff in Hin. destruct Hin as [x [E Hx]].
  assert (X : existsb (fun x => String.eqb (key x) k) l = true).
  { apply existsb_exists. exists x. split; [exact Hx|].
    now apply String.eqb_eq. }
  congruence.
Qed.

Lemma revisions_update_Project (db : DB) (p : Project) :
  revisions (update_Project db p) = revisions db.
Proof. reflexivity. Qed.

Lemma courses_update_Project (db : DB) (p : Project) :
  courses (update_Project db p) = courses db.
Proof. reflexivity. Qed.

Lemma storage_update_Project (db : DB) (p : Project) :
  storage (update_Project db p) = storage db.
Proof. reflexivity. Qed.

Lemma keys_unique_update_Project (db : DB) (p : Project) :
  keys_unique db -> keys_unique (update_Project db p).
Proof.
  intros [Kp [Kc Kr]]. unfold keys_unique.
  rewrite projIds_update_Project. now repeat split.
Qed.

Lemma keys_unique_update_Course (db : DB) (c : Course) :
  keys_unique db -> keys_unique (update_Course db c).
Proof.
  intros [Kp [Kc Kr]]. unfold keys_unique.
  rewrite courseIds_update_Course. now repeat split.
Qed.

(** X14.  Primary keys stay unique: when no two projects, no two courses
    and no two revisions share their id, the same holds after any
    request on any route.  New rows come with a key that is checked
    against the table ([createProject], [createCourse], the revision of
    [saveProject]); updates keep the key of the row. *)
Theorem keys_stay_unique
  (r : Route) (db : DB) (req : Request) (rnd : N) :
  keys_unique db -> keys_unique (snd (handle r db req rnd)).
Proof.
  intros K.
  destruct r; cbn [handle];
    try (handler_cases db Hb; [exact K|]; inv_exc Hb; try exact K;
         first [ now apply keys_unique_update_Project
               | now apply keys_unique_update_Course
               | idtac ]).
  - (* createCourse *)
    destruct K as [Kp [Kc Kr]]. unfold keys_unique.
    cbn [projects courses revisions set_courses]. repeat split; auto.
    rewrite map_app. cbn [map courseId].
    apply NoDup_app_new; [exact Kc|]. now apply existsb_key_false.
  - (* createProject *)
    destruct K as [Kp [Kc Kr]]. unfold keys_unique.
    cbn [projects courses revisions set_projects]. repeat split; auto.
    rewrite map_app. cbn [map projId set_members].
    apply NoDup_app_new; [exact Kp|]. now apply existsb_key_false.
  - (* saveProject *)
    destruct (SaveProject_on_post_cases db req)
      as [[e ->] | [user [project [Ha [Hp Hm]]]]]; [exact K|].
    rewrite (SaveProject_on_post_authorized db req user project Ha Hp Hm).
    cbv zeta.
    destruct (existsb (filter_by _ _) (revisions db));
      [|destruct (existsb (fun r => String.eqb (revId r) _) (revisions db))
          eqn:Ex]; cbn [snd].
    + now apply keys_unique_update_Project.
    + exact K.
    + unfold Revision_save.
      destruct K as [Kp [Kc Kr]]. unfold keys_unique.
      cbn [storage set_storage projects courses revisions].
      rewrite projIds_update_Project, courses_update_Project,
        revisions_update_Project.
      cbn [projects courses revisions set_revisions].
      repeat split; auto.
      rewrite map_app. cbn [map revId].
      apply NoDup_app_new; [exact Kr|]. now apply existsb_key_false.
  - (* uncreateProject *)
    destruct K as [Kp [Kc Kr]]. unfold keys_unique, delete_Project.
    cbn [projects courses revisions set_projects]. repeat split; auto.
    now apply NoDup_map_delete_row.
Qed.

Lemma keys_stay_unique_witness :
  keys_unique (snd (handle saveProject db_created save_v1 0)).
Proof.
  apply (keys_stay_unique saveProject db_created save_v1 0%N).
  vm_compute. repeat split; repeat constructor; simpl; intuition discriminate.
Defined.

Lemma In_replace_row {A : Type} (same : A -> bool) (new : A) (l : list A)
  (x : A) :
  In x (replace_row same new l) -> x = new \/ In x l.
Proof.
  induction l as [|q l IH]; simpl; [tauto|].
  destruct (same q).
  - intros [<-|H]; [now left|right; now right].
  - intros [<-|H]; [right; now left|].
    destruct (IH H) as [->|Hin]; [now left|right; now right].
Qed.

Lemma chain_closed_update_Project (db : DB) (p' : Project) :
  chain_closed db ->
  (forall h, headId p' = Some h ->
             exists r, In r (revisions db) /\ revId r = h) ->
  chain_closed (update_Project db p').
Proof.
  intros [Hh Hc] Hp. split.
  - intros q h Hq Eh. rewrite revisions_update_Project.
    unfold update_Project in Hq. cbn [projects set_projects] in Hq.
    apply In_replace_row in Hq. destruct Hq as [->|Hq]; [now apply Hp|].
    now apply (Hh q).
  - exact Hc.
Qed.

Lemma chain_closed_head (db : DB) (req : Request) (p0 : Project) :
  chain_closed db ->
  Project_fromRequest db req = Return p0 ->
  forall h, headId p0 = Some h ->
            exists r, In r (revisions db) /\ revId r = h.
Proof.
  intros [Hh _] Hp h Eh. apply (Hh p0); [|exact Eh].
  now apply Project_fromRequest_In with (req := req).
Qed.

Lemma Project_head_In (db : DB) (p : Project) (head : Revision) :
  Project_head db p = Some head -> In head (revisions db).
Proof.
  unfold Project_head, query_Revision.
  destruct (headId p); [|discriminate].
  intros H. now apply find_some in H.
Qed.

(** X15.  The revision chain stays closed: when every project head is a
    stored revision and every predecessor of a stored revision is the
    root or a stored revision, the same holds after any request on any
    route.  A save links the new revision to the root or to the stored
    head, and no route removes a revision. *)
Theorem chain_stays_closed
  (r : Route) (db : DB) (req : Request) (rnd : N) :
  chain_closed db -> chain_closed (snd (handle r db req rnd)).
Proof.
  intros K.
  destruct r; cbn [handle];
    try (handler_cases db Hb; [exact K|]; inv_exc Hb; try exact K;
         try (apply chain_closed_update_Project; [exact K|];
              match goal with
              | H : Project_fromRequest db req = Return ?p0 |- _ =>
                  exact (chain_closed_head db req p0 K H)
              end)).
  - (* createProject *)
    destruct K as [Hh Hc]. split; [|exact Hc].
    intros q h Hq Eh. cbn [projects set_projects revisions] in *.
    apply in_app_or in Hq. destruct Hq as [Hq|[<-|[]]];
      [now apply (Hh q)|discriminate Eh].
  - (* saveProject *)
    destruct (SaveProject_on_post_cases db req)
      as [[e ->] | [user [project [Ha [Hp Hm]]]]]; [exact K|].
    rewrite (SaveProject_on_post_authorized db req user project Ha Hp Hm).
    cbv zeta.
    set (prevId' := match Project_head db project with
                    | Some head => revId head
                    | None => formatHash 0
                    end).
    set (revId' := SHA1.hexdigest (prevId' ++ stream req)).
    destruct (existsb (filter_by revId' prevId') (revisions db)) eqn:Ef;
      [|destruct (existsb (fun r => String.eqb (revId r) revId')
                          (revisions db))]; cbn [snd].
    + apply chain_closed_update_Project; [exact K|].
      intros h Eh. cbn [headId set_headId] in Eh. inversion Eh; subst h.
      apply existsb_exists in Ef. destruct Ef as [r [Hin Hr]].
      exists r. split; [exact Hin|].
      apply filter_by_eq in Hr. now subst r.
    + exact K.
    + unfold Revision_save.
      assert (K' : chain_closed
                     (set_revisions db
                        (revisions db
                         ++ [{| revId := revId'; prevId := prevId' |}]))).
      { destruct K as [Hh Hc]. split.
        - intros q h Hq Eh. cbn [projects revisions set_revisions] in *.
          destruct (Hh q h Hq Eh) as [r [Hin Er]].
          exists r. split; [apply in_or_app; now left|exact Er].
        - intros r Hr. cbn [revisions set_revisions] in *.
          apply in_app_or in Hr. destruct Hr as [Hr|[<-|[]]].
          + destruct (Hc r Hr) as [E|[r' [Hin Er]]]; [now left|right].
            exists r'. split; [apply in_or_app; now left|exact Er].
          + cbn [prevId]. unfold prevId'.
            destruct (Project_head db project) as [head|] eqn:Eh.
            * right. exists head. split; [|reflexivity].
              apply in_or_app. left. now apply Project_head_In in Eh.
            * left. exact formatHash_0. }
      assert (G : chain_closed
                    (update_Project
                       (set_revisions db
                          (revisions db
                           ++ [{| revId := revId'; prevId := prevId' |}]))
                       (set_headId
                          match get_param (params req) "sharedName" with
                          | Some n => set_sharedName project (Some n)
                          | None => project
                          end (Some revId')))).
      { apply chain_closed_update_Project; [exact K'|].
        intros h Eh. cbn [headId set_headId] in Eh. inversion Eh; subst h.
        exists {| revId := revId'; prevId := prevId' |}.
        split; [|reflexivity]. cbn [revisions set_revisions].
        apply in_or_app. right. now left. }
      exact G.
  - (* uncreateProject *)
    destruct K as [Hh Hc]. split; [|exact Hc].
    intros q h Hq Eh. unfold delete_Project in Hq.
    cbn [projects set_projects] in Hq. apply In_delete_row in Hq.
    now apply (Hh q).
Qed.

Lemma chain_stays_closed_witness :
  chain_closed (snd (handle saveProject db_created save_v1 0)).
Proof.
  apply (chain_stays_closed saveProject db_created save_v1 0%N).
  split.
  - intros p h Hp Eh. rewrite db_created_projects in Hp.
    destruct Hp as [<-|[]]. discriminate Eh.
  - intros r Hr.
    assert (E : revisions db_created = []) by (vm_compute; reflexivity).
    rewrite E in Hr. destruct Hr.
Defined.

(** ** The content-addressed store *)






Lemma string_app_inv_head (s x y : string) :
  (s ++ x)%string = (s ++ y)%string -> x = y.
Proof.
  induction s as [|c s IH]; simpl; intros H; [exact H|].
  inversion H. now apply IH.
Qed.

Lemma Revision_filename_inj (r1 r2 : Revision) :
  Revision_filename r1 = Revision_filename r2 -> revId r1 = revId r2.
Proof.
  unfold Revision_filename. intros H.
  apply string_app_inv_head in H. apply string_app_inv_head in H.
  now apply string_app_inv_tail in H.
Qed.

Lemma read_file_In (fs : list (string * string)) (n c : string) :
  In (n, c) fs -> exists c', read_file fs n = Some c' /\ In (n, c') fs.
Proof.
  induction fs as [|[m d] fs IH]; simpl; [intros []|].
  intros H. destruct (String.eqb m n) eqn:E.
  - apply String.eqb_eq in E. subst m. exists d. split; [reflexivity|now left].
  - destruct H as [H|H].
    + inversion H; subst. now rewrite String.eqb_refl in E.
    + destruct (IH H) as [c' [Hr Hin]]. exists c'. split; [exact Hr|now right].
Qed.

(** X17.  Round trip of a save: after a successful save the revision
    that became the head can be loaded; the content loaded hashes, after
    some predecessor id, to the revision id; and when the save created
    the revision the content loaded is the content posted. *)
Theorem saved_revision_loads_back
  (db : DB) (req : Request) (user : User) (project : Project)
  (resp : Response) (db' : DB) :
  content_addressed db ->
  auth db req = Return user ->
  Project_fromRequest db req = Return project ->
  inb (userName user) (members project) = true ->
  SaveProject.on_post db req = (Return resp, db') ->
  let prevId' := match Project_head db project with
                 | Some head => revId head
                 | None => ROOT
                 end in
  let revId' := computeId prevId' (stream req) in
  let rev := {| revId := revId'; prevId := prevId' |} in
  exists c,
    Revision_load db' rev = Some c
    /\ (exists p, revId' = computeId p c)
    /\ (existsb (filter_by revId' prevId') (revisions db) = false ->
        c = stream req).
Proof.
  intros K Ha Hp Hm H prevId' revId' rev.
  rewrite (SaveProject_on_post_authorized db req user project Ha Hp Hm) in H.
  cbv zeta in H. change (formatHash 0) with ROOT in H.
  fold prevId' in H. fold (computeId prevId' (stream req)) in H.
  fold revId' in H. fold rev in H.
  destruct (existsb (filter_by revId' prevId') (revisions db)) eqn:Ef.
  - inversion H; subst db'. clear H.
    apply existsb_exists in Ef. destruct Ef as [r [Hin Hr]].
    apply filter_by_eq in Hr. subst r. fold rev in Hin.
    destruct K as [Kf Kr].
    destruct (Kr rev Hin) as [c0 [Hc0 _]].
    destruct (read_file_In _ _ _ Hc0) as [c [Hread Hc]].
    exists c. split; [exact Hread|]. split; [|discriminate].
    destruct (Kf _ _ Hc) as [p Ep]. exists p.
    now apply Revision_filename_inj in Ep.
  - destruct (existsb (fun r => String.eqb (revId r) revId') (revisions db));
      [discriminate H|].
    inversion H; subst db'. clear H.
    exists (stream req). split.
    + unfold Revision_load, Revision_save. cbn [storage set_storage read_file].
      now rewrite String.eqb_refl.
    + split; [now exists prevId'|reflexivity].
Qed.

Lemma saved_revision_loads_back_witness :
  exists c,
    Revision_load (snd (SaveProject.on_post db_created save_v1))
      {| revId := computeId ROOT "v1"; prevId := ROOT |} = Some c
    /\ (exists p, computeId ROOT "v1" = computeId p c)
    /\ (existsb (filter_by (computeId ROOT "v1") ROOT) (revisions db_created)
        = false -> c = "v1").
Proof.
  refine (saved_revision_loads_back db_created save_v1 alice project_a1
            (respondXML HTTP_200
               (xmlSuccess
                  [("revId",
                    Some "ad6b73966389106e479f11050198775498a4d002")]))
            (snd (SaveProject.on_post db_created save_v1)) _ _ _ _ _).
  - assert (Er : revisions db_created = []) by (vm_compute; reflexivity).
    assert (Es : storage db_created = []) by (vm_compute; reflexivity).
    unfold content_addressed. rewrite Er, Es. split.
    + intros f c [].
    + intros r [].
  - vm_compute; reflexivity.
  - vm_compute; reflexivity.
  - vm_compute; reflexivity.
  - vm_compute; reflexivity.
Defined.

(** ** Adding, then removing *)

Lemma replace_row_back {A : Type} (same : A -> bool) (x new : A)
  (l : list A) :
  find same l = Some x -> same new = true ->
  replace_row same x (replace_row same new l) = l.
Proof.
  intros H Hn. induction l as [|q l IH]; simpl in *; [discriminate|].
  destruct (same q) eqn:E; simpl.
  - rewrite Hn. now inversion H.
  - rewrite E. now rewrite IH.
Qed.

Lemma update_Course_back (db : DB) (c c' : Course) :
  query_Course db (courseId c) = Some c ->
  courseId c' = courseId c ->
  update_Course (update_Course db c') c = db.
Proof.
  intros Hq E. unfold update_Course, query_Course in *.
  cbn [courses set_courses]. rewrite E.
  rewrite (replace_row_back _ c c' (courses db) Hq)
    by (rewrite E; apply String.eqb_refl).
  now destruct db.
Qed.

Lemma update_Project_back (db : DB) (p p' : Project) :
  query_Project db (projId p) = Some p ->
  projId p' = projId p ->
  update_Project (update_Project db p') p = db.
Proof.
  intros Hq E. unfold update_Project, query_Project in *.
  cbn [projects set_projects]. rewrite E.
  rewrite (replace_row_back _ p p' (projects db) Hq)
    by (rewrite E; apply String.eqb_refl).
  now destruct db.
Qed.

Lemma list_remove_app_new (x : string) (l : list string) :
  inb x l = false -> list_remove x (l ++ [x]) = Some l.
Proof.
  induction l as [|y l IH]; simpl; intros H.
  - now rewrite String.eqb_refl.
  - apply orb_false_iff in H. destruct H as [Hy Hl].
    rewrite String.eqb_sym in Hy. rewrite Hy. now rewrite (IH Hl).
Qed.

Lemma Course_fromRequest_updated (db : DB) (req : Request) (c c' : Course) :
  Course_fromRequest db req = Return c ->
  courseId c' = courseId c ->
  Course_fromRequest (update_Course db c') req = Return c'.
Proof.
  intros Hc E. destruct (Course_fromRequest_Return _ _ _ Hc) as [Hk Hq].
  unfold Course_fromRequest, forceParam. rewrite Hk. cbn [bind].
  now rewrite (query_update_Course db c c' Hq E).
Qed.

Lemma Project_fromRequest_updated (db : DB) (req : Request)
  (p p' : Project) :
  Project_fromRequest db req = Return p ->
  projId p' = projId p ->
  Project_fromRequest (update_Project db p') req = Return p'.
Proof.
  intros Hp E. destruct (Project_fromRequest_Return _ _ _ Hp) as [Hk Hq].
  unfold Project_fromRequest, forceParam. rewrite Hk. cbn [bind].
  now rewrite (query_update_Project db p p' Hq E).
Qed.

Lemma set_students_back (c : Course) (l : list string) :
  set_students (set_students c l) (students c) = c.
Proof. now destruct c. Qed.

Lemma set_teachers_back (c : Course) (l : list string) :
  set_teachers (set_teachers c l) (teachers c) = c.
Proof. now destruct c. Qed.

Lemma set_members_back (p : Project) (l : list string) :
  set_members (set_members p l) (members p) = p.
Proof. now destruct p. Qed.

(** X18.  The removing routes undo the adding routes: when the user was
    not in the list before, [enroll] followed by [unenroll],
    [addStudent] by [removeStudent], [addTeacher] by [removeTeacher] and
    [shareProject] by [unshareProject] (for a user who is not an owner),
    each with the same request, both succeed and leave the database
    exactly as it was. *)
Theorem add_then_remove_restores (db : DB) (req : Request) (user : User) :
  auth db req = Return user ->
  (forall course,
      Course_fromRequest db req = Return course ->
      inb (userName user) (students course) = false ->
      exists db1, Enroll.on_get db req = (succeeded, db1)
                  /\ UnEnroll.on_get db1 req = (succeeded, db))
  /\ (forall course student,
         Course_fromRequest db req = Return course ->
         inb (userName user) (teachers course) = true ->
         User_fromRequest db req = Return student ->
         inb (userName student) (students course) = false ->
         exists db1, AddStudent.on_get db req = (succeeded, db1)
                     /\ RemoveStudent.on_get db1 req = (succeeded, db))
  /\ (forall course teacher,
         Course_fromRequest db req = Return course ->
         inb (userName user) (teachers course) = true ->
         User_fromRequest db req = Return teacher ->
         inb (userName teacher) (teachers course) = false ->
         exists db1, AddTeacher.on_get db req = (succeeded, db1)
                     /\ RemoveTeacher.on_get db1 req = (succeeded, db))
  /\ (forall project newMember,
         Project_fromRequest db req = Return project ->
         inb (userName user) (members project) = true ->
         User_fromRequest db req = Return newMember ->
         inb (userName newMember) (members project) = false ->
         inb (userName newMember) (owners project) = false ->
         exists db1, ShareProject.on_get db req = (succeeded, db1)
                     /\ UnShareProject.on_get db1 req = (succeeded, db)).
Proof.
  intros Ha. split; [|split; [|split]].
  - intros course Hc Hs.
    destruct (Course_fromRequest_Return _ _ _ Hc) as [_ Hq].
    unfold Enroll.on_get. rewrite Ha. cbn [bind]. rewrite Hc.
    cbn [bind session_scope].
    rewrite (relationship_append_new _ _ Hs).
    eexists. split; [reflexivity|].
    unfold UnEnroll.on_get.
    change (auth (update_Course db ?c) req) with (auth db req).
    rewrite Ha. cbn [bind].
    match goal with
    | |- context [Course_fromRequest (update_Course db ?c') req] =>
        rewrite (Course_fromRequest_updated db req course c' Hc eq_refl)
    end.
    cbn [bind students set_students].
    rewrite (list_remove_app_new _ _ Hs). cbn [session_scope].
    rewrite set_students_back.
    match goal with
    | |- context [update_Course (update_Course db ?c') course] =>
        now rewrite (update_Course_back db course c' Hq eq_refl)
    end.
  - intros course student Hc Ht Hu Hs.
    destruct (Course_fromRequest_Return _ _ _ Hc) as [_ Hq].
    unfold AddStudent.on_get, not_in. rewrite Ha. cbn [bind]. rewrite Hc.
    cbn [bind]. rewrite Ht. cbn [negb raise_if bind]. rewrite Hu.
    cbn [bind session_scope].
    rewrite (relationship_append_new _ _ Hs).
    eexists. split; [reflexivity|].
    unfold RemoveStudent.on_get, not_in.
    change (auth (update_Course db ?c) req) with (auth db req).
    rewrite Ha. cbn [bind].
    match goal with
    | |- context [Course_fromRequest (update_Course db ?c') req] =>
        rewrite (Course_fromRequest_updated db req course c' Hc eq_refl)
    end.
    cbn [bind teachers set_students]. rewrite Ht. cbn [negb raise_if bind].
    change (User_fromRequest (update_Course db ?c) req)
      with (User_fromRequest db req).
    rewrite Hu. cbn [bind students set_students].
    rewrite (list_remove_app_new _ _ Hs). cbn [session_scope].
    rewrite set_students_back.
    match goal with
    | |- context [update_Course (update_Course db ?c') course] =>
        now rewrite (update_Course_back db course c' Hq eq_refl)
    end.
  - intros course teacher Hc Ht Hu Hs.
    destruct (Course_fromRequest_Return _ _ _ Hc) as [_ Hq].
    assert (Hk : get_param (params req) "userName" = Some (userName teacher)).
    { revert Hu. unfold User_fromRequest, forceParam.
      destruct (get_param (params req) "userName") as [n|]; [|discriminate].
      cbn [bind]. unfold query_User.
      destruct (find _ (users db)) as [u|] eqn:E; [|discriminate].
      intros H. inversion H; subst u. apply find_some in E.
      destruct E as [_ E]. apply String.eqb_eq in E. now rewrite E. }
    unfold AddTeacher.on_get, not_in. rewrite Ha. cbn [bind].
    unfold forceParam at 1. rewrite Hk. cbn [bind]. rewrite Hc.
    cbn [bind]. rewrite Ht. cbn [negb raise_if bind]. rewrite Hu.
    cbn [bind session_scope].
    rewrite (relationship_append_new _ _ Hs).
    eexists. split; [reflexivity|].
    unfold RemoveTeacher.on_get, not_in.
    change (auth (update_Course db ?c) req) with (auth db req).
    rewrite Ha. cbn [bind].
    match goal with
    | |- context [Course_fromRequest (update_Course db ?c') req] =>
        rewrite (Course_fromRequest_updated db req course c' Hc eq_refl)
    end.
    cbn [bind].
    change (User_fromRequest (update_Course db ?c) req)
      with (User_fromRequest db req).
    rewrite Hu. cbn [bind teachers set_teachers].
    rewrite inb_app, Ht. cbn [orb negb raise_if bind].
    assert (L : Nat.eqb (List.length (teachers course ++ [userName teacher]))
                        1 = false).
    { apply Nat.eqb_neq. rewrite length_app. cbn [List.length].
      destruct (teachers course); [discriminate Ht|simpl; lia]. }
    rewrite L. cbn [raise_if bind].
    rewrite (list_remove_app_new _ _ Hs). cbn [session_scope].
    rewrite set_teachers_back.
    match goal with
    | |- context [update_Course (update_Course db ?c') course] =>
        now rewrite (update_Course_back db course c' Hq eq_refl)
    end.
  - intros project newMember Hp Hm Hu Hs Ho.
    destruct (Project_fromRequest_Return _ _ _ Hp) as [_ Hq].
    unfold ShareProject.on_get, not_in. rewrite Ha. cbn [bind]. rewrite Hp.
    cbn [bind]. rewrite Hm. cbn [negb raise_if bind]. rewrite Hu.
    cbn [bind session_scope].
    rewrite (relationship_append_new _ _ Hs).
    eexists. split; [reflexivity|].
    unfold UnShareProject.on_get, not_in.
    change (auth (update_Project db ?c) req) with (auth db req).
    rewrite Ha. cbn [bind].
    match goal with
    | |- context [Project_fromRequest (update_Project db ?p') req] =>
        rewrite (Project_fromRequest_updated db req project p' Hp eq_refl)
    end.
    cbn [bind members set_members].
    rewrite inb_app, Hm. cbn [orb negb raise_if bind].
    change (User_fromRequest (update_Project db ?c) req)
      with (User_fromRequest db req).
    rewrite Hu. cbn [bind owners set_members]. rewrite Ho.
    cbn [raise_if bind].
    rewrite (list_remove_app_new _ _ Hs). cbn [session_scope].
    rewrite set_members_back.
    match goal with
    | |- context [update_Project (update_Project db ?p') project] =>
        now rewrite (update_Project_back db project p' Hq eq_refl)
    end.
Qed.

Lemma add_then_remove_restores_witness :
  exists db1,
    Enroll.on_get db_courses (enroll_alice course_one) = (succeeded, db1)
    /\ UnEnroll.on_get db1 (enroll_alice course_one)
       = (succeeded, db_courses).
Proof.
  refine (proj1 (add_then_remove_restores db_courses
                   (enroll_alice course_one) alice _) course_one _ _);
    vm_compute; reflexivity.
Defined.

(** ** One revision for equal first saves *)

(** X19.  Two projects that start from the same content share one
    revision: when two projects without head receive the same payload,
    the first save creates the revision row and writes the file, the
    second finds the row, writes nothing, and both projects end with the
    same head id. *)
Theorem equal_first_saves_share_a_revision
  (db : DB) (req1 req2 : Request) (user1 user2 : User) (p1 p2 : Project) :
  auth db req1 = Return user1 ->
  auth db req2 = Return user2 ->
  Project_fromRequest db req1 = Return p1 ->
  Project_fromRequest db req2 = Return p2 ->
  inb (userName user1) (members p1) = true ->
  inb (userName user2) (members p2) = true ->
  projId p1 <> projId p2 ->
  headId p1 = None ->
  headId p2 = None ->
  stream req2 = stream req1 ->
  let revId1 := computeId ROOT (stream req1) in
  let rev := {| revId := revId1; prevId := ROOT |} in
  existsb (fun r => String.eqb (revId r) revId1) (revisions db) = false ->
  exists db1 db2 q1 q2,
    SaveProject.on_post db req1 = (saved revId1, db1)
    /\ SaveProject.on_post db1 req2 = (saved revId1, db2)
    /\ revisions db2 = revisions db ++ [rev]
    /\ storage db2 = (Revision_filename rev, stream req1) :: storage db
    /\ query_Project db2 (projId p1) = Some q1
    /\ headId q1 = Some revId1
    /\ query_Project db2 (projId p2) = Some q2
    /\ headId q2 = Some revId1.
Proof.
  intros Ha1 Ha2 Hp1 Hp2 Hm1 Hm2 Hne Hh1 Hh2 Hs revId1 rev Hfree.
  unfold computeId in revId1.
  destruct (Project_fromRequest_Return _ _ _ Hp1) as [Hk1 Hq1].
  destruct (Project_fromRequest_Return _ _ _ Hp2) as [Hk2 Hq2].
  (* first save *)
  pose proof (SaveProject_on_post_authorized db req1 user1 p1 Ha1 Hp1 Hm1)
    as H1.
  cbv zeta in H1. unfold Project_head in H1. rewrite Hh1 in H1.
  change (formatHash 0) with ROOT in H1. fold revId1 in H1. fold rev in H1.
  rewrite (filter_by_none _ ROOT _ Hfree), Hfree in H1.
  set (p1' := set_headId
                match get_param (params req1) "sharedName" with
                | Some n => set_sharedName p1 (Some n)
                | None => p1
                end (Some revId1)) in *.
  set (db1 := Revision_save
                (update_Project (set_revisions db (revisions db ++ [rev]))
                                p1') rev (stream req1)) in *.
  assert (Eid1 : projId p1' = projId p1)
    by (unfold p1'; destruct (get_param (params req1) "sharedName");
        reflexivity).
  assert (Hq1' : query_Project db1 (projId p1) = Some p1')
    by exact (query_update_Project
                (set_revisions db (revisions db ++ [rev])) p1 p1' Hq1 Eid1).
  assert (Hq2' : query_Project db1 (projId p2) = Some p2).
  { unfold db1, Revision_save.
    change (query_Project
              (update_Project (set_revisions db (revisions db ++ [rev])) p1')
              (projId p2) = Some p2).
    rewrite query_update_Project_other; [exact Hq2|congruence]. }
  (* second save *)
  assert (Ha2' : auth db1 req2 = Return user2)
    by (rewrite <- Ha2; now apply auth_users).
  assert (Hp2' : Project_fromRequest db1 req2 = Return p2).
  { unfold Project_fromRequest, forceParam. rewrite Hk2. cbn [bind].
    now rewrite Hq2'. }
  pose proof (SaveProject_on_post_authorized db1 req2 user2 p2 Ha2' Hp2' Hm2)
    as H2.
  cbv zeta in H2. unfold Project_head in H2. rewrite Hh2 in H2.
  change (formatHash 0) with ROOT in H2. rewrite Hs in H2.
  fold revId1 in H2. fold rev in H2.
  assert (Hfound : existsb (filter_by revId1 ROOT) (revisions db1) = true).
  { unfold db1, Revision_save. cbn [revisions set_storage].
    rewrite revisions_update_Project. cbn [revisions set_revisions].
    rewrite existsb_app. cbn [existsb]. unfold filter_by at 2.
    cbn [revId prevId rev]. rewrite !String.eqb_refl.
    cbn [andb orb]. apply orb_true_r. }
  rewrite Hfound in H2.
  set (p2' := set_headId
                match get_param (params req2) "sharedName" with
                | Some n => set_sharedName p2 (Some n)
                | None => p2
                end (Some revId1)) in *.
  assert (Eid2 : projId p2' = projId p2)
    by (unfold p2'; destruct (get_param (params req2) "sharedName");
        reflexivity).
  exists db1, (update_Project db1 p2'), p1', p2'.
  split; [exact H1|]. split; [exact H2|].
  split; [reflexivity|]. split; [reflexivity|].
  split.
  { rewrite query_update_Project_other; [exact Hq1'|congruence]. }
  split; [reflexivity|].
  split; [now apply query_update_Project|reflexivity].
Qed.

Lemma equal_first_saves_share_a_revision_witness :
  exists db1 db2 q1 q2,
    SaveProject.on_post db_two_projects save_v1_again
    = (saved (computeId ROOT "v1"), db1)
    /\ SaveProject.on_post db1 save_v1_by_bob
       = (saved (computeId ROOT "v1"), db2)
    /\ revisions db2
       = revisions db_two_projects
         ++ [{| revId := computeId ROOT "v1"; prevId := ROOT |}]
    /\ storage db2
       = (Revision_filename
            {| revId := computeId ROOT "v1"; prevId := ROOT |}, "v1")
           :: storage db_two_projects
    /\ query_Project db2 (projId project_a1) = Some q1
    /\ headId q1 = Some (computeId ROOT "v1")
    /\ query_Project db2 (projId project_b2) = Some q2
    /\ headId q2 = Some (computeId ROOT "v1").
Proof.
  refine (equal_first_saves_share_a_revision
            db_two_projects save_v1_again save_v1_by_bob alice bob
            project_a1 project_b2 _ _ _ _ _ _ _ _ _ _ _);
    try (vm_compute; reflexivity).
  discriminate.
Defined.

(** ** Sharing and saving *)

Lemma Project_head_update_Project (db : DB) (p' p : Project) :
  Project_head (update_Project db p') p = Project_head db p.
Proof. reflexivity. Qed.

Lemma save_outcome_of_member
  (db : DB) (req : Request) (user : User) (project : Project) :
  auth db req = Return user ->
  Project_fromRequest db req = Return project ->
  inb (userName user) (members project) = true ->
  let prevId' := match Project_head db project with
                 | Some head => revId head
                 | None => ROOT
                 end in
  fst (SaveProject.on_post db req) = saved (computeId prevId' (stream req))
  \/ fst (SaveProject.on_post db req) = Raise IntegrityError.
Proof.
  intros Ha Hp Hm.
  rewrite (SaveProject_on_post_authorized db req user project Ha Hp Hm).
  cbv zeta. rewrite formatHash_0. fold ROOT.
  destruct (existsb (filter_by _ _) (revisions db));
    [now left|destruct (existsb _ (revisions db)); [now right|now left]].
Qed.

(** X20.  Sharing decides who may save.  A user who is not a member of a
    project is refused by [saveProject]; once a member has shared the
    project with them, the same request is accepted: it answers the id
    of the new revision, or fails on the primary key of the revisions
    table.  And once a member who is no owner and is listed once has been
    unshared, the request that was accepted is refused and changes
    nothing. *)
Theorem sharing_decides_who_saves
  (db : DB) (req save : Request) (user other : User) (project : Project) :
  auth db req = Return user ->
  Project_fromRequest db req = Return project ->
  inb (userName user) (members project) = true ->
  User_fromRequest db req = Return other ->
  auth db save = Return other ->
  Project_fromRequest db save = Return project ->
  let prevId' := match Project_head db project with
                 | Some head => revId head
                 | None => ROOT
                 end in
  let revId' := computeId prevId' (stream save) in
  (inb (userName other) (members project) = false ->
   SaveProject.on_post db save = (Raise NotAuthorized, db)
   /\ exists db1,
        ShareProject.on_get db req = (succeeded, db1)
        /\ (fst (SaveProject.on_post db1 save) = saved revId'
            \/ fst (SaveProject.on_post db1 save) = Raise IntegrityError))
  /\ (forall members',
         inb (userName other) (owners project) = false ->
         list_remove (userName other) (members project) = Some members' ->
         inb (userName other) members' = false ->
         (fst (SaveProject.on_post db save) = saved revId'
          \/ fst (SaveProject.on_post db save) = Raise IntegrityError)
         /\ exists db1,
              UnShareProject.on_get db req = (succeeded, db1)
              /\ SaveProject.on_post db1 save = (Raise NotAuthorized, db1)).
Proof.
  intros Ha Hp Hm Hu Ha' Hp' prevId' revId'. split.
  - intros Hn. split; [now apply (SaveProject_on_post_rejected db save other project)|].
    unfold ShareProject.on_get, not_in. rewrite Ha. cbn [bind]. rewrite Hp.
    cbn [bind]. rewrite Hm. cbn [negb raise_if bind]. rewrite Hu.
    cbn [bind session_scope].
    rewrite (relationship_append_new _ _ Hn).
    eexists. split; [reflexivity|].
    set (p' := set_members project (members project ++ [userName other])).
    assert (Ha1 : auth (update_Project db p') save = Return other)
      by exact Ha'.
    assert (Hp1 : Project_fromRequest (update_Project db p') save = Return p')
      by now apply (Project_fromRequest_updated db save project p').
    assert (Hm1 : inb (userName other) (members p') = true).
    { unfold p'. cbn [members set_members]. rewrite inb_app.
      cbn [inb existsb]. unfold inb. cbn [existsb].
      rewrite String.eqb_refl. now rewrite orb_true_r. }
    exact (save_outcome_of_member _ _ _ _ Ha1 Hp1 Hm1).
  - intros members' Ho Hr Hn.
    assert (Hm' : inb (userName other) (members project) = true).
    { destruct (inb (userName other) (members project)) eqn:E;
        [reflexivity|].
      apply list_remove_None in E. congruence. }
    split; [exact (save_outcome_of_member _ _ _ _ Ha' Hp' Hm')|].
    unfold UnShareProject.on_get, not_in. rewrite Ha. cbn [bind]. rewrite Hp.
    cbn [bind]. rewrite Hm. cbn [negb raise_if bind]. rewrite Hu.
    cbn [bind]. rewrite Ho. cbn [raise_if bind]. rewrite Hr.
    cbn [session_scope]. eexists. split; [reflexivity|].
    set (p' := set_members project members').
    apply (SaveProject_on_post_rejected _ save other p').
    + exact Ha'.
    + now apply (Project_fromRequest_updated db save project p').
    + exact Hn.
Qed.

Lemma sharing_decides_who_saves_witness :
  SaveProject.on_post db_created save_by_bob = (Raise NotAuthorized, db_created)
  /\ exists db1,
       ShareProject.on_get db_created (unshare_by_alice "bob")
       = (succeeded, db1)
       /\ (fst (SaveProject.on_post db1 save_by_bob)
           = saved (computeId ROOT "v1")
           \/ fst (SaveProject.on_post db1 save_by_bob)
              = Raise IntegrityError).
Proof.
  refine (proj1 (sharing_decides_who_saves db_created
                   (unshare_by_alice "bob") save_by_bob alice bob
                   project_a1 _ _ _ _ _ _) _);
    vm_compute; reflexivity.
Defined.

(** ** Two saves in a row *)

(** X21.  Two saves of the same payload in a row chain on each other:
    on a project without head, when the store holds neither id, the
    first save creates the revision [computeId ROOT payload] after
    [ROOT], makes it the head and writes its file; whenever the id
    computed after that head differs from it, the second save creates a
    second revision whose predecessor is the first, makes it the head
    and writes a second file. *)
Theorem second_save_chains_on_first
  (db : DB) (req : Request) (user : User) (project : Project) :
  auth db req = Return user ->
  Project_fromRequest db req = Return project ->
  inb (userName user) (members project) = true ->
  headId project = None ->
  let revId1 := computeId ROOT (stream req) in
  let revId2 := computeId revId1 (stream req) in
  revId1 <> revId2 ->
  existsb (fun r => String.eqb (revId r) revId1 || String.eqb (revId r) revId2)
          (revisions db) = false ->
  exists db1 db2 p1 p2,
    SaveProject.on_post db req = (saved revId1, db1)
    /\ snd (fst (get_or_create db revId1 ROOT)) = true
    /\ query_Project db1 (projId project) = Some p1
    /\ headId p1 = Some revId1
    /\ storage db1
       = (Revision_filename {| revId := revId1; prevId := ROOT |}, stream req)
           :: storage db
    /\ SaveProject.on_post db1 req = (saved revId2, db2)
    /\ snd (fst (get_or_create db1 revId2 revId1)) = true
    /\ query_Project db2 (projId project) = Some p2
    /\ headId p2 = Some revId2
    /\ In {| revId := revId2; prevId := revId1 |} (revisions db2)
    /\ storage db2
       = (Revision_filename {| revId := revId2; prevId := revId1 |},
          stream req) :: storage db1.
Proof.
  intros Ha Hp Hm Hh revId1 revId2. unfold computeId in revId1, revId2.
  intros Hne Hfree.
  destruct (existsb_orb_false _ _ _ Hfree) as [Hf1 Hf2].
  destruct (Project_fromRequest_Return _ _ _ Hp) as [Hk Hq].
  (* first save *)
  pose proof (SaveProject_on_post_authorized db req user project Ha Hp Hm)
    as H1.
  cbv zeta in H1. unfold Project_head in H1. rewrite Hh in H1.
  change (formatHash 0) with ROOT in H1.
  fold revId1 in H1.
  rewrite (filter_by_none _ ROOT _ Hf1), Hf1 in H1.
  set (rev1 := {| revId := revId1; prevId := ROOT |}) in *.
  set (p1 := set_headId
               match get_param (params req) "sharedName" with
               | Some n => set_sharedName project (Some n)
               | None => project
               end (Some revId1)) in *.
  set (db1 := Revision_save
                (update_Project (set_revisions db (revisions db ++ [rev1]))
                                p1) rev1 (stream req)) in *.
  assert (Eid : projId p1 = projId project)
    by (unfold p1; destruct (get_param (params req) "sharedName");
        reflexivity).
  assert (Em : members p1 = members project)
    by (unfold p1; destruct (get_param (params req) "sharedName");
        reflexivity).
  assert (Hq1 : query_Project db1 (projId project) = Some p1)
    by exact (query_update_Project
                (set_revisions db (revisions db ++ [rev1]))
                project p1 Hq Eid).
  (* second save *)
  assert (Ha1 : auth db1 req = Return user)
    by (rewrite <- Ha; now apply auth_users).
  assert (Hp1 : Project_fromRequest db1 req = Return p1).
  { unfold Project_fromRequest, forceParam. rewrite Hk. simpl.
    now rewrite Hq1. }
  assert (Hm1 : inb (userName user) (members p1) = true)
    by now rewrite Em.
  assert (Hhead : Project_head db1 p1 = Some rev1).
  { unfold Project_head. simpl. unfold query_Revision. simpl.
    apply find_app_new; [|simpl; apply String.eqb_refl].
    destruct (find (fun r => String.eqb (revId r) revId1) (revisions db))
      as [r|] eqn:E; [|reflexivity].
    apply find_some in E. destruct E as [Hin E].
    assert (X : existsb (fun r => String.eqb (revId r) revId1) (revisions db)
                = true) by (apply existsb_exists; now exists r).
    congruence. }
  pose proof (SaveProject_on_post_authorized db1 req user p1 Ha1 Hp1 Hm1)
    as H2.
  cbv zeta in H2. rewrite Hhead in H2.
  cbn [revId rev1] in H2. fold revId2 in H2.
  assert (Hf2' : existsb (fun r => String.eqb (revId r) revId2) (revisions db1)
                 = false).
  { simpl. rewrite existsb_app, Hf2. simpl.
    rewrite orb_false_r. apply String.eqb_neq. exact Hne. }
  rewrite (filter_by_none _ revId1 _ Hf2'), Hf2' in H2.
  set (rev2 := {| revId := revId2; prevId := revId1 |}) in *.
  set (p2 := set_headId
               match get_param (params req) "sharedName" with
               | Some n => set_sharedName p1 (Some n)
               | None => p1
               end (Some revId2)) in *.
  assert (Eid2 : projId p2 = projId p1)
    by (unfold p2; destruct (get_param (params req) "sharedName");
        reflexivity).
  eexists; eexists; exists p1, p2.
  split; [exact H1|].
  split; [now rewrite (get_or_create_new _ _ _ (filter_by_none _ ROOT _ Hf1))|].
  split; [exact Hq1|]. split; [reflexivity|].
  split; [reflexivity|]. split; [exact H2|].
  split;
    [now rewrite (get_or_create_new _ _ _ (filter_by_none _ revId1 _ Hf2'))|].
  split.
  { rewrite <- Eid.
    refine (query_update_Project
              (set_revisions db1 (revisions db1 ++ [rev2])) p1 p2 _ Eid2).
    rewrite Eid. exact Hq1. }
  split; [reflexivity|].
  split; [|reflexivity].
  simpl. apply in_or_app. right. now left.
Qed.

Lemma second_save_chains_on_first_witness :
  exists db1 db2 p1 p2,
    SaveProject.on_post db_created save_v1_again
    = (saved (computeId ROOT "v1"), db1)
    /\ snd (fst (get_or_create db_created (computeId ROOT "v1") ROOT)) = true
    /\ query_Project db1 (projId project_a1) = Some p1
    /\ headId p1 = Some (computeId ROOT "v1")
    /\ storage db1
       = (Revision_filename
            {| revId := computeId ROOT "v1"; prevId := ROOT |}, "v1")
           :: storage db_created
    /\ SaveProject.on_post db1 save_v1_again
       = (saved (computeId (computeId ROOT "v1") "v1"), db2)
    /\ snd (fst (get_or_create db1 (computeId (computeId ROOT "v1") "v1")
                   (computeId ROOT "v1"))) = true
    /\ query_Project db2 (projId project_a1) = Some p2
    /\ headId p2 = Some (computeId (computeId ROOT "v1") "v1")
    /\ In {| revId := computeId (computeId ROOT "v1") "v1";
             prevId := computeId ROOT "v1" |} (revisions db2)
    /\ storage db2
       = (Revision_filename
            {| revId := computeId (computeId ROOT "v1") "v1";
               prevId := computeId ROOT "v1" |}, "v1") :: storage db1.
Proof.
  assert (Hne : computeId ROOT "v1" <> computeId (computeId ROOT "v1") "v1").
  { rewrite computeId_second_v1, computeId_ROOT_v1. discriminate. }
  refine (second_save_chains_on_first db_created save_v1_again alice
            project_a1 _ _ _ _ Hne _);
    vm_compute; reflexivity.
Defined.

(** ** Adding again *)

Lemma replace_row_again {A : Type} (same : A -> bool) (new : A)
  (l : list A) :
  same new = true ->
  replace_row same new (replace_row same new l) = replace_row same new l.
Proof.
  intros Hn. induction l as [|q l IH]; simpl; [reflexivity|].
  destruct (same q) eqn:E; simpl.
  - now rewrite Hn.
  - rewrite E. now rewrite IH.
Qed.

Lemma update_Project_again (db : DB) (p : Project) :
  update_Project (update_Project db p) p = update_Project db p.
Proof.
  unfold update_Project. cbn [projects set_projects].
  rewrite replace_row_again by apply String.eqb_refl. reflexivity.
Qed.

Lemma update_Course_again (db : DB) (c : Course) :
  update_Course (update_Course db c) c = update_Course db c.
Proof.
  unfold update_Course. cbn [courses set_courses].
  rewrite replace_row_again by apply String.eqb_refl. reflexivity.
Qed.

Lemma relationship_append_again (x : string) (l : list string) :
  relationship_append x (relationship_append x l) = relationship_append x l.
Proof.
  apply relationship_append_old.
  rewrite inb_relationship_append, String.eqb_refl. apply orb_true_r.
Qed.

Lemma Enroll_again (db : DB) (req : Request) :
  Enroll.on_get (snd (Enroll.on_get db req)) req
  = (fst (Enroll.on_get db req), snd (Enroll.on_get db req)).
Proof.
  unfold Enroll.on_get.
  destruct (auth db req) as [e|user] eqn:Ha; cbn [bind session_scope snd fst];
    [now rewrite Ha|].
  destruct (Course_fromRequest db req) as [e|course] eqn:Hc;
    cbn [bind session_scope snd fst];
    [rewrite Ha; cbn [bind]; now rewrite Hc|].
  change (auth (update_Course db ?c) req) with (auth db req).
  rewrite Ha. cbn [bind].
  match goal with
  | |- context [Course_fromRequest (update_Course db ?c') req] =>
      rewrite (Course_fromRequest_updated db req course c' Hc eq_refl)
  end.
  cbn [bind session_scope students set_students].
  rewrite relationship_append_again.
  match goal with
  | |- context [update_Course (update_Course db ?c') ?c''] =>
      change c'' with c'; now rewrite update_Course_again
  end.
Qed.

Lemma AddStudent_again (db : DB) (req : Request) :
  AddStudent.on_get (snd (AddStudent.on_get db req)) req
  = (fst (AddStudent.on_get db req), snd (AddStudent.on_get db req)).
Proof.
  unfold AddStudent.on_get, not_in.
  destruct (auth db req) as [e|user] eqn:Ha; cbn [bind session_scope snd fst];
    [now rewrite Ha|].
  destruct (Course_fromRequest db req) as [e|course] eqn:Hc;
    cbn [bind session_scope snd fst];
    [rewrite Ha; cbn [bind]; now rewrite Hc|].
  destruct (inb (userName user) (teachers course)) eqn:Ht;
    cbn [negb raise_if bind session_scope snd fst];
    [|rewrite Ha; cbn [bind]; rewrite Hc; cbn [bind]; now rewrite Ht].
  destruct (User_fromRequest db req) as [e|student] eqn:Hu;
    cbn [bind session_scope snd fst];
    [rewrite Ha; cbn [bind]; rewrite Hc; cbn [bind]; rewrite Ht;
     cbn [negb raise_if bind]; now rewrite Hu|].
  change (auth (update_Course db ?c) req) with (auth db req).
  rewrite Ha. cbn [bind].
  match goal with
  | |- context [Course_fromRequest (update_Course db ?c') req] =>
      rewrite (Course_fromRequest_updated db req course c' Hc eq_refl)
  end.
  cbn [bind teachers set_students]. rewrite Ht. cbn [negb raise_if bind].
  change (User_fromRequest (update_Course db ?c) req)
    with (User_fromRequest db req).
  rewrite Hu. cbn [bind session_scope students set_students].
  rewrite relationship_append_again.
  match goal with
  | |- context [update_Course (update_Course db ?c') ?c''] =>
      change c'' with c'; now rewrite update_Course_again
  end.
Qed.

Lemma AddTeacher_again (db : DB) (req : Request) :
  AddTeacher.on_get (snd (AddTeacher.on_get db req)) req
  = (fst (AddTeacher.on_get db req), snd (AddTeacher.on_get db req)).
Proof.
  unfold AddTeacher.on_get, not_in.
  destruct (auth db req) as [e|user] eqn:Ha; cbn [bind session_scope snd fst];
    [now rewrite Ha|].
  destruct (forceParam req "userName") as [e|n] eqn:Hn;
    cbn [bind session_scope snd fst]; [now rewrite Ha|].
  destruct (Course_fromRequest db req) as [e|course] eqn:Hc;
    cbn [bind session_scope snd fst];
    [rewrite Ha; cbn [bind]; now rewrite Hc|].
  destruct (inb (userName user) (teachers course)) eqn:Ht;
    cbn [negb raise_if bind session_scope snd fst];
    [|rewrite Ha; cbn [bind]; rewrite Hc; cbn [bind]; now rewrite Ht].
  destruct (User_fromRequest db req) as [e|teacher] eqn:Hu;
    cbn [bind session_scope snd fst];
    [rewrite Ha; cbn [bind]; rewrite Hc; cbn [bind]; rewrite Ht;
     cbn [negb raise_if bind]; now rewrite Hu|].
  change (auth (update_Course db ?c) req) with (auth db req).
  rewrite Ha. cbn [bind].
  match goal with
  | |- context [Course_fromRequest (update_Course db ?c') req] =>
      rewrite (Course_fromRequest_updated db req course c' Hc eq_refl)
  end.
  cbn [bind teachers set_teachers].
  rewrite inb_relationship_append, Ht. cbn [orb negb raise_if bind].
  change (User_fromRequest (update_Course db ?c) req)
    with (User_fromRequest db req).
  rewrite Hu. cbn [bind session_scope teachers set_teachers].
  rewrite relationship_append_again.
  match goal with
  | |- context [update_Course (update_Course db ?c') ?c''] =>
      change c'' with c'; now rewrite update_Course_again
  end.
Qed.

Lemma ShareProject_again (db : DB) (req : Request) :
  ShareProject.on_get (snd (ShareProject.on_get db req)) req
  = (fst (ShareProject.on_get db req), snd (ShareProject.on_get db req)).
Proof.
  unfold ShareProject.on_get, not_in.
  destruct (auth db req) as [e|user] eqn:Ha; cbn [bind session_scope snd fst];
    [now rewrite Ha|].
  destruct (Project_fromRequest db req) as [e|project] eqn:Hp;
    cbn [bind session_scope snd fst];
    [rewrite Ha; cbn [bind]; now rewrite Hp|].
  destruct (inb (userName user) (members project)) eqn:Hm;
    cbn [negb raise_if bind session_scope snd fst];
    [|rewrite Ha; cbn [bind]; rewrite Hp; cbn [bind]; now rewrite Hm].
  destruct (User_fromRequest db req) as [e|newMember] eqn:Hu;
    cbn [bind session_scope snd fst];
    [rewrite Ha; cbn [bind]; rewrite Hp; cbn [bind]; rewrite Hm;
     cbn [negb raise_if bind]; now rewrite Hu|].
  change (auth (update_Project db ?c) req) with (auth db req).
  rewrite Ha. cbn [bind].
  match goal with
  | |- context [Project_fromRequest (update_Project db ?p') req] =>
      rewrite (Project_fromRequest_updated db req project p' Hp eq_refl)
  end.
  cbn [bind members set_members].
  rewrite inb_relationship_append, Hm. cbn [orb negb raise_if bind].
  change (User_fromRequest (update_Project db ?c) req)
    with (User_fromRequest db req).
  rewrite Hu. cbn [bind session_scope members set_members].
  rewrite relationship_append_again.
  match goal with
  | |- context [update_Project (update_Project db ?p') ?p''] =>
      change p'' with p'; now rewrite update_Project_again
  end.
Qed.

Lemma ShareProjectWithStudents_again (db : DB) (req : Request) :
  ShareProjectWithStudents.on_get
    (snd (ShareProjectWithStudents.on_get db req)) req
  = (fst (ShareProjectWithStudents.on_get db req),
     snd (ShareProjectWithStudents.on_get db req)).
Proof.
  unfold ShareProjectWithStudents.on_get, not_in.
  destruct (auth db req) as [e|user] eqn:Ha; cbn [bind session_scope snd fst];
    [now rewrite Ha|].
  destruct (Project_fromRequest db req) as [e|project] eqn:Hp;
    cbn [bind session_scope snd fst];
    [rewrite Ha; cbn [bind]; now rewrite Hp|].
  destruct (inb (userName user) (members project)) eqn:Hm;
    cbn [negb raise_if bind session_scope snd fst];
    [|rewrite Ha; cbn [bind]; rewrite Hp; cbn [bind]; now rewrite Hm].
  destruct (Course_fromRequest db req) as [e|course] eqn:Hc;
    cbn [bind session_scope snd fst];
    [rewrite Ha; cbn [bind]; rewrite Hp; cbn [bind]; rewrite Hm;
     cbn [negb raise_if bind]; now rewrite Hc|].
  destruct (inb (userName user) (teachers course)) eqn:Ht;
    cbn [negb raise_if bind session_scope snd fst];
    [|rewrite Ha; cbn [bind]; rewrite Hp; cbn [bind]; rewrite Hm;
      cbn [negb raise_if bind]; rewrite Hc; cbn [bind]; now rewrite Ht].
  change (auth (update_Project db ?c) req) with (auth db req).
  rewrite Ha. cbn [bind].
  match goal with
  | |- context [Project_fromRequest (update_Project db ?p') req] =>
      rewrite (Project_fromRequest_updated db req project p' Hp eq_refl)
  end.
  cbn [bind members set_course_shared_with_students].
  rewrite Hm. cbn [negb raise_if bind].
  change (Course_fromRequest (update_Project db ?c) req)
    with (Course_fromRequest db req).
  rewrite Hc. cbn [bind]. rewrite Ht.
  cbn [negb raise_if bind session_scope course_shared_with_students
       set_course_shared_with_students].
  rewrite relationship_append_again.
  match goal with
  | |- context [update_Project (update_Project db ?p') ?p''] =>
      change p'' with p'; now rewrite update_Project_again
  end.
Qed.

Lemma ShareProjectWithTeachers_again (db : DB) (req : Request) :
  ShareProjectWithTeachers.on_get
    (snd (ShareProjectWithTeachers.on_get db req)) req
  = (fst (ShareProjectWithTeachers.on_get db req),
     snd (ShareProjectWithTeachers.on_get db req)).
Proof.
  unfold ShareProjectWithTeachers.on_get, not_in.
  destruct (auth db req) as [e|user] eqn:Ha; cbn [bind session_scope snd fst];
    [now rewrite Ha|].
  destruct (Project_fromRequest db req) as [e|project] eqn:Hp;
    cbn [bind session_scope snd fst];
    [rewrite Ha; cbn [bind]; now rewrite Hp|].
  destruct (inb (userName user) (members project)) eqn:Hm;
    cbn [negb raise_if bind session_scope snd fst];
    [|rewrite Ha; cbn [bind]; rewrite Hp; cbn [bind]; now rewrite Hm].
  destruct (Course_fromRequest db req) as [e|course] eqn:Hc;
    cbn [bind session_scope snd fst];
    [rewrite Ha; cbn [bind]; rewrite Hp; cbn [bind]; rewrite Hm;
     cbn [negb raise_if bind]; now rewrite Hc|].
  destruct (negb (inb (userName user) (students course))
            && negb (inb (userName user) (teachers course))) eqn:Hg;
    cbn [raise_if bind session_scope snd fst];
    [rewrite Ha; cbn [bind]; rewrite Hp; cbn [bind]; rewrite Hm;
     cbn [negb raise_if bind]; rewrite Hc; cbn [bind]; now rewrite Hg|].
  change (auth (update_Project db ?c) req) with (auth db req).
  rewrite Ha. cbn [bind].
  match goal with
  | |- context [Project_fromRequest (update_Project db ?p') req] =>
      rewrite (Project_fromRequest_updated db req project p' Hp eq_refl)
  end.
  cbn [bind members set_course_shared_with_teachers].
  rewrite Hm. cbn [negb raise_if bind].
  change (Course_fromRequest (update_Project db ?c) req)
    with (Course_fromRequest db req).
  rewrite Hc. cbn [bind]. rewrite Hg.
  cbn [raise_if bind session_scope course_shared_with_teachers
       set_course_shared_with_teachers].
  rewrite relationship_append_again.
  match goal with
  | |- context [update_Project (update_Project db ?p') ?p''] =>
      change p'' with p'; now rewrite update_Project_again
  end.
Qed.

(** X22.  Adding again changes nothing: on the six adding routes
    ([addStudent], [addTeacher], [enroll], [shareProject],
    [shareProjectWithStudents], [shareProjectWithTeachers]) a request
    repeated on the database the first one left gets the same answer
    and leaves that database as it is.  A user or course that is in the
    list already is not listed a second time. *)
Theorem adding_again_changes_nothing
  (r : Route) (db : DB) (req : Request) (rnd : N) :
  In r [addStudent; addTeacher; enroll; shareProject;
        shareProjectWithStudents; shareProjectWithTeachers] ->
  handle r (snd (handle r db req rnd)) req rnd
  = (fst (handle r db req rnd), snd (handle r db req rnd)).
Proof.
  intros Hr. cbn [In] in Hr.
  destruct Hr as [<-|[<-|[<-|[<-|[<-|[<-|[]]]]]]]; cbn [handle].
  - apply AddStudent_again.
  - apply AddTeacher_again.
  - apply Enroll_again.
  - apply ShareProject_again.
  - apply ShareProjectWithStudents_again.
  - apply ShareProjectWithTeachers_again.
Qed.

Lemma adding_again_changes_nothing_witness :
  handle shareProject
    (snd (handle shareProject db_created (unshare_by_alice "bob") 0%N))
    (unshare_by_alice "bob") 0%N
  = (fst (handle shareProject db_created (unshare_by_alice "bob") 0%N),
     snd (handle shareProject db_created (unshare_by_alice "bob") 0%N)).
Proof.
  apply (adding_again_changes_nothing shareProject db_created
           (unshare_by_alice "bob") 0%N).
  cbn [In]. right. right. right. now left.
Defined.

(** ** Association tables without double rows *)

Lemma NoDup_relationship_append (x : string) (l : list string) :
  NoDup l -> NoDup (relationship_append x l).
Proof.
  intros H. unfold relationship_append. destruct (inb x l) eqn:E;
    [exact H|].
  apply NoDup_app_new; [exact H|]. now apply inb_false.
Qed.

Lemma In_list_remove (x u : string) (l l' : list string) :
  list_remove x l = Some l' -> In u l' -> In u l.
Proof.
  revert l'. induction l as [|y l IH]; simpl; intros l' H Hin;
    [discriminate|].
  destruct (String.eqb y x).
  - inversion H; subst. now right.
  - destruct (list_remove x l) as [r|]; [|discriminate].
    inversion H; subst. destruct Hin as [->|Hin]; [now left|].
    right. now apply (IH r).
Qed.

Lemma NoDup_list_remove (x : string) (l l' : list string) :
  list_remove x l = Some l' -> NoDup l -> NoDup l'.
Proof.
  revert l'. induction l as [|y l IH]; simpl; intros l' H Hl;
    [discriminate|].
  inversion Hl as [|y' l0 Hy Hl']; subst.
  destruct (String.eqb y x).
  - now inversion H; subst.
  - destruct (list_remove x l) as [r|] eqn:E; [|discriminate].
    inversion H; subst. constructor; [|now apply (IH r)].
    intros Hin. apply Hy. now apply (In_list_remove x y l r).
Qed.

Lemma Forall_Course_fromRequest (P : Course -> Prop) (db : DB)
  (req : Request) (c : Course) :
  Forall P (courses db) -> Course_fromRequest db req = Return c -> P c.
Proof.
  intros H Hc. rewrite Forall_forall in H. apply H.
  destruct (Course_fromRequest_Return _ _ _ Hc) as [_ Hq].
  unfold query_Course in Hq. now apply find_some in Hq.
Qed.

Lemma no_double_rows_update_Project (db : DB) (p : Project) :
  no_double_rows db -> project_lists_are_sets p ->
  no_double_rows (update_Project db p).
Proof.
  intros [Kp Kc] Hp. split; [now apply Forall_update_Project|exact Kc].
Qed.

Lemma no_double_rows_update_Course (db : DB) (c : Course) :
  no_double_rows db -> course_lists_are_sets c ->
  no_double_rows (update_Course db c).
Proof.
  intros [Kp Kc] Hc. split; [exact Kp|now apply Forall_update_Course].
Qed.

(** X23.  No association table gets a row twice: when the member, owner
    and share lists of every project and the teacher and student lists
    of every course are duplicate-free, they are so after any request on
    any route.  The adding routes list a user or course once, the
    removing routes take one out, and new rows start with one-element
    or empty lists. *)
Theorem lists_stay_sets
  (r : Route) (db : DB) (req : Request) (rnd : N) :
  no_double_rows db -> no_double_rows (snd (handle r db req rnd)).
Proof.
  intros K.
  assert (Pp : forall p0, Project_fromRequest db req = Return p0 ->
                          project_lists_are_sets p0)
    by (intros p0 H; exact (Forall_fromRequest _ _ _ _ (proj1 K) H)).
  assert (Pc : forall c0, Course_fromRequest db req = Return c0 ->
                          course_lists_are_sets c0)
    by (intros c0 H; exact (Forall_Course_fromRequest _ _ _ _ (proj2 K) H)).
  destruct r; cbn [handle];
    try (handler_cases db Hb; [exact K|]; inv_exc Hb; try exact K;
         first
           [ apply no_double_rows_update_Project; [exact K|];
             match goal with
             | H : Project_fromRequest db req = Return ?p0 |- _ =>
                 destruct (Pp p0 H) as [Hm [Ho [Ht Hs]]]
             end;
             unfold project_lists_are_sets;
             cbn [members owners course_shared_with_teachers
                  course_shared_with_students set_members set_public
                  set_course_shared_with_teachers
                  set_course_shared_with_students];
             repeat split;
             solve [ assumption
                   | now apply NoDup_relationship_append
                   | eapply NoDup_list_remove; eassumption ]
           | apply no_double_rows_update_Course; [exact K|];
             match goal with
             | H : Course_fromRequest db req = Return ?c0 |- _ =>
                 destruct (Pc c0 H) as [Ht Hs]
             end;
             unfold course_lists_are_sets;
             cbn [teachers students set_teachers set_students];
             split;
             solve [ assumption
                   | now apply NoDup_relationship_append
                   | eapply NoDup_list_remove; eassumption ]
           | idtac ]).
  + (* createCourse *)
    destruct K as [Kp Kc]. split; [exact Kp|].
    cbn [courses set_courses]. apply Forall_app. split; [exact Kc|].
    constructor; [|constructor]. split; cbn [teachers students].
    * constructor; [intros []|constructor].
    * constructor.
  + (* createProject *)
    destruct K as [Kp Kc]. split; [|exact Kc].
    cbn [projects set_projects]. apply Forall_app. split; [exact Kp|].
    constructor; [|constructor].
    unfold project_lists_are_sets.
    cbn [members owners course_shared_with_teachers
         course_shared_with_students set_members app].
    repeat split; repeat constructor; intros [].
  + (* saveProject *)
    destruct (SaveProject_on_post_cases db req)
      as [[e ->] | [user [project [Ha [Hp Hm]]]]]; [exact K|].
    rewrite (SaveProject_on_post_authorized db req user project Ha Hp Hm).
    cbv zeta.
    assert (Hn : forall h, project_lists_are_sets
                   (set_headId
                      match get_param (params req) "sharedName" with
                      | Some n => set_sharedName project (Some n)
                      | None => project
                      end h)).
    { intros h. destruct (get_param (params req) "sharedName");
        exact (Pp project Hp). }
    destruct (existsb (filter_by _ _) (revisions db));
      [|destruct (existsb _ (revisions db))]; cbn [snd].
    * now apply no_double_rows_update_Project.
    * exact K.
    * unfold Revision_save. destruct K as [Kp Kc]. split.
      -- exact (Forall_update_Project project_lists_are_sets
                  (set_revisions db (revisions db ++ _)) _ Kp (Hn _)).
      -- exact Kc.
  + (* uncreateProject *)
    destruct K as [Kp Kc]. split; [|exact Kc].
    now apply Forall_delete_Project.
Qed.

Lemma lists_stay_sets_witness :
  no_double_rows
    (snd (handle shareProject db_created (unshare_by_alice "bob") 0)).
Proof.
  apply (lists_stay_sets shareProject db_created (unshare_by_alice "bob") 0%N).
  assert (E : projects db_created = [project_a1]) by (vm_compute; reflexivity).
  assert (Ec : courses db_created = []) by (vm_compute; reflexivity).
  unfold no_double_rows. rewrite E, Ec. split; [|constructor].
  constructor; [|constructor].
  unfold project_lists_are_sets. cbn.
  repeat split; repeat constructor; intros [].
Defined.

(** ** What a removal takes out *)

Lemma list_remove_without (x : string) (l l' : list string) :
  list_remove x l = Some l' -> NoDup l -> without x l l'.
Proof.
  revert l'. induction l as [|y l IH]; simpl; intros l' H Hl n;
    [discriminate|].
  inversion Hl as [|y' l0 Hy Hl']; subst.
  destruct (String.eqb y x) eqn:E.
  - inversion H; subst. apply String.eqb_eq in E. subst y.
    unfold inb at 2. cbn [existsb]. fold (inb n l').
    destruct (String.eqb n x) eqn:En; cbn [orb negb].
    + apply String.eqb_eq in En. subst n. rewrite andb_false_r.
      now apply inb_false.
    + now rewrite andb_true_r.
  - destruct (list_remove x l) as [r|] eqn:Er; [|discriminate].
    inversion H; subst. unfold inb. cbn [existsb].
    fold (inb n r). fold (inb n l). rewrite (IH r eq_refl Hl' n).
    destruct (String.eqb n y) eqn:En; cbn [orb]; [|reflexivity].
    apply String.eqb_eq in En. subst n. now rewrite E.
Qed.

Lemma list_remove_present (x : string) (l : list string) :
  inb x l = true -> exists l', list_remove x l = Some l'.
Proof.
  intros H. destruct (list_remove x l) as [l'|] eqn:E; [now exists l'|].
  apply list_remove_None in E. congruence.
Qed.

(** X24.  A removal that succeeds takes out the named user and no one
    else: when the list is duplicate-free and holds the user,
    [removeTeacher] (on a course with more than one teacher),
    [removeStudent], [unenroll] and [unshareProject] (of a user who is
    no owner) answer success; afterwards the user is not in the list,
    every other name is in it exactly when it was, the other list of the
    row is as it was, and the rows under other ids are untouched. *)
Theorem removal_takes_out_the_named_user_only
  (db : DB) (req : Request) (user : User) :
  auth db req = Return user ->
  (forall course teacher,
      Course_fromRequest db req = Return course ->
      User_fromRequest db req = Return teacher ->
      inb (userName user) (teachers course) = true ->
      NoDup (teachers course) ->
      List.length (teachers course) <> 1%nat ->
      inb (userName teacher) (teachers course) = true ->
      exists db' course',
        RemoveTeacher.on_get db req = (succeeded, db')
        /\ query_Course db' (courseId course) = Some course'
        /\ without (userName teacher) (teachers course) (teachers course')
        /\ students course' = students course
        /\ forall k, k <> courseId course ->
                     query_Course db' k = query_Course db k)
  /\ (forall course student,
         Course_fromRequest db req = Return course ->
         User_fromRequest db req = Return student ->
         inb (userName user) (teachers course) = true ->
         NoDup (students course) ->
         inb (userName student) (students course) = true ->
         exists db' course',
           RemoveStudent.on_get db req = (succeeded, db')
           /\ query_Course db' (courseId course) = Some course'
           /\ without (userName student) (students course) (students course')
           /\ teachers course' = teachers course
           /\ forall k, k <> courseId course ->
                        query_Course db' k = query_Course db k)
  /\ (forall course,
         Course_fromRequest db req = Return course ->
         NoDup (students course) ->
         inb (userName user) (students course) = true ->
         exists db' course',
           UnEnroll.on_get db req = (succeeded, db')
           /\ query_Course db' (courseId course) = Some course'
           /\ without (userName user) (students course) (students course')
           /\ teachers course' = teachers course
           /\ forall k, k <> courseId course ->
                        query_Course db' k = query_Course db k)
  /\ (forall project toRemove,
         Project_fromRequest db req = Return project ->
         User_fromRequest db req = Return toRemove ->
         inb (userName user) (members project) = true ->
         inb (userName toRemove) (owners project) = false ->
         NoDup (members project) ->
         inb (userName toRemove) (members project) = true ->
         exists db' project',
           UnShareProject.on_get db req = (succeeded, db')
           /\ query_Project db' (projId project) = Some project'
           /\ without (userName toRemove) (members project)
                      (members project')
           /\ owners project' = owners project
           /\ headId project' = headId project
           /\ forall k, k <> projId project ->
                        query_Project db' k = query_Project db k).
Proof.
  intros Ha. split; [|split; [|split]].
  - intros course teacher Hc Hu Ht Hnd Hlen Hin.
    destruct (Course_fromRequest_Return _ _ _ Hc) as [_ Hq].
    destruct (list_remove_present _ _ Hin) as [l' Hr].
    rewrite (RemoveTeacher_on_get_authorized db req user course teacher
               Ha Hc Hu Ht).
    apply Nat.eqb_neq in Hlen. rewrite Hlen, Hr.
    exists (update_Course db (set_teachers course l')),
           (set_teachers course l').
    split; [reflexivity|].
    split; [now apply query_update_Course|].
    split; [now apply list_remove_without|].
    split; [reflexivity|].
    intros k Hk. apply query_update_Course_other.
    cbn [courseId set_teachers]. congruence.
  - intros course student Hc Hu Ht Hnd Hin.
    destruct (Course_fromRequest_Return _ _ _ Hc) as [_ Hq].
    destruct (list_remove_present _ _ Hin) as [l' Hr].
    unfold RemoveStudent.on_get, not_in. rewrite Ha. cbn [bind].
    rewrite Hc. cbn [bind]. rewrite Ht. cbn [negb raise_if bind].
    rewrite Hu. cbn [bind]. rewrite Hr. cbn [session_scope].
    exists (update_Course db (set_students course l')),
           (set_students course l').
    split; [reflexivity|].
    split; [now apply query_update_Course|].
    split; [now apply list_remove_without|].
    split; [reflexivity|].
    intros k Hk. apply query_update_Course_other.
    cbn [courseId set_students]. congruence.
  - intros course Hc Hnd Hin.
    destruct (Course_fromRequest_Return _ _ _ Hc) as [_ Hq].
    destruct (list_remove_present _ _ Hin) as [l' Hr].
    unfold UnEnroll.on_get. rewrite Ha. cbn [bind].
    rewrite Hc. cbn [bind]. rewrite Hr. cbn [session_scope].
    exists (update_Course db (set_students course l')),
           (set_students course l').
    split; [reflexivity|].
    split; [now apply query_update_Course|].
    split; [now apply list_remove_without|].
    split; [reflexivity|].
    intros k Hk. apply query_update_Course_other.
    cbn [courseId set_students]. congruence.
  - intros project toRemove Hp Hu Hm Ho Hnd Hin.
    destruct (Project_fromRequest_Return _ _ _ Hp) as [_ Hq].
    destruct (list_remove_present _ _ Hin) as [l' Hr].
    unfold UnShareProject.on_get, not_in. rewrite Ha. cbn [bind].
    rewrite Hp. cbn [bind]. rewrite Hm. cbn [negb raise_if bind].
    rewrite Hu. cbn [bind]. rewrite Ho. cbn [raise_if bind].
    rewrite Hr. cbn [session_scope].
    exists (update_Project db (set_members project l')),
           (set_members project l').
    split; [reflexivity|].
    split; [now apply query_update_Project|].
    split; [now apply list_remove_without|].
    split; [reflexivity|]. split; [reflexivity|].
    intros k Hk. apply query_update_Project_other.
    cbn [projId set_members]. congruence.
Qed.

Lemma removal_takes_out_the_named_user_only_witness :
  exists db' course',
    RemoveTeacher.on_get db_courses
      (remove_teacher_by_bob course_two "alice") = (succeeded, db')
    /\ query_Course db' (courseId course_two) = Some course'
    /\ without "alice" (teachers course_two) (teachers course')
    /\ students course' = students course_two
    /\ forall k, k <> courseId course_two ->
                 query_Course db' k = query_Course db_courses k.
Proof.
  refine (proj1 (removal_takes_out_the_named_user_only db_courses
                   (remove_teacher_by_bob course_two "alice") bob _)
            course_two alice _ _ _ _ _ _);
    try (vm_compute; reflexivity).
  - repeat constructor; simpl; intuition discriminate.
  - discriminate.
Defined.
